(** * Wallet fun-fact analyzers: a shallow embedding and its properties

    The development follows the TypeScript sources of the repository:
    - [prd-implementation/src/features/ethBenchmark.ts] (ETH benchmark),
    - the two [portfolioATH.ts] files (with and without the ATH cache),
    - the two [labels.ts] and the two [smartMoney.ts] files,
    - [pnl.ts], [ruggedProjects.ts], [formatting.ts], [constants/labels.ts].

    Conventions of the embedding.
    - A JavaScript [number] is an exact rational or one of the three
      non-finite values; every finite result is kept in lowest terms.
      Rounding to binary64, overflow to an infinity, underflow to zero
      and the sign of zero are not represented.  The statements below say
      which operations the code performs on which values and how it
      compares them; a value they give for an expression is its exact
      value.
    - A JavaScript string is a [string] of bytes; [toLowerCase] acts on
      the ASCII letters.
    - A nullable field is an [option]; a property access that raises a
      [TypeError] on [null] is a [Thrown] outcome.
    - An awaited upstream call is an [outcome]: what it returned, or the
      failure it raised.  Console logging is left out. *)

From Stdlib Require Import ZArith QArith Qabs Qround String Ascii List Bool Lia Lqa.
From Stdlib Require Import DecimalString.
From stdpp Require Import gmap strings.
Import ListNotations.

Local Open Scope string_scope.

(** ** JavaScript numbers *)

Module JS.

Inductive number : Type :=
| Fin (q : Q)
| PosInf
| NegInf
| NaN.

(** A finite result, kept in lowest terms. *)
Definition fin (q : Q) : number := Fin (Qred q).

Definition Qltb (a b : Q) : bool := negb (Qle_bool b a).

Definition of_Z (z : Z) : number := Fin (inject_Z z).

Definition of_nat (n : nat) : number := of_Z (Z.of_nat n).

Definition zero : number := Fin 0.

Definition neg (a : number) : number :=
  match a with
  | Fin q => fin (- q)
  | PosInf => NegInf
  | NegInf => PosInf
  | NaN => NaN
  end.

(** [a + b] *)
Definition add (a b : number) : number :=
  match a, b with
  | NaN, _ | _, NaN => NaN
  | Fin x, Fin y => fin (x + y)
  | PosInf, NegInf | NegInf, PosInf => NaN
  | PosInf, _ | _, PosInf => PosInf
  | NegInf, _ | _, NegInf => NegInf
  end.

(** [a - b] *)
Definition sub (a b : number) : number := add a (neg b).

(** The infinity of the sign of [pos]. *)
Definition inf_of (pos : bool) : number := if pos then PosInf else NegInf.

(** Infinity times a finite value: [NaN] on zero, else by the signs. *)
Definition inf_times (pos : bool) (y : Q) : number :=
  if Qeq_bool y 0 then NaN
  else inf_of (eqb pos (Qltb 0 y)).

(** [a * b] *)
Definition mul (a b : number) : number :=
  match a, b with
  | NaN, _ | _, NaN => NaN
  | Fin x, Fin y => fin (x * y)
  | PosInf, Fin y => inf_times true y
  | NegInf, Fin y => inf_times false y
  | Fin x, PosInf => inf_times true x
  | Fin x, NegInf => inf_times false x
  | PosInf, PosInf | NegInf, NegInf => PosInf
  | PosInf, NegInf | NegInf, PosInf => NegInf
  end.

(** [a / b]: a finite value divided by zero is an infinity, and [0 / 0]
    is [NaN]; nothing is raised. *)
Definition div (a b : number) : number :=
  match a, b with
  | NaN, _ | _, NaN => NaN
  | Fin x, Fin y =>
      if Qeq_bool y 0 then
        if Qeq_bool x 0 then NaN else inf_of (Qltb 0 x)
      else fin (x / y)
  | Fin _, PosInf | Fin _, NegInf => Fin 0
  | PosInf, Fin y => inf_of (Qle_bool 0 y)
  | NegInf, Fin y => inf_of (negb (Qle_bool 0 y))
  | _, _ => NaN
  end.

(** [Math.abs] *)
Definition abs (a : number) : number :=
  match a with
  | Fin q => fin (Qabs q)
  | PosInf | NegInf => PosInf
  | NaN => NaN
  end.

(** [a < b]; every comparison with [NaN] is false. *)
Definition lt (a b : number) : bool :=
  match a, b with
  | NaN, _ | _, NaN => false
  | Fin x, Fin y => Qltb x y
  | NegInf, NegInf | PosInf, _ => false
  | NegInf, _ => true
  | Fin _, PosInf => true
  | Fin _, NegInf => false
  end.

(** [a > b] *)
Definition gt (a b : number) : bool := lt b a.

(** [a === b] on numbers. *)
Definition eq (a b : number) : bool :=
  match a, b with
  | Fin x, Fin y => Qeq_bool x y
  | PosInf, PosInf | NegInf, NegInf => true
  | _, _ => false
  end.

(** [a >= b] *)
Definition ge (a b : number) : bool := lt b a || eq a b.

(** Truthiness of a number: neither zero nor [NaN]. *)
Definition truthy (a : number) : bool :=
  match a with
  | Fin q => negb (Qeq_bool q 0)
  | PosInf | NegInf => true
  | NaN => false
  end.

Definition is_finite (a : number) : bool :=
  match a with Fin _ => true | _ => false end.

(** ** Strings *)

Definition lower_ascii (c : ascii) : ascii :=
  let n := nat_of_ascii c in
  if (65 <=? n)%nat && (n <=? 90)%nat then ascii_of_nat (n + 32) else c.

(** [s.toLowerCase()] *)
Fixpoint toLowerCase (s : string) : string :=
  match s with
  | EmptyString => EmptyString
  | String c r => String (lower_ascii c) (toLowerCase r)
  end.

(** [s.includes(sub)]: [sub] occurs in [s] as a contiguous run. *)
Fixpoint includes (s sub : string) : bool :=
  String.prefix sub s
  || match s with
     | EmptyString => false
     | String _ r => includes r sub
     end.

(** Truthiness of a nullable string: neither [null] nor empty. *)
Definition truthy_str (o : option string) : bool :=
  match o with
  | Some s => negb (String.eqb s "")
  | None => false
  end.

(** [arr.includes(x)] on an array of strings. *)
Definition array_includes (arr : list string) (x : string) : bool :=
  existsb (String.eqb x) arr.

(** [arr.findIndex(p)], with [None] for [-1]. *)
Fixpoint findIndex {A : Type} (p : A -> bool) (arr : list A) : option nat :=
  match arr with
  | [] => None
  | x :: r => if p x then Some 0%nat else option_map S (findIndex p r)
  end.

(** ** Printing and parsing numbers *)

Definition pow10 (d : nat) : Z := (10 ^ Z.of_nat d)%Z.

(** The decimal digits of a natural number, ["0"] for zero. *)
Definition digits_of (n : Z) : string :=
  NilZero.string_of_uint (N.to_uint (Z.to_N n)).

Fixpoint zeros (k : nat) : string :=
  match k with
  | O => ""
  | S k' => String "0" (zeros k')
  end.

(** Left-pad with zeros up to [w] characters. *)
Definition pad_zeros (s : string) (w : nat) : string :=
  zeros (w - String.length s) ++ s.

(** A digit string without its trailing zeros. *)
Fixpoint strip_trailing_zeros (s : string) : string :=
  match s with
  | EmptyString => EmptyString
  | String c r =>
      match strip_trailing_zeros r with
      | EmptyString =>
          if (c =? "0")%char then EmptyString else String c EmptyString
      | r' => String c r'
      end
  end.

(** [String(a)] for a magnitude [a] of [10^21] or more: exponent
    notation on its significant digits, of which a binary64 number has
    at most 17; the digits are those of [a] rounded to 17 places, without
    trailing zeros. *)
Definition exponent_form (a : Q) : string :=
  let e := (String.length (digits_of (Qfloor a)) - 1)%nat in
  let m := Qfloor (a / inject_Z (pow10 (e - 16)) + (1 # 2))%Q in
  let '(m', e') := if (pow10 17 <=? m)%Z then (pow10 16, S e) else (m, e) in
  match strip_trailing_zeros (digits_of m') with
  | String c EmptyString => String c ("e+" ++ digits_of (Z.of_nat e'))
  | String c r => String c ("." ++ r ++ "e+" ++ digits_of (Z.of_nat e'))
  | EmptyString => "0"
  end.

(** The magnitude [a], below [10^21], rounded to [d] decimals, a tie
    going to the larger value. *)
Definition fixed_digits (a : Q) (d : nat) : string :=
  let n := Qfloor (a * inject_Z (pow10 d) + (1 # 2))%Q in
  let m := pad_zeros (digits_of n) (S d) in
  let k := (String.length m - d)%nat in
  substring 0 k m ++ (if (d =? 0)%nat then "" else "." ++ substring k d m).

(** What [x.toFixed(d)] returns when [d] is at most 100: a value that is
    not finite is printed by name; a negative [x] keeps its sign even
    when the rounded magnitude is zero; a magnitude of [10^21] or more is
    printed in exponent notation, any other in fixed notation. *)
Definition fixed (x : number) (d : nat) : string :=
  match x with
  | NaN => "NaN"
  | PosInf => "Infinity"
  | NegInf => "-Infinity"
  | Fin q =>
      let sign := if Qltb q 0 then "-" else "" in
      sign ++ (if Qle_bool (inject_Z (pow10 21)) (Qabs q)
               then exponent_form (Qabs q)
               else fixed_digits (Qabs q) d)
  end.

(** [x.toFixed(d)]: a [RangeError], here [None], when [d] is above 100,
    whatever [x] is. *)
Definition toFixed (x : number) (d : nat) : option string :=
  if (100 <? d)%nat then None else Some (fixed x d).

(** [ToNumber] of a number that may be [null]: [null] counts as 0. *)
Definition of_null (o : option number) : number :=
  match o with
  | Some v => v
  | None => zero
  end.

Definition is_ws (c : ascii) : bool :=
  let n := nat_of_ascii c in
  (n =? 32)%nat || ((9 <=? n)%nat && (n <=? 13)%nat).

Fixpoint trim_start (s : string) : string :=
  match s with
  | String c r => if is_ws c then trim_start r else s
  | EmptyString => s
  end.

Definition digit_val (c : ascii) : option Z :=
  let n := nat_of_ascii c in
  if (48 <=? n)%nat && (n <=? 57)%nat then Some (Z.of_nat (n - 48)) else None.

(** The longest run of decimal digits at the head of [s], and the rest. *)
Fixpoint span_digits (s : string) : list Z * string :=
  match s with
  | String c r =>
      match digit_val c with
      | Some d => let '(ds, rest) := span_digits r in (d :: ds, rest)
      | None => ([], s)
      end
  | EmptyString => ([], s)
  end.

Definition digits_value (ds : list Z) : Z :=
  fold_left (fun a d => (10 * a + d)%Z) ds 0%Z.

(** The exponent part [e[+-]ddd] at the head of [s]; zero when there is
    none or when no digit follows the [e]. *)
Definition exponent_of (s : string) : Z :=
  match s with
  | String c r =>
      if ((c =? "e") || (c =? "E"))%char then
        let '(negative, r') :=
          match r with
          | String "-" t => (true, t)
          | String "+" t => (false, t)
          | _ => (false, r)
          end in
        match span_digits r' with
        | ([], _) => 0%Z
        | (ds, _) => if negative then (- digits_value ds)%Z else digits_value ds
        end
      else 0%Z
  | EmptyString => 0%Z
  end.

(** [parseFloat(s)]: leading white space is skipped and the longest
    prefix that reads as a decimal literal is taken; [NaN] when there is
    none. *)
Definition parseFloat (s : string) : number :=
  let s0 := trim_start s in
  let '(negative, s1) :=
    match s0 with
    | String "-" r => (true, r)
    | String "+" r => (false, r)
    | _ => (false, s0)
    end in
  if String.prefix "Infinity" s1 then inf_of (negb negative)
  else
    let '(ip, r1) := span_digits s1 in
    let '(fp, r2) :=
      match r1 with
      | String "." r => span_digits r
      | _ => ([], r1)
      end in
    match ip, fp with
    | [], [] => NaN
    | _, _ =>
        let mant := (inject_Z (digits_value (ip ++ fp))
                     / inject_Z (pow10 (List.length fp)))%Q in
        let v := (mant * Qpower 10 (exponent_of r2))%Q in
        fin (if negative then (- v)%Q else v)
    end.

End JS.

Arguments JS.add : simpl never.
Arguments JS.sub : simpl never.
Arguments JS.mul : simpl never.
Arguments JS.div : simpl never.
Arguments JS.abs : simpl never.
Arguments JS.lt : simpl never.
Arguments JS.gt : simpl never.
Arguments JS.ge : simpl never.
Arguments JS.eq : simpl never.
Arguments JS.parseFloat : simpl never.
Arguments JS.fixed : simpl never.
Arguments JS.toFixed : simpl never.

(** ** Awaited calls, exceptions and [try]/[catch] *)

Inductive failure : Type :=
| NetworkError
| HttpStatus (code : Z)
| TypeError
| RangeError.

Inductive outcome (A : Type) : Type :=
| Returned (a : A)
| Thrown (e : failure).

Arguments Returned {A} a.
Arguments Thrown {A} e.

Definition bind {A B : Type} (c : outcome A) (k : A -> outcome B) : outcome B :=
  match c with
  | Returned a => k a
  | Thrown e => Thrown e
  end.

Declare Scope outcome_scope.
Delimit Scope outcome_scope with outcome.
Notation "x <- c ;; k" := (bind c (fun x => k))
  (at level 100, c at next level, right associativity) : outcome_scope.

(** Reading a property of a value that may be [null] or [undefined]. *)
Definition prop {A : Type} (o : option A) : outcome A :=
  match o with
  | Some a => Returned a
  | None => Thrown TypeError
  end.

(** [try { body } catch (error) { return handler }]: the handlers of the
    analyzers log the error and return a value that does not depend on it. *)
Definition try_catch {A : Type} (body : outcome A) (handler : A) : A :=
  match body with
  | Returned a => a
  | Thrown _ => handler
  end.

(** A [for] loop whose body may throw, threading the loop variables. *)
Fixpoint for_each {A S : Type} (body : S -> A -> outcome S) (l : list A) (s : S)
  : outcome S :=
  match l with
  | [] => Returned s
  | x :: r => bind (body s x) (for_each body r)
  end.

(** [arr.filter(p)] with a callback that may throw. *)
Fixpoint filter_throwing {A : Type} (p : A -> outcome bool) (l : list A)
  : outcome (list A) :=
  match l with
  | [] => Returned []
  | x :: r =>
      bind (p x) (fun keep =>
      bind (filter_throwing p r) (fun r' =>
      Returned (if keep then x :: r' else r')))
  end.

(** ** Results of the analyzers *)

(** The object literal an analyzer returns.  [data] and [fallback] are
    [None] when the literal has no such property; a [fallback] property
    holding [null] is [Some None]. *)
Record AnalysisResult (T : Type) : Type := mkResult {
  type : string;
  success : bool;
  data : option T;
  fallback : option (option string)
}.

Arguments mkResult {T}.
Arguments type {T}.
Arguments success {T}.
Arguments data {T}.
Arguments fallback {T}.

(** [{ type, success: true, data }] *)
Definition succeeded {T : Type} (ty : string) (d : T) : AnalysisResult T :=
  mkResult ty true (Some d) None.

(** [{ type, success: false, fallback }] *)
Definition fell_back {T : Type} (ty : string) (msg : option string)
  : AnalysisResult T :=
  mkResult ty false None (Some msg).

(** ** Upstream records *)

Module TokenTransfer.
Record t : Type := mk {
  token_address : option string;
  price_usd : option JS.number;
  value_usd : option JS.number
}.
End TokenTransfer.

Module Transaction.
Record t : Type := mk {
  volume_usd : JS.number;
  tokens_sent : option (list TokenTransfer.t);
  tokens_received : option (list TokenTransfer.t)
}.
End Transaction.

Module Balance.
Record t : Type := mk {
  token_address : option string;
  chain : option string;
  balance : string;
  value_usd : JS.number;
  price_usd : JS.number
}.
End Balance.

Module Label.
Record t : Type := mk {
  label : string;
  category : string
}.
End Label.

(** The P&L summary.  [realized_pnl_usd] is [None] when the property is
    missing ([undefined]) and [Some None] when it is [null].  Of
    [realized_pnl_percent] the analyzer only takes the product with 100,
    in which a missing value behaves as [NaN] and [null] as 0: it is
    given as that number. *)
Module PnlSummary.
Record t : Type := mk {
  realized_pnl_usd : option (option JS.number);
  realized_pnl_percent : JS.number
}.
End PnlSummary.

Module ScreenedToken.
Record t : Type := mk {
  token_name : string;
  token_symbol : string;
  liquidity_usd : option JS.number;
  liquidity : option JS.number
}.
End ScreenedToken.

(** [{ athPrice, athDate }], the date in milliseconds. *)
Module AthData.
Record t : Type := mk {
  athPrice : JS.number;
  athDate : option Z
}.
End AthData.

(** ** Requests and services *)

Record BalanceRequest : Type := mkBalanceRequest {
  br_address : string;
  br_chain : string;
  br_hide_spam_token : bool;
  br_min_value_usd : option JS.number;
  br_per_page : nat;
  br_order_by_value_desc : bool
}.

Record TransactionsRequest : Type := mkTransactionsRequest {
  tr_address : string;
  tr_chain : string;
  tr_months_back : nat;
  tr_hide_spam_token : bool;
  tr_min_volume_usd : JS.number;
  tr_per_page : nat
}.

Record LabelsRequest : Type := mkLabelsRequest {
  lr_chain : string;
  lr_address : string;
  lr_recordsPerPage : nat
}.

Record PnlRequest : Type := mkPnlRequest {
  pr_address : string;
  pr_chain : string;
  pr_years_back : nat
}.

Record ScreenerRequest : Type := mkScreenerRequest {
  sr_chains : list string;
  sr_years_back : nat;
  sr_watchlistFilter : list (option string);
  sr_liquidity_from : JS.number;
  sr_liquidity_to : JS.number;
  sr_per_page : nat
}.

(** The analytics client.  Each call returns the parsed response body,
    [None] when the body is [null] or, for labels, not an array; the
    [data] property of a body may itself be missing. *)
Record NansenService : Type := mkNansen {
  getPnlSummary : PnlRequest -> outcome (option PnlSummary.t);
  getLabels : LabelsRequest -> outcome (option (list Label.t));
  getCurrentBalance : BalanceRequest -> outcome (option (option (list Balance.t)));
  getAllTransactions :
    TransactionsRequest -> outcome (option (option (list Transaction.t)));
  screenTokens :
    ScreenerRequest -> outcome (option (option (option (list ScreenedToken.t))))
}.

(** [{ chain, address }], a token whose ATH price is asked for. *)
Record TokenRef : Type := mkTokenRef {
  ref_chain : option string;
  ref_address : option string
}.

(** The price client: the [Map] it resolves to is given by its entries in
    iteration order. *)
Record CoinGeckoService : Type := mkCoinGecko {
  batchGetATHPrices :
    list TokenRef -> nat -> outcome (list (string * AthData.t))
}.

Local Open Scope outcome_scope.

(** ** [ethBenchmark.ts] *)

Module EthBenchmark.

Definition MIN_VOLUME_USD : JS.number := JS.of_Z 10.
Definition MONTHS_LOOKBACK : nat := 6.
Definition ETH_ADDRESS : string := "0xeeeeeeeeeeeeeeeeeeeeeeeeeeeeeeeeeeeeeeee".
Definition ZERO_ADDRESS : string := "0x0000000000000000000000000000000000000000".

Definition FALLBACK : string :=
  "No meaningful history yet for young wallets, CEX-only flows excluded".

Inductive Status : Type := OUTPERFORMED | UNDERPERFORMED.

Record Data : Type := mkData {
  portfolioValue : JS.number;
  ethEquivalentValue : JS.number;
  performancePercent : JS.number;
  status : Status
}.

Definition fail : AnalysisResult Data := fell_back "eth_benchmark" (Some FALLBACK).

(** [x !== null && x > 0] on a nullable number. *)
Definition positive (x : option JS.number) : bool :=
  match x with
  | Some v => JS.gt v JS.zero
  | None => false
  end.

(** The test of the two search loops of [getEthPriceFromTransaction]. *)
Definition is_priced_eth (token : TokenTransfer.t) : bool :=
  JS.truthy_str (TokenTransfer.token_address token)
  && match TokenTransfer.token_address token with
     | Some a => String.eqb (JS.toLowerCase a) (JS.toLowerCase ETH_ADDRESS)
     | None => false
     end
  && positive (TokenTransfer.price_usd token).

(** [for (const token of tokens) if (...) return token.price_usd] *)
Fixpoint find_eth_price (tokens : list TokenTransfer.t) : option JS.number :=
  match tokens with
  | [] => None
  | token :: rest =>
      if is_priced_eth token then TokenTransfer.price_usd token
      else find_eth_price rest
  end.

(** [list && list.length > 0], then the search loop. *)
Definition search (tokens : option (list TokenTransfer.t)) : option JS.number :=
  match tokens with
  | Some (t :: r) => find_eth_price (t :: r)
  | _ => None
  end.

(** Strategy 3: an estimate from the first received token. *)
Definition derive_from_volume (tx : Transaction.t) : outcome JS.number :=
  if JS.gt (Transaction.volume_usd tx) JS.zero then
    received <- prop (Transaction.tokens_received tx) ;;
    match received with
    | tokenReceived :: _ =>
        match TokenTransfer.value_usd tokenReceived,
              TokenTransfer.price_usd tokenReceived with
        | Some value, Some price =>
            if JS.gt value JS.zero && JS.gt price JS.zero then
              Returned (JS.mul price (JS.div (Transaction.volume_usd tx) value))
            else Returned JS.zero
        | _, _ => Returned JS.zero
        end
    | [] => Returned JS.zero
    end
  else Returned JS.zero.

Definition getEthPriceFromTransaction (tx : Transaction.t) : outcome JS.number :=
  match search (Transaction.tokens_sent tx) with
  | Some price => Returned price
  | None =>
      match search (Transaction.tokens_received tx) with
      | Some price => Returned price
      | None => derive_from_volume tx
      end
  end.

(** The filter of step 2. *)
Definition is_buy (tx : Transaction.t) : bool :=
  match Transaction.tokens_received tx with
  | Some (_ :: _) => JS.gt (Transaction.volume_usd tx) JS.zero
  | _ => false
  end.

(** The loop variables of step 3. *)
Record Totals : Type := mkTotals {
  totalUsdSpent : JS.number;
  totalEthEquivalent : JS.number;
  pricesFound : nat
}.

Definition no_totals : Totals := mkTotals JS.zero JS.zero 0.

(** One turn of the loop of step 3. *)
Definition accumulate (acc : Totals) (tx : Transaction.t) : outcome Totals :=
  let usdSpent := Transaction.volume_usd tx in
  let spent := JS.add (totalUsdSpent acc) usdSpent in
  ethPrice <- getEthPriceFromTransaction tx ;;
  if JS.gt ethPrice JS.zero then
    Returned (mkTotals spent
                       (JS.add (totalEthEquivalent acc) (JS.div usdSpent ethPrice))
                       (S (pricesFound acc)))
  else
    Returned (mkTotals spent (totalEthEquivalent acc) (pricesFound acc)).

(** [totalEthEquivalent === 0 || pricesFound < buyTransactions.length * 0.5] *)
Definition insufficient_prices (acc : Totals) (buys : nat) : bool :=
  JS.eq (totalEthEquivalent acc) JS.zero
  || JS.lt (JS.of_nat (pricesFound acc)) (JS.mul (JS.of_nat buys) (JS.fin 0.5)).

(** [tokenSet.add(x)] on a [Set] kept in insertion order. *)
Definition set_add (tokenSet : list string) (x : string) : list string :=
  if JS.array_includes tokenSet x then tokenSet else tokenSet ++ [x].

(** The test of the inner loop of [extractUniqueTokens]. *)
Definition is_purchased_token (token : TokenTransfer.t) : bool :=
  match TokenTransfer.token_address token with
  | Some a =>
      JS.truthy_str (Some a)
      && negb (String.eqb a ETH_ADDRESS)
      && negb (String.eqb (JS.toLowerCase a) ZERO_ADDRESS)
  | None => false
  end.

Definition add_token (tokenSet : list string) (token : TokenTransfer.t)
  : list string :=
  match TokenTransfer.token_address token with
  | Some a =>
      if is_purchased_token token then set_add tokenSet (JS.toLowerCase a)
      else tokenSet
  | None => tokenSet
  end.

Definition extractUniqueTokens (transactions : list Transaction.t)
  : outcome (list string) :=
  for_each
    (fun tokenSet tx =>
       received <- prop (Transaction.tokens_received tx) ;;
       Returned (fold_left add_token received tokenSet))
    transactions [].

(** The search loop of [getCurrentEthPriceFromNansen]. *)
Fixpoint find_current_eth_price (balances : list Balance.t) : option JS.number :=
  match balances with
  | [] => None
  | b :: rest =>
      if JS.truthy_str (Balance.token_address b)
         && match Balance.token_address b with
            | Some a => String.eqb (JS.toLowerCase a) (JS.toLowerCase ETH_ADDRESS)
            | None => false
            end
         && JS.gt (Balance.price_usd b) JS.zero
      then Some (Balance.price_usd b)
      else find_current_eth_price rest
  end.

(** The balance request of [getCurrentEthPriceFromNansen]. *)
Definition price_request (address : string) : BalanceRequest :=
  mkBalanceRequest address "ethereum" false None 10 false.

(** The balance request of [calculateCurrentPortfolioValue]. *)
Definition holdings_request (address : string) : BalanceRequest :=
  mkBalanceRequest address "all" true None 100 false.

Definition getCurrentEthPriceFromNansen (nansen : NansenService) (address : string)
  : JS.number :=
  try_catch
    (response <- getCurrentBalance nansen (price_request address) ;;
     body <- prop response ;;
     match body with
     | Some (b :: r) =>
         match find_current_eth_price (b :: r) with
         | Some price => Returned price
         | None => Returned JS.zero
         end
     | _ => Returned JS.zero
     end)
    JS.zero.

Definition calculateCurrentPortfolioValue (nansen : NansenService)
  (address : string) (tokenAddresses : list string) : JS.number :=
  try_catch
    (response <- getCurrentBalance nansen (holdings_request address) ;;
     body <- prop response ;;
     match body with
     | Some (b :: r) =>
         let purchased := List.map JS.toLowerCase tokenAddresses in
         relevantBalances <-
           filter_throwing
             (fun bal =>
                a <- prop (Balance.token_address bal) ;;
                Returned (JS.array_includes purchased (JS.toLowerCase a)))
             (b :: r) ;;
         Returned (fold_left (fun total bal => JS.add total (Balance.value_usd bal))
                             relevantBalances JS.zero)
     | _ => Returned JS.zero
     end)
    JS.zero.

(** Steps 5 to 10, once the price data of the buys is sufficient. *)
Definition compare (nansen : NansenService) (address : string)
  (buyTransactions : list Transaction.t) (acc : Totals)
  : outcome (AnalysisResult Data) :=
  purchasedTokens <- extractUniqueTokens buyTransactions ;;
  let currentEthPrice := getCurrentEthPriceFromNansen nansen address in
  if JS.eq currentEthPrice JS.zero then Returned fail
  else
    let ethEquivalentValue := JS.mul (totalEthEquivalent acc) currentEthPrice in
    let portfolioValue :=
      calculateCurrentPortfolioValue nansen address purchasedTokens in
    let performancePercent :=
      JS.mul (JS.div (JS.sub portfolioValue ethEquivalentValue) ethEquivalentValue)
             (JS.of_Z 100) in
    Returned
      (succeeded "eth_benchmark"
         (mkData portfolioValue ethEquivalentValue performancePercent
                 (if JS.ge performancePercent JS.zero
                  then OUTPERFORMED else UNDERPERFORMED))).

(** Steps 2 to 4 on the transactions the upstream returned. *)
Definition benchmark (nansen : NansenService) (address : string)
  (transactions : list Transaction.t) : outcome (AnalysisResult Data) :=
  let buyTransactions := List.filter is_buy transactions in
  match buyTransactions with
  | [] => Returned fail
  | _ =>
      acc <- for_each accumulate buyTransactions no_totals ;;
      if insufficient_prices acc (List.length buyTransactions) then Returned fail
      else compare nansen address buyTransactions acc
  end.

(** The request of step 1. *)
Definition request (address : string) : TransactionsRequest :=
  mkTransactionsRequest address "ethereum" MONTHS_LOOKBACK true
                        MIN_VOLUME_USD 100.

(** The body of the [try] block of [analyzeEthBenchmark]. *)
Definition body (nansen : NansenService) (address : string)
  : outcome (AnalysisResult Data) :=
  response <- getAllTransactions nansen (request address) ;;
  transactionsResponse <- prop response ;;
  match transactionsResponse with
  | Some (tx :: rest) => benchmark nansen address (tx :: rest)
  | _ => Returned fail
  end.

Definition analyzeEthBenchmark (nansen : NansenService) (address : string)
  : AnalysisResult Data :=
  try_catch (body nansen address) fail.

(** The buys the analyzer gets to see: those of the list the upstream
    answered with, none when it answered with no list or failed. *)
Definition observed_buys (nansen : NansenService) (address : string)
  : list Transaction.t :=
  match getAllTransactions nansen (request address) with
  | Returned (Some (Some transactions)) => List.filter is_buy transactions
  | _ => []
  end.

End EthBenchmark.

(** ** The ATH price cache ([utils/athCache.ts]) *)

Module AthCache.

(** Modelled from the spec: the file [utils/athCache.ts] is not part of
    the sources at hand; only its callers are.  The definitions below
    follow sections 3 and 4.1 of the specification: entries are keyed by
    the lower-cased token address, an entry older than 24 hours is
    reported absent by [get] and left in place, [set] stores an entry only
    for a positive price and stamps it with the current time, and the
    statistics count hits and misses. *)
Record CacheEntry : Type := mkEntry {
  athRecord : AthData.t;
  cachedAt : Z
}.

(** Modelled from the spec: the cache, a map from lower-cased token
    address to entry, with the two counters of its statistics. *)
Record t : Type := mkCache {
  entries : gmap string CacheEntry;
  hitCount : nat;
  missCount : nat
}.

(** Modelled from the spec: the 24-hour time to live, in milliseconds. *)
Definition TTL_MS : Z := 24 * 60 * 60 * 1000.

(** Modelled from the spec: the cache of a fresh process. *)
Definition empty : t := mkCache ∅ 0 0.

(** Modelled from the spec: [get(tokenAddress)] at time [now]. *)
Definition get (now : Z) (tokenAddress : string) (c : t) : option AthData.t * t :=
  match entries c !! JS.toLowerCase tokenAddress with
  | Some e =>
      if (TTL_MS <? now - cachedAt e)%Z
      then (None, mkCache (entries c) (hitCount c) (S (missCount c)))
      else (Some (athRecord e), mkCache (entries c) (S (hitCount c)) (missCount c))
  | None => (None, mkCache (entries c) (hitCount c) (S (missCount c)))
  end.

(** Modelled from the spec: [set(tokenAddress, athPrice, athDate)] at
    time [now]. *)
Definition set (now : Z) (tokenAddress : string) (athPrice : JS.number)
  (athDate : option Z) (c : t) : t :=
  if JS.gt athPrice JS.zero then
    mkCache (<[JS.toLowerCase tokenAddress :=
                 mkEntry (AthData.mk athPrice athDate) now]> (entries c))
            (hitCount c) (missCount c)
  else c.

(** Modelled from the spec: [stats()]. *)
Definition getStats (c : t) : nat * nat * nat :=
  (hitCount c, missCount c, size (entries c)).

End AthCache.

(** ** [portfolioATH.ts] *)

Module PortfolioATH.

Definition ATH_LOOKBACK_DAYS : nat := 365.
Definition TOP_HOLDINGS_COUNT : nat := 30.
Definition NATIVE_ADDRESS : string := "0xeeeeeeeeeeeeeeeeeeeeeeeeeeeeeeeeeeeeeeee".
Definition ZKSYNC_ETH_ADDRESS : string := "0x000000000000000000000000000000000000800a".

Definition FALLBACK : string :=
  "No meaningful history yet for young/empty wallets".

Record Data : Type := mkData {
  currentValue : JS.number;
  athValue : JS.number;
  potentialGainPercent : JS.number
}.

Definition fail : AnalysisResult Data := fell_back "portfolio_ath" (Some FALLBACK).

Definition request (address : string) : BalanceRequest :=
  mkBalanceRequest address "all" true None TOP_HOLDINGS_COUNT true.

(** The filter that drops native tokens and holdings without value. *)
Definition is_token_holding (holding : Balance.t) : bool :=
  match Balance.token_address holding with
  | Some a =>
      JS.truthy_str (Some a)
      && negb (String.eqb (JS.toLowerCase a) NATIVE_ADDRESS)
      && negb (String.eqb (JS.toLowerCase a) ZKSYNC_ETH_ADDRESS)
      && JS.truthy_str (Balance.chain holding)
      && JS.gt (Balance.value_usd holding) JS.zero
  | None => false
  end.

(** Step 2: the sum of [value_usd]. *)
Definition sum_values (tokenHoldings : list Balance.t) : JS.number :=
  fold_left (fun currentValue holding =>
               JS.add currentValue (Balance.value_usd holding))
            tokenHoldings JS.zero.

(** [holding.token_address.toLowerCase()] *)
Definition key_of (holding : Balance.t) : outcome string :=
  a <- prop (Balance.token_address holding) ;;
  Returned (JS.toLowerCase a).

(** One turn of the loop of step 4 on [(athValue, successfulTokens)]. *)
Definition add_ath_value (athPrices : gmap string AthData.t)
  (acc : JS.number * nat) (holding : Balance.t) : outcome (JS.number * nat) :=
  key <- key_of holding ;;
  let '(athValue, successfulTokens) := acc in
  match athPrices !! key with
  | Some athData =>
      if JS.gt (AthData.athPrice athData) JS.zero then
        let tokenAmount := JS.parseFloat (Balance.balance holding) in
        let athTokenValue := JS.mul tokenAmount (AthData.athPrice athData) in
        Returned (JS.add athValue athTokenValue, S successfulTokens)
      else Returned (JS.add athValue (Balance.value_usd holding), successfulTokens)
  | None => Returned (JS.add athValue (Balance.value_usd holding), successfulTokens)
  end.

(** Step 5: the result once [athValue] is known; the quotient is taken
    as it stands. *)
Definition conclude (currentValue athValue : JS.number) (successfulTokens : nat)
  : AnalysisResult Data :=
  match successfulTokens with
  | O => fail
  | S _ =>
      let potentialGainPercent :=
        JS.mul (JS.div (JS.sub athValue currentValue) currentValue)
               (JS.of_Z 100) in
      succeeded "portfolio_ath"
                (mkData currentValue athValue potentialGainPercent)
  end.

(** Steps 4 and 5. *)
Definition evaluate (tokenHoldings : list Balance.t)
  (athPrices : gmap string AthData.t) : outcome (AnalysisResult Data) :=
  let currentValue := sum_values tokenHoldings in
  acc <- for_each (add_ath_value athPrices) tokenHoldings (JS.zero, 0%nat) ;;
  Returned (conclude currentValue (fst acc) (snd acc)).

Definition token_ref (holding : Balance.t) : TokenRef :=
  mkTokenRef (Balance.chain holding) (Balance.token_address holding).

(** [new Map(entries)]: later entries replace earlier ones. *)
Definition map_of_entries (fetched : list (string * AthData.t))
  : gmap string AthData.t :=
  fold_left (fun m kv => <[fst kv := snd kv]> m) fetched ∅.

(** *** Without the cache (the first implementation) *)

Module Plain.

Definition body (nansen : NansenService) (coinGecko : CoinGeckoService)
  (address : string) : outcome (AnalysisResult Data) :=
  response <- getCurrentBalance nansen (request address) ;;
  balanceResponse <- prop response ;;
  match balanceResponse with
  | Some (h :: r) =>
      match List.filter is_token_holding (h :: r) with
      | [] => Returned fail
      | tokenHoldings =>
          fetched <- batchGetATHPrices coinGecko
                       (List.map token_ref tokenHoldings) ATH_LOOKBACK_DAYS ;;
          evaluate tokenHoldings (map_of_entries fetched)
      end
  | _ => Returned fail
  end.

Definition analyzePortfolioATH (nansen : NansenService)
  (coinGecko : CoinGeckoService) (address : string) : AnalysisResult Data :=
  try_catch (body nansen coinGecko address) fail.

End Plain.

(** *** With the cache *)

Module Cached.

(** Code that reads and writes the module-level cache and may throw: the
    cache is threaded through, and is kept as it stands when an exception
    is raised.  The clock reads [now] during the whole analysis. *)
Definition M (A : Type) : Type := AthCache.t -> outcome A * AthCache.t.

Definition ret {A : Type} (a : A) : M A := fun c => (Returned a, c).

Definition bindM {A B : Type} (m : M A) (k : A -> M B) : M B :=
  fun c =>
    match m c with
    | (Returned a, c') => k a c'
    | (Thrown e, c') => (Thrown e, c')
    end.

Definition lift {A : Type} (o : outcome A) : M A := fun c => (o, c).

Declare Scope cache_scope.
Delimit Scope cache_scope with cache.
Notation "x <- c ;; k" := (bindM c (fun x => k))
  (at level 100, c at next level, right associativity) : cache_scope.

Definition cache_get (now : Z) (tokenAddress : string) : M (option AthData.t) :=
  fun c => let '(r, c') := AthCache.get now tokenAddress c in (Returned r, c').

Definition cache_set (now : Z) (tokenAddress : string) (athPrice : JS.number)
  (athDate : option Z) : M unit :=
  fun c => (Returned tt, AthCache.set now tokenAddress athPrice athDate c).

Fixpoint for_eachM {A S : Type} (body : S -> A -> M S) (l : list A) (s : S) : M S :=
  match l with
  | [] => ret s
  | x :: r => bindM (body s x) (for_eachM body r)
  end.

Local Open Scope cache_scope.

(** The loop variables of step 3. *)
Record Lookup : Type := mkLookup {
  athPrices : gmap string AthData.t;
  tokensToFetch : list TokenRef;
  cacheHits : nat
}.

(** One turn of the cache loop: a hit fills [athPrices], a miss queues
    the token. *)
Definition check_cache (now : Z) (st : Lookup) (holding : Balance.t) : M Lookup :=
  a <- lift (prop (Balance.token_address holding)) ;;
  cached <- cache_get now a ;;
  match cached with
  | Some athData =>
      ret (mkLookup (<[JS.toLowerCase a := athData]> (athPrices st))
                    (tokensToFetch st) (S (cacheHits st)))
  | None =>
      ret (mkLookup (athPrices st) (tokensToFetch st ++ [token_ref holding])
                    (cacheHits st))
  end.

(** One turn of the loop over the fetched entries. *)
Definition store_fetched (now : Z) (prices : gmap string AthData.t)
  (entry : string * AthData.t) : M (gmap string AthData.t) :=
  let '(address, athData) := entry in
  let prices' := <[address := athData]> prices in
  _ <- (if JS.gt (AthData.athPrice athData) JS.zero then
          match AthData.athDate athData with
          | Some d => cache_set now address (AthData.athPrice athData) (Some d)
          | None => ret tt
          end
        else ret tt) ;;
  ret prices'.

(** The body of the [try] block. *)
Definition body (nansen : NansenService) (coinGecko : CoinGeckoService)
  (now : Z) (address : string) : M (AnalysisResult Data) :=
  response <- lift (getCurrentBalance nansen (request address)) ;;
  balanceResponse <- lift (prop response) ;;
  match balanceResponse with
  | Some (h :: r) =>
      match List.filter is_token_holding (h :: r) with
      | [] => ret fail
      | tokenHoldings =>
          st <- for_eachM (check_cache now) tokenHoldings (mkLookup ∅ [] 0) ;;
          prices <-
            match tokensToFetch st with
            | [] => ret (athPrices st)
            | toFetch =>
                fetched <- lift (batchGetATHPrices coinGecko toFetch
                                                   ATH_LOOKBACK_DAYS) ;;
                for_eachM (store_fetched now) fetched (athPrices st)
            end ;;
          lift (evaluate tokenHoldings prices)
      end
  | _ => ret fail
  end.

Definition analyzePortfolioATH (nansen : NansenService)
  (coinGecko : CoinGeckoService) (now : Z) (address : string)
  : AthCache.t -> AnalysisResult Data * AthCache.t :=
  fun c =>
    let '(r, c') := body nansen coinGecko now address c in
    (try_catch r fail, c').

End Cached.

End PortfolioATH.

(** ** [pnl.ts] *)

Module Pnl.

Definition FALLBACK : string := "Only mist—too little history to read.".

Inductive Status : Type := GAIN | LOSS.

(** [realized_pnl_usd] is what the upstream answered, [None] for [null]. *)
Record Data : Type := mkData {
  realized_pnl_percent : JS.number;
  realized_pnl_usd : option JS.number;
  status : Status;
  timeframe : string
}.

Definition fail : AnalysisResult Data := fell_back "pnl" (Some FALLBACK).

(** [Math.abs(pnlPercent) < 0.01 && Math.abs(pnlUsd) < 1], where
    [Math.abs(null)] is 0. *)
Definition negligible (pnlPercent : JS.number) (pnlUsd : option JS.number)
  : bool :=
  JS.lt (JS.abs pnlPercent) (JS.fin 0.01)
  && JS.lt (JS.abs (JS.of_null pnlUsd)) (JS.of_Z 1).

Definition timeframe_of (years : nat) : string :=
  if (years =? 1)%nat then "in the past year"
  else "in the past " ++ JS.digits_of (Z.of_nat years) ++ " years".

(** What the analyzer makes of a response that carries [realized_pnl_usd]. *)
Definition summarize (realized_percent : JS.number) (pnlUsd : option JS.number)
  (years : nat) : AnalysisResult Data :=
  let pnlPercent := JS.mul realized_percent (JS.of_Z 100) in
  if negligible pnlPercent pnlUsd then fail
  else
    succeeded "pnl"
      (mkData pnlPercent pnlUsd
              (if JS.ge pnlPercent JS.zero then GAIN else LOSS)
              (timeframe_of years)).

Definition request (address : string) (years : nat) : PnlRequest :=
  mkPnlRequest address "all" years.

(** [!response || response.realized_pnl_usd === undefined] gives the
    fallback; a [null] value passes that test. *)
Definition body (nansen : NansenService) (address : string) (years : nat)
  : outcome (AnalysisResult Data) :=
  response <- getPnlSummary nansen (request address years) ;;
  match response with
  | None => Returned fail
  | Some r =>
      match PnlSummary.realized_pnl_usd r with
      | None => Returned fail
      | Some pnlUsd =>
          Returned (summarize (PnlSummary.realized_pnl_percent r) pnlUsd years)
      end
  end.

Definition analyzePnl (nansen : NansenService) (address : string) (years : nat)
  : AnalysisResult Data :=
  try_catch (body nansen address years) fail.

End Pnl.

(** ** [formatting.ts] *)

Module Formatting.

(** [formatPercent(value, decimals = 2)]; the [RangeError] of [toFixed]
    is not caught. *)
Definition formatPercent (value : JS.number) (decimals : nat) : outcome string :=
  let sign := if JS.ge value JS.zero then "+" else "" in
  match JS.toFixed value decimals with
  | Some digits => Returned (sign ++ digits ++ "%")
  | None => Thrown RangeError
  end.

End Formatting.

(** ** [labels.ts] *)

Module Labels.

Record Data : Type := mkData { label : string }.

Definition fail : AnalysisResult Data := fell_back "labels" None.

Definition request (address : string) : LabelsRequest :=
  mkLabelsRequest "all" address 100.

(** *** Matching by containment against the short list *)

Module Poc.

Definition LABEL_PRIORITY : list string :=
  [ "Whale"; "Smart Money"; "Professional Trader"; "Quant Trader"; "MEV Bot";
    "Bot"; "Active Trader"; "High Activity"; "Dex Trader"; "NFT Collector";
    "ENS Domains Collector"; "Staker"; "DeFi User"; "OpenSea User" ].

(** The index of the first priority label that [label] contains, letter
    case apart. *)
Definition priority_index (label : string) : option nat :=
  JS.findIndex
    (fun priorityLabel =>
       JS.includes (JS.toLowerCase label) (JS.toLowerCase priorityLabel))
    LABEL_PRIORITY.

(** One turn of the loop on [(highestPriorityLabel, highestPriorityIndex)]. *)
Definition consider (best : option string * nat) (label : string)
  : option string * nat :=
  match priority_index label with
  | Some priorityIndex =>
      if (priorityIndex <? snd best)%nat
      then (nth_error LABEL_PRIORITY priorityIndex, priorityIndex)
      else best
  | None => best
  end.

Definition select (labelNames : list string) : AnalysisResult Data :=
  match fst (fold_left consider labelNames (None, List.length LABEL_PRIORITY)) with
  | Some highestPriorityLabel =>
      if String.eqb highestPriorityLabel "" then fail
      else succeeded "labels" (mkData highestPriorityLabel)
  | None => fail
  end.

Definition body (nansen : NansenService) (address : string)
  : outcome (AnalysisResult Data) :=
  response <- getLabels nansen (request address) ;;
  match response with
  | Some (l :: r) => Returned (select (List.map Label.label (l :: r)))
  | _ => Returned fail
  end.

Definition analyzeLabels (nansen : NansenService) (address : string)
  : AnalysisResult Data :=
  try_catch (body nansen address) fail.

End Poc.

(** *** Matching by equality against the long list *)

Module Prd.

(** [constants/labels.ts] *)
Definition LABEL_PRIORITY : list string :=
  [ "Top 100 Leaderboard Trader"; "Multiple Memecoin Whales"; "Memecoin Whale";
    "Smart Fund"; "Token Millionaire";
    "ETH Millionaire"; "New Token Specialist"; "Memecoin Specialist";
    "Gaming Specialist"; "AI Specialist"; "DEX Specialist"; "RWA Specialist";
    "Smart NFT Trader"; "Smart NFT Collector"; "Smart NFT Minter";
    "Smart NFT Early Adopter";
    "Top Token Deployer"; "Token Deployer"; "Emerging Smart Trader";
    "Arbitrum Specialist"; "Base Specialist"; "Blast Specialist";
    "Optimism Specialist"; "Polygon Specialist"; "Linea Specialist";
    "Scroll Specialist"; "Fantom Specialist"; "Sei Specialist";
    "ZKsync Specialist"; "BSC Specialist"; "Avalanche Specialist";
    "Staker"; "OpenSea User"; "Blur Trader"; "Exit Liquidity" ].

(** [for (const priorityLabel of priority) if (names.includes(...)) return] *)
Fixpoint first_listed (priority apiLabelStrings : list string) : option string :=
  match priority with
  | [] => None
  | priorityLabel :: rest =>
      if JS.array_includes apiLabelStrings priorityLabel then Some priorityLabel
      else first_listed rest apiLabelStrings
  end.

Definition select (apiLabelStrings : list string) : AnalysisResult Data :=
  match first_listed LABEL_PRIORITY apiLabelStrings with
  | Some priorityLabel => succeeded "labels" (mkData priorityLabel)
  | None => fail
  end.

Definition body (nansen : NansenService) (address : string)
  : outcome (AnalysisResult Data) :=
  response <- getLabels nansen (request address) ;;
  match response with
  | Some (l :: r) => Returned (select (List.map Label.label (l :: r)))
  | _ => Returned fail
  end.

Definition analyzeLabels (nansen : NansenService) (address : string)
  : AnalysisResult Data :=
  try_catch (body nansen address) fail.

End Prd.

End Labels.

(** ** [smartMoney.ts] *)

Module SmartMoney.

Record Data : Type := mkData {
  isSmartMoney : bool;
  labels : list string
}.

Definition fail : AnalysisResult Data := fell_back "smart_money" None.

Definition found (ls : list string) : AnalysisResult Data :=
  succeeded "smart_money" (mkData true ls).

(** *** Matching the six names, letter case apart *)

Module Poc.

Definition SMART_MONEY_LABELS : list string :=
  [ "Smart Money"; "Professional Trader"; "Quant Trader";
    "Institutional Investor"; "Fund"; "Whale" ].

Definition is_smart (label : string) : bool :=
  existsb (fun smartLabel =>
             String.eqb (JS.toLowerCase label) (JS.toLowerCase smartLabel))
          SMART_MONEY_LABELS.

Definition select (labelNames : list string) : AnalysisResult Data :=
  match List.filter is_smart labelNames with
  | [] => fail
  | smartMoneyLabelsFound => found smartMoneyLabelsFound
  end.

Definition body (nansen : NansenService) (address : string)
  : outcome (AnalysisResult Data) :=
  response <- getLabels nansen (Labels.request address) ;;
  match response with
  | Some (l :: r) => Returned (select (List.map Label.label (l :: r)))
  | _ => Returned fail
  end.

Definition analyzeSmartMoney (nansen : NansenService) (address : string)
  : AnalysisResult Data :=
  try_catch (body nansen address) fail.

End Poc.

(** *** By category, then by the two keyword lists *)

Module Prd.

Definition SMART_MONEY_PRIORITY : list string :=
  [ "Smart Trader (2Y)"; "180D Smart Trader"; "90D Smart Trader";
    "30D Smart Trader" ].

Definition SMART_MONEY_KEYWORDS : list string :=
  [ "Smart Fund"; "Smart NFT Trader"; "Smart NFT Collector";
    "Smart NFT Minter"; "Smart NFT Early Adopter" ].

Definition SMART_MONEY_CATEGORY : string := "smart_money".

Definition select (response : list Label.t) : AnalysisResult Data :=
  let smartMoneyLabels :=
    List.filter (fun item => String.eqb (Label.category item) SMART_MONEY_CATEGORY)
                response in
  match smartMoneyLabels with
  | _ :: _ =>
      let smartMoneyLabelStrings := List.map Label.label smartMoneyLabels in
      match Labels.Prd.first_listed SMART_MONEY_PRIORITY smartMoneyLabelStrings with
      | Some priorityLabel => found [priorityLabel]
      | None => found smartMoneyLabelStrings
      end
  | [] =>
      let allLabelStrings := List.map Label.label response in
      match Labels.Prd.first_listed SMART_MONEY_PRIORITY allLabelStrings with
      | Some priorityLabel => found [priorityLabel]
      | None =>
          match Labels.Prd.first_listed SMART_MONEY_KEYWORDS allLabelStrings with
          | Some keyword => found [keyword]
          | None => fail
          end
      end
  end.

Definition body (nansen : NansenService) (address : string)
  : outcome (AnalysisResult Data) :=
  response <- getLabels nansen (Labels.request address) ;;
  match response with
  | Some (l :: r) => Returned (select (l :: r))
  | _ => Returned fail
  end.

Definition analyzeSmartMoney (nansen : NansenService) (address : string)
  : AnalysisResult Data :=
  try_catch (body nansen address) fail.

End Prd.

End SmartMoney.

(** ** [ruggedProjects.ts] *)

Module RuggedProjects.

Definition LIQUIDITY_THRESHOLD : JS.number := JS.of_Z 10000.
Definition MIN_VALUE_USD : JS.number := JS.of_Z 5.
Definition NATIVE_ADDRESS : string := "0xeeeeeeeeeeeeeeeeeeeeeeeeeeeeeeeeeeeeeeee".
Definition CHAINS : list string :=
  [ "ethereum"; "polygon"; "bnb"; "arbitrum"; "avalanche" ].

Definition FALLBACK : string := "No rugged projects detected—clear skies ahead".

Record RuggedToken : Type := mkRugged {
  name : string;
  symbol : string;
  liquidity : option JS.number
}.

Record Data : Type := mkData {
  ruggedCount : nat;
  ruggedTokens : list RuggedToken
}.

(** The literal returned on the four paths without a flagged token: a
    success with an empty list that also carries the message. *)
Definition clear_skies : AnalysisResult Data :=
  mkResult "rugged_projects" true (Some (mkData 0 [])) (Some (Some FALLBACK)).

Definition is_screenable (holding : Balance.t) : bool :=
  match Balance.token_address holding with
  | Some a =>
      JS.truthy_str (Some a)
      && negb (String.eqb (JS.toLowerCase a) NATIVE_ADDRESS)
  | None => false
  end.

(** [token.liquidity_usd || token.liquidity] *)
Definition liquidity_of (token : ScreenedToken.t) : option JS.number :=
  match ScreenedToken.liquidity_usd token with
  | Some l => if JS.truthy l then Some l else ScreenedToken.liquidity token
  | None => ScreenedToken.liquidity token
  end.

Definition details (token : ScreenedToken.t) : RuggedToken :=
  mkRugged (ScreenedToken.token_name token) (ScreenedToken.token_symbol token)
           (liquidity_of token).

Definition request (address : string) : BalanceRequest :=
  mkBalanceRequest address "all" true (Some MIN_VALUE_USD) 100 true.

Definition body (nansen : NansenService) (address : string)
  : outcome (AnalysisResult Data) :=
  response <- getCurrentBalance nansen (request address) ;;
  balanceResponse <- prop response ;;
  match balanceResponse with
  | Some (h :: r) =>
      let tokenAddresses :=
        List.map Balance.token_address (List.filter is_screenable (h :: r)) in
      match tokenAddresses with
      | [] => Returned clear_skies
      | _ =>
          screened <- screenTokens nansen
                        (mkScreenerRequest CHAINS 1 tokenAddresses JS.zero
                                           LIQUIDITY_THRESHOLD 100) ;;
          screenerResponse <- prop screened ;;
          let ruggedTokens :=
            match screenerResponse with
            | Some (Some items) => items
            | _ => []
            end in
          match ruggedTokens with
          | [] => Returned clear_skies
          | _ =>
              Returned
                (succeeded "rugged_projects"
                   (mkData (List.length ruggedTokens)
                           (List.map details ruggedTokens)))
          end
      end
  | _ => Returned clear_skies
  end.

Definition analyzeRuggedProjects (nansen : NansenService) (address : string)
  : AnalysisResult Data :=
  try_catch (body nansen address) clear_skies.

End RuggedProjects.

(** ** Vocabulary of the statements *)

(** A value that is positive: a positive rational or [+Infinity]. *)
Definition positive_number (a : JS.number) : Prop :=
  match a with
  | JS.Fin q => (0 < q)%Q
  | JS.PosInf => True
  | _ => False
  end.

Definition nonnegative_number (a : JS.number) : Prop :=
  match a with
  | JS.Fin q => (0 <= q)%Q
  | JS.PosInf => True
  | _ => False
  end.

(** The data of a result, when it has some, report a positive current
    value and the gain obtained by dividing by it. *)
Definition divides_by_positive (r : AnalysisResult PortfolioATH.Data) : Prop :=
  forall d : PortfolioATH.Data,
    data r = Some d ->
    JS.gt (PortfolioATH.currentValue d) JS.zero = true
    /\ JS.eq (PortfolioATH.currentValue d) JS.zero = false
    /\ PortfolioATH.potentialGainPercent d
       = JS.mul (JS.div (JS.sub (PortfolioATH.athValue d)
                                (PortfolioATH.currentValue d))
                        (PortfolioATH.currentValue d))
                (JS.of_Z 100).

(** A final step [step currentValue athValue successfulTokens] guards the
    division when, handed a [currentValue] of zero, it never reports a
    gain that is not a finite number. *)
Definition guards_zero_division
  (step : JS.number -> JS.number -> nat -> AnalysisResult PortfolioATH.Data)
  : Prop :=
  forall (athValue : JS.number) (successfulTokens : nat),
    JS.is_finite athValue = true ->
    match data (step JS.zero athValue successfulTokens) with
    | Some d => JS.is_finite (PortfolioATH.potentialGainPercent d) = true
    | None => True
    end.

(** ** Upstreams and records used in the worked examples *)

Module Examples.

Definition WALLET : string := "0xf977814e90da44bfa03b6295a0616a897441acec".

(** An upstream whose every call fails with [e]. *)
Definition failing (e : failure) : NansenService :=
  mkNansen (fun _ => Thrown e) (fun _ => Thrown e) (fun _ => Thrown e)
           (fun _ => Thrown e) (fun _ => Thrown e).

(** An upstream that answers every balance request with [holdings]. *)
Definition with_balances (holdings : list Balance.t) : NansenService :=
  mkNansen (fun _ => Thrown NetworkError) (fun _ => Thrown NetworkError)
           (fun _ => Returned (Some (Some holdings)))
           (fun _ => Thrown NetworkError) (fun _ => Thrown NetworkError).

(** An upstream that answers every labels request with [labels]. *)
Definition with_labels (labels : list Label.t) : NansenService :=
  mkNansen (fun _ => Thrown NetworkError) (fun _ => Returned (Some labels))
           (fun _ => Thrown NetworkError)
           (fun _ => Thrown NetworkError) (fun _ => Thrown NetworkError).

(** An upstream that answers every P&L request with [summary]. *)
Definition with_pnl (summary : PnlSummary.t) : NansenService :=
  mkNansen (fun _ => Returned (Some summary)) (fun _ => Thrown NetworkError)
           (fun _ => Thrown NetworkError)
           (fun _ => Thrown NetworkError) (fun _ => Thrown NetworkError).

(** A price client that resolves to the given entries. *)
Definition with_ath (fetched : list (string * AthData.t)) : CoinGeckoService :=
  mkCoinGecko (fun _ _ => Returned fetched).

Definition TOKEN_A : string := "0xaaaaaaaaaaaaaaaaaaaaaaaaaaaaaaaaaaaaaaaa".
Definition TOKEN_B : string := "0xbbbbbbbbbbbbbbbbbbbbbbbbbbbbbbbbbbbbbbbb".

(** [{value: 100, amount: 10, token: A}] and [{value: 50, amount: 5, token: B}] *)
Definition holding_A : Balance.t :=
  Balance.mk (Some TOKEN_A) (Some "ethereum") "10" (JS.of_Z 100) (JS.of_Z 10).
Definition holding_B : Balance.t :=
  Balance.mk (Some TOKEN_B) (Some "ethereum") "5" (JS.of_Z 50) (JS.of_Z 10).

(** ATH prices [{A: 20}], with B either missing or answered by the
    providers' record for a failed lookup. *)
Definition ath_A : string * AthData.t :=
  (TOKEN_A, AthData.mk (JS.of_Z 20) (Some 1700000000000%Z)).
Definition ath_B_failed : string * AthData.t :=
  (TOKEN_B, AthData.mk JS.zero None).

Definition NOW : Z := 1750000000000.

(** An upstream that answers every transaction request with
    [transactions] and every balance request with [holdings]. *)
Definition with_history (transactions : list Transaction.t)
  (holdings : list Balance.t) : NansenService :=
  mkNansen (fun _ => Thrown NetworkError) (fun _ => Thrown NetworkError)
           (fun _ => Returned (Some (Some holdings)))
           (fun _ => Returned (Some (Some transactions)))
           (fun _ => Thrown NetworkError).

Definition TOKEN_X : string := "0x1111111111111111111111111111111111111111".
Definition TOKEN_Y : string := "0x2222222222222222222222222222222222222222".

(** A buy of $200 paid in ETH priced at $2,000: 0.1 ETH. *)
Definition buy_priced : Transaction.t :=
  Transaction.mk (JS.of_Z 200)
    (Some [TokenTransfer.mk (Some EthBenchmark.ETH_ADDRESS)
                            (Some (JS.of_Z 2000)) (Some (JS.of_Z 200))])
    (Some [TokenTransfer.mk (Some TOKEN_X) None None]).

(** A buy of $300 from which no ETH price can be derived. *)
Definition buy_unpriced : Transaction.t :=
  Transaction.mk (JS.of_Z 300)
    (Some [TokenTransfer.mk (Some TOKEN_B) None None])
    (Some [TokenTransfer.mk (Some TOKEN_Y) None None]).

(** Native ETH at $2,500, and what is still held of token X. *)
Definition eth_balance : Balance.t :=
  Balance.mk (Some EthBenchmark.ETH_ADDRESS) (Some "ethereum") "2"
             (JS.of_Z 5000) (JS.of_Z 2500).
Definition x_balance : Balance.t :=
  Balance.mk (Some TOKEN_X) (Some "ethereum") "300" (JS.of_Z 300) (JS.of_Z 1).

(** An upstream that answers the transaction request and the balance
    request on the [ethereum] chain, and whose all-chains balance request
    fails with a network error. *)
Definition flaky_balances (transactions : list Transaction.t)
  (holdings : list Balance.t) : NansenService :=
  mkNansen (fun _ => Thrown NetworkError) (fun _ => Thrown NetworkError)
           (fun req =>
              if String.eqb (br_chain req) "ethereum"
              then Returned (Some (Some holdings))
              else Thrown NetworkError)
           (fun _ => Returned (Some (Some transactions)))
           (fun _ => Thrown NetworkError).

(** A price client whose every call fails with [e]. *)
Definition failing_prices (e : failure) : CoinGeckoService :=
  mkCoinGecko (fun _ _ => Thrown e).

End Examples.

(** *** The order of preference for the implied ETH price *)

Module EthPriceSpec.

(** A transfer of the native asset. *)
Definition is_native_eth (token : TokenTransfer.t) : bool :=
  match TokenTransfer.token_address token with
  | Some a => String.eqb (JS.toLowerCase a) EthBenchmark.ETH_ADDRESS
  | None => false
  end.

(** The explicit price of a transfer, when it has one that is positive. *)
Definition explicit_price (token : TokenTransfer.t) : option JS.number :=
  match TokenTransfer.price_usd token with
  | Some p => if JS.gt p JS.zero then Some p else None
  | None => None
  end.

(** The explicit positive price of the first native-asset transfer of a
    list that has one. *)
Fixpoint native_price (tokens : list TokenTransfer.t) : option JS.number :=
  match tokens with
  | [] => None
  | token :: rest =>
      if is_native_eth token then
        match explicit_price token with
        | Some p => Some p
        | None => native_price rest
        end
      else native_price rest
  end.

Definition native_price_in (tokens : option (list TokenTransfer.t))
  : option JS.number :=
  match tokens with
  | Some l => native_price l
  | None => None
  end.

(** The estimate [price_usd * volume_usd / value_usd] from the first
    received token, when its price and value are both positive. *)
Definition estimate (tx : Transaction.t) : option JS.number :=
  match Transaction.tokens_received tx with
  | Some (token :: _) =>
      match TokenTransfer.price_usd token, TokenTransfer.value_usd token with
      | Some p, Some v =>
          if JS.gt p JS.zero && JS.gt v JS.zero
          then Some (JS.div (JS.mul p (Transaction.volume_usd tx)) v)
          else None
      | _, _ => None
      end
  | _ => None
  end.

(** Sent list first, then received list, then the estimate, else [0]. *)
Definition preferred_eth_price (tx : Transaction.t) : JS.number :=
  match native_price_in (Transaction.tokens_sent tx) with
  | Some p => p
  | None =>
      match native_price_in (Transaction.tokens_received tx) with
      | Some p => p
      | None =>
          match estimate tx with
          | Some e => e
          | None => JS.zero
          end
      end
  end.

End EthPriceSpec.

(** A buy that receives the native asset under its mixed-case spelling. *)
Module SentinelExample.

Definition CHECKSUMMED_ETH : string := "0xEeeeeEeeeEeEeeEeEeEeeEEEeeeeEeeeeeeeEEeE".

Definition buy_of_native : Transaction.t :=
  Transaction.mk (JS.of_Z 100)
    (Some [TokenTransfer.mk (Some Examples.TOKEN_X)
                            (Some (JS.of_Z 1)) (Some (JS.of_Z 100))])
    (Some [TokenTransfer.mk (Some CHECKSUMMED_ETH)
                            (Some (JS.of_Z 2000)) (Some (JS.of_Z 100))]).

End SentinelExample.

(** The received addresses of a transaction all come in lower case. *)
Definition received_in_lower_case (tx : Transaction.t) : Prop :=
  match Transaction.tokens_received tx with
  | Some received =>
      Forall (fun token =>
                match TokenTransfer.token_address token with
                | Some a => JS.toLowerCase a = a
                | None => True
                end) received
  | None => True
  end.

(** What holds of every member of the set of purchased tokens: it is in
    lower case and is not the zero address. *)
Definition kept (x : string) : Prop :=
  JS.toLowerCase x = x /\ x <> EthBenchmark.ZERO_ADDRESS.

(** *** Labels on which the two label analyzers are compared *)

Module LabelsAgreement.

(** The two entries that both priority lists hold. *)
Definition STAKER : string := "Staker".
Definition OPENSEA_USER : string := "OpenSea User".

Definition shared (label : string) : bool :=
  String.eqb label STAKER || String.eqb label OPENSEA_USER.

(** A label that neither analyzer matches: it contains no entry of the
    short list and is no entry of the long list. *)
Definition unmatched (label : string) : bool :=
  match Labels.Poc.priority_index label with
  | Some _ => false
  | None => negb (JS.array_includes Labels.Prd.LABEL_PRIORITY label)
  end.

Definition agreeable (label : string) : bool := shared label || unmatched label.

(** The upstream failed, answered with no array or an empty one, or
    answered with labels that are all shared or unmatched. *)
Definition agreeable_response (response : outcome (option (list Label.t))) : Prop :=
  match response with
  | Returned (Some labels) =>
      forallb agreeable (List.map Label.label labels) = true
  | _ => True
  end.

(** The loop state of the short-list analyzer once it has seen [Staker]
    ([staker]) or [OpenSea User] ([opensea]). *)
Definition best_of (staker opensea : bool) : option string * nat :=
  if staker then (Some STAKER, 11%nat)
  else if opensea then (Some OPENSEA_USER, 13%nat)
  else (None, 14%nat).

(** The labels [Staker] and [OpenSea User], as far as they occur. *)
Definition occurring (staker opensea : bool) : list string :=
  (if staker then [STAKER] else []) ++ (if opensea then [OPENSEA_USER] else []).

(** The answer both analyzers give on agreeable labels. *)
Definition common_answer (staker opensea : bool) : AnalysisResult Labels.Data :=
  if staker then succeeded "labels" (Labels.mkData STAKER)
  else if opensea then succeeded "labels" (Labels.mkData OPENSEA_USER)
  else Labels.fail.

End LabelsAgreement.

(** *** The tagged-result invariant *)

(** A result is well tagged when a success carries data and no fallback
    property, and a failure carries a fallback property and no data. *)
Definition well_tagged {T : Type} (r : AnalysisResult T) : bool :=
  match success r, data r, fallback r with
  | true, Some _, None => true
  | false, None, Some _ => true
  | _, _, _ => false
  end.

(** What an outcome holds, when it holds a result, is well tagged. *)
Definition returns_well_tagged {T : Type} (o : outcome (AnalysisResult T)) : Prop :=
  match o with
  | Returned r => well_tagged r = true
  | Thrown _ => True
  end.

(** The tokens the screener flags for a wallet: the items of its answer
    to the request made of the wallet's screenable holdings; none when
    the balance call or the screener call fails, when a body or a list is
    missing from an answer, or when no holding is left to screen. *)
Definition flagged_tokens (nansen : NansenService) (address : string)
  : list ScreenedToken.t :=
  match getCurrentBalance nansen (RuggedProjects.request address) with
  | Returned (Some (Some holdings)) =>
      match List.map Balance.token_address
                     (List.filter RuggedProjects.is_screenable holdings) with
      | [] => []
      | watchlist =>
          match screenTokens nansen
                  (mkScreenerRequest RuggedProjects.CHAINS 1 watchlist JS.zero
                                     RuggedProjects.LIQUIDITY_THRESHOLD 100) with
          | Returned (Some (Some (Some items))) => items
          | _ => []
          end
      end
  | _ => []
  end.

(** *** Exceptions at the boundary of an analyzer *)

(** An analyzer contains its [try] block: it returns what the block
    returned, or its fixed fallback when the block threw. *)
Definition contained {T : Type} (body : outcome (AnalysisResult T))
  (handler result : AnalysisResult T) : Prop :=
  match body with
  | Returned r => result = r
  | Thrown _ => result = handler
  end.

(** The tokens the cached portfolio analyzer asks the price client
    about: the holdings that pass the filter and miss the cache, in
    order; none when the balance call gives no holdings or the cache
    answers for all of them, in which cases no price call is made. *)
Definition asked_prices (nansen : NansenService) (now : Z) (address : string)
  (c : AthCache.t) : list TokenRef :=
  match getCurrentBalance nansen (PortfolioATH.request address) with
  | Returned (Some (Some holdings)) =>
      match fst (PortfolioATH.Cached.for_eachM
                   (PortfolioATH.Cached.check_cache now)
                   (List.filter PortfolioATH.is_token_holding holdings)
                   (PortfolioATH.Cached.mkLookup ∅ [] 0) c) with
      | Returned st => PortfolioATH.Cached.tokensToFetch st
      | Thrown _ => []
      end
  | _ => []
  end.

(** ** Proof automation *)

(** Case analysis on every value a body branches on. *)
Ltac branches :=
  repeat match goal with
         | |- context [match ?x with _ => _ end] => destruct x; simpl
         | |- context [if ?b then _ else _] => destruct b; simpl
         end;
  try reflexivity; try exact I.

(** ** [validation.ts] *)

Module Validation.

(** [[a-fA-F0-9]] *)
Definition is_hex (c : ascii) : bool :=
  let n := nat_of_ascii c in
  ((48 <=? n)%nat && (n <=? 57)%nat)
  || ((97 <=? n)%nat && (n <=? 102)%nat)
  || ((65 <=? n)%nat && (n <=? 70)%nat).

Fixpoint all_hex (s : string) : bool :=
  match s with
  | EmptyString => true
  | String c r => is_hex c && all_hex r
  end.

(** [/^0x[a-fA-F0-9]{40}$/.test(address)] *)
Definition isValidEthereumAddress (address : string) : bool :=
  match address with
  | String "0" (String "x" digits) =>
      (String.length digits =? 40)%nat && all_hex digits
  | _ => false
  end.

(** The white space at the end of a string is dropped. *)
Fixpoint trim_end (s : string) : string :=
  match s with
  | EmptyString => EmptyString
  | String c r =>
      match trim_end r with
      | EmptyString => if JS.is_ws c then EmptyString else String c EmptyString
      | r' => String c r'
      end
  end.

(** [s.trim()], on the ASCII white space. *)
Definition trim (s : string) : string := trim_end (JS.trim_start s).

Definition INVALID_FORMAT : string :=
  "Invalid Ethereum address format. Expected format: 0x followed by 40 hexadecimal characters".

(** What [validateAndNormalizeAddress] does: it returns the normalized
    address or throws an [Error] with a message. *)
Inductive validation : Type :=
| Normalized (address : string)
| Rejected (message : string).

Definition validateAndNormalizeAddress (address : string) : validation :=
  let trimmed := trim address in
  if negb (isValidEthereumAddress trimmed) then Rejected INVALID_FORMAT
  else Normalized (JS.toLowerCase trimmed).

(** [s.substring(n)] *)
Definition substring_from (n : nat) (s : string) : string :=
  substring n (String.length s - n) s.

(** [truncateAddress(address, startChars = 6, endChars = 4)], for counts
    that are natural numbers. *)
Definition truncateAddress (address : string) (startChars endChars : nat) : string :=
  if String.eqb address "" || (String.length address <? startChars + endChars)%nat
  then address
  else substring 0 startChars address ++ "..."
       ++ substring_from (String.length address - endChars) address.

(** The truncation written out in [testWallet] and [main] of the test
    runner: [address.slice(0, 6)}...${address.slice(-4)]. *)
Definition runner_truncated (address : string) : string :=
  substring 0 6 address ++ "..."
  ++ substring_from (String.length address - 4) address.

End Validation.

(** ** [priceProvider.service.ts] *)

Module PriceProviders.

(** What the object [mapping] of [coinIdToSymbol] yields for a key: a
    symbol of the table, or, for the two lower-case names that every
    object inherits, the inherited value, which is not a string and is
    truthy. *)
Inductive symbol : Type :=
| Ticker (s : string)
| Inherited (key : string).

(** The price clients behind the providers.  The answer of
    [getCurrentPrice] is an object keyed by coin id whose entries may
    carry a [usd] number. *)
Record Clients : Type := mkClients {
  coinGecko_getHistoricalPrice : string -> Z -> outcome JS.number;
  coinGecko_getCurrentPrice :
    string -> outcome (option (gmap string (option JS.number)));
  coinGecko_getATHPrice : string -> string -> nat -> outcome AthData.t;
  coinGecko_batchGetATHPrices :
    list (string * string) -> nat -> outcome (list (string * AthData.t));
  coinMarketCap_isEnabled : bool;
  coinMarketCap_getHistoricalPrice : symbol -> Z -> outcome JS.number;
  coinMarketCap_getCurrentPrice : symbol -> outcome JS.number
}.

(** The interface [PriceProvider]. *)
Record PriceProvider : Type := mkProvider {
  name : string;
  getHistoricalPrice : string -> Z -> outcome JS.number;
  getCurrentPrice : string -> outcome JS.number;
  getATHPrice : string -> string -> nat -> outcome AthData.t
}.

Definition NO_ATH : AthData.t := AthData.mk JS.zero None.

Definition NansenPriceProvider : PriceProvider :=
  mkProvider "Nansen"
             (fun _ _ => Returned JS.zero)
             (fun _ => Returned JS.zero)
             (fun _ _ _ => Returned NO_ATH).

(** [response[coinId]?.usd || 0] *)
Definition usd_of (response : option (gmap string (option JS.number)))
  (coinId : string) : outcome JS.number :=
  r <- prop response ;;
  match r !! coinId with
  | Some (Some usd) => Returned (if JS.truthy usd then usd else JS.zero)
  | _ => Returned JS.zero
  end.

Definition CoinGeckoPriceProvider (clients : Clients) : PriceProvider :=
  mkProvider "CoinGecko"
    (fun coinId date =>
       Returned (try_catch (coinGecko_getHistoricalPrice clients coinId date)
                           JS.zero))
    (fun coinId =>
       Returned (try_catch
                   (response <- coinGecko_getCurrentPrice clients coinId ;;
                    usd_of response coinId)
                   JS.zero))
    (fun chain address days =>
       Returned (try_catch (coinGecko_getATHPrice clients chain address days)
                           NO_ATH)).

Definition SYMBOLS : list (string * string) :=
  [ ("ethereum", "ETH"); ("bitcoin", "BTC"); ("binance-coin", "BNB");
    ("usd-coin", "USDC"); ("tether", "USDT"); ("wrapped-bitcoin", "WBTC");
    ("dai", "DAI"); ("chainlink", "LINK"); ("uniswap", "UNI");
    ("matic-network", "MATIC") ].

Fixpoint own_property (table : list (string * string)) (key : string)
  : option string :=
  match table with
  | [] => None
  | (k, v) :: rest => if String.eqb k key then Some v else own_property rest key
  end.

(** The names in lower case that an object literal inherits. *)
Definition INHERITED : list string := [ "constructor"; "__proto__" ].

(** [mapping[coinId.toLowerCase()] || null] *)
Definition coinIdToSymbol (coinId : string) : option symbol :=
  let key := JS.toLowerCase coinId in
  match own_property SYMBOLS key with
  | Some s => if String.eqb s "" then None else Some (Ticker s)
  | None => if JS.array_includes INHERITED key then Some (Inherited key) else None
  end.

Definition CoinMarketCapPriceProvider (clients : Clients) : PriceProvider :=
  mkProvider "CoinMarketCap"
    (fun coinId date =>
       if negb (coinMarketCap_isEnabled clients) then Returned JS.zero
       else
         Returned (try_catch
                     match coinIdToSymbol coinId with
                     | None => Returned JS.zero
                     | Some s => coinMarketCap_getHistoricalPrice clients s date
                     end
                     JS.zero))
    (fun coinId =>
       if negb (coinMarketCap_isEnabled clients) then Returned JS.zero
       else
         Returned (try_catch
                     match coinIdToSymbol coinId with
                     | None => Returned JS.zero
                     | Some s => coinMarketCap_getCurrentPrice clients s
                     end
                     JS.zero))
    (fun _ _ _ => Returned NO_ATH).

(** The provider chain of [new PriceService()]. *)
Definition default_providers (clients : Clients) : list PriceProvider :=
  [NansenPriceProvider; CoinGeckoPriceProvider clients]
  ++ (if coinMarketCap_isEnabled clients
      then [CoinMarketCapPriceProvider clients] else []).

(** The loop shared by the three lookups of [PriceService]: the first
    provider whose answer is accepted wins, a provider that throws is
    passed over, and [none] is returned when the chain is exhausted. *)
Fixpoint first_usable {A : Type} (call : PriceProvider -> outcome A)
  (usable : A -> bool) (none : A) (providers : list PriceProvider) : A :=
  match providers with
  | [] => none
  | provider :: rest =>
      match call provider with
      | Returned a =>
          if usable a then a else first_usable call usable none rest
      | Thrown _ => first_usable call usable none rest
      end
  end.

Definition positive_price (price : JS.number) : bool := JS.gt price JS.zero.

Definition service_getHistoricalPrice (providers : list PriceProvider)
  (coinId : string) (date : Z) : JS.number :=
  first_usable (fun p => getHistoricalPrice p coinId date)
               positive_price JS.zero providers.

Definition service_getCurrentPrice (providers : list PriceProvider)
  (coinId : string) : JS.number :=
  first_usable (fun p => getCurrentPrice p coinId)
               positive_price JS.zero providers.

Definition service_getATHPrice (providers : list PriceProvider)
  (chain address : string) (days : nat) : AthData.t :=
  first_usable (fun p => getATHPrice p chain address days)
               (fun result => positive_price (AthData.athPrice result))
               NO_ATH providers.

(** [this.providers.find((p) => p.name === 'CoinGecko')] *)
Definition has_coinGecko (providers : list PriceProvider) : bool :=
  existsb (fun p => String.eqb (name p) "CoinGecko") providers.

(** [batchGetATHPrices(tokens, days = 365)]: through the batch call of
    the CoinGecko client when a provider of that name is in the chain,
    else token by token through the chain. *)
Definition service_batchGetATHPrices (clients : Clients)
  (providers : list PriceProvider) (tokens : list (string * string))
  (days : nat) : gmap string AthData.t :=
  if has_coinGecko providers then
    try_catch
      (fetched <- coinGecko_batchGetATHPrices clients tokens days ;;
       Returned (PortfolioATH.map_of_entries fetched))
      ∅
  else
    fold_left
      (fun results token =>
         <[JS.toLowerCase (snd token) :=
             service_getATHPrice providers (fst token) (snd token) days]>
           results)
      tokens ∅.

End PriceProviders.

(** *** Vocabulary for the provider chain *)

(** A provider whose answer is passed over: it threw, or answered with
    a value that is not accepted. *)
Definition passed_over {A : Type} (call : PriceProviders.PriceProvider -> outcome A)
  (usable : A -> bool) (provider : PriceProviders.PriceProvider) : Prop :=
  match call provider with
  | Returned a => usable a = false
  | Thrown _ => True
  end.

(** [answer] is the accepted answer of the first provider of the chain
    that has one, or [none] when every provider is passed over. *)
Definition first_accepted {A : Type}
  (call : PriceProviders.PriceProvider -> outcome A)
  (usable : A -> bool) (none : A)
  (providers : list PriceProviders.PriceProvider) (answer : A) : Prop :=
  (exists (front : list PriceProviders.PriceProvider)
          (provider : PriceProviders.PriceProvider)
          (back : list PriceProviders.PriceProvider),
      providers = (front ++ provider :: back)%list
      /\ Forall (passed_over call usable) front
      /\ call provider = Returned answer
      /\ usable answer = true)
  \/ (answer = none /\ Forall (passed_over call usable) providers).

(** Clients for the examples of the provider chain: CoinGecko knows one
    token, CoinMarketCap is not configured. *)
Module PriceExamples.

Definition clients : PriceProviders.Clients :=
  PriceProviders.mkClients
    (fun _ _ => Returned (JS.of_Z 2000))
    (fun _ => Thrown NetworkError)
    (fun _ address _ =>
       if String.eqb address Examples.TOKEN_A
       then Returned (AthData.mk (JS.of_Z 20) (Some 1700000000000%Z))
       else Thrown (HttpStatus 429))
    (fun _ _ => Thrown NetworkError)
    false
    (fun _ _ => Thrown NetworkError)
    (fun _ => Thrown NetworkError).

(** A chain without a provider named CoinGecko. *)
Definition nansen_only : list PriceProviders.PriceProvider :=
  [PriceProviders.NansenPriceProvider].

End PriceExamples.

(** *** The loop of step 3 and the purchased tokens, read as sums and sets *)

Module BenchmarkLoop.

Import EthBenchmark.

(** The price the loop of step 3 works with for a transaction. *)
Definition price_of (tx : Transaction.t) : JS.number :=
  try_catch (getEthPriceFromTransaction tx) JS.zero.

(** The transactions the loop counts in [pricesFound]. *)
Definition priced (tx : Transaction.t) : bool :=
  JS.gt (price_of tx) JS.zero.

(** What a counted transaction adds to [totalEthEquivalent]. *)
Definition eth_share (tx : Transaction.t) : JS.number :=
  JS.div (Transaction.volume_usd tx) (price_of tx).

(** [x] is the lower-cased address of a token received in one of the
    transactions, the address being neither empty, nor the native-asset
    placeholder as the constant spells it, nor, in any letter case, the
    zero address. *)
Definition purchased_in (transactions : list Transaction.t) (x : string) : Prop :=
  exists (tx : Transaction.t) (received : list TokenTransfer.t)
         (token : TokenTransfer.t) (a : string),
    In tx transactions
    /\ Transaction.tokens_received tx = Some received
    /\ In token received
    /\ TokenTransfer.token_address token = Some a
    /\ a <> ""
    /\ a <> ETH_ADDRESS
    /\ JS.toLowerCase a <> ZERO_ADDRESS
    /\ x = JS.toLowerCase a.

(** Two lists of token addresses that name the same tokens, letter case,
    order and repetitions apart. *)
Definition same_tokens (tokens tokens' : list string) : Prop :=
  forall x : string,
    In x (List.map JS.toLowerCase tokens) <-> In x (List.map JS.toLowerCase tokens').

End BenchmarkLoop.

(** *** The loop of step 4 of the portfolio analysis, read as a sum *)

Module AthSums.

Import PortfolioATH.

(** The ATH record the loop uses for a holding: the one stored under its
    lower-cased address, when its price is positive. *)
Definition ath_of (athPrices : gmap string AthData.t) (holding : Balance.t)
  : option AthData.t :=
  match Balance.token_address holding with
  | Some a =>
      match athPrices !! JS.toLowerCase a with
      | Some athData =>
          if JS.gt (AthData.athPrice athData) JS.zero then Some athData else None
      | None => None
      end
  | None => None
  end.

Definition has_ath (athPrices : gmap string AthData.t) (holding : Balance.t)
  : bool :=
  match ath_of athPrices holding with
  | Some _ => true
  | None => false
  end.

(** What a holding adds to the ATH value: its amount at the ATH price,
    or its current value when no ATH price is known. *)
Definition ath_or_current (athPrices : gmap string AthData.t)
  (holding : Balance.t) : JS.number :=
  match ath_of athPrices holding with
  | Some athData =>
      JS.mul (JS.parseFloat (Balance.balance holding)) (AthData.athPrice athData)
  | None => Balance.value_usd holding
  end.

End AthSums.

(** *** What the two label analyzers choose *)

Module LabelChoice.

(** [p] is the first entry of [priority] that occurs among [names]. *)
Definition first_of (priority names : list string) (p : string) : Prop :=
  exists front back : list string,
    priority = (front ++ p :: back)%list
    /\ In p names
    /\ forall q, In q front -> ~ In q names.

(** No entry of [priority] occurs among [names]. *)
Definition none_of (priority names : list string) : Prop :=
  forall q, In q priority -> ~ In q names.

(** [i] is the least index that the short-list matching gives to one of
    [names]. *)
Definition least_index (names : list string) (i : nat) : Prop :=
  (exists l, In l names /\ Labels.Poc.priority_index l = Some i)
  /\ forall l j, In l names -> Labels.Poc.priority_index l = Some j -> (i <= j)%nat.

End LabelChoice.

(** *** The watchlist of the rugged-projects screening *)

Module RuggedWatch.

(** An address the holdings filter lets through: present, not empty and
    not the native-asset placeholder, letter case apart. *)
Definition screenable_address (tokenAddress : option string) : bool :=
  match tokenAddress with
  | Some a =>
      negb (String.eqb a "")
      && negb (String.eqb (JS.toLowerCase a) RuggedProjects.NATIVE_ADDRESS)
  | None => false
  end.

(** A screener request whose watchlist is not empty and holds such
    addresses only. *)
Definition clean_request (req : ScreenerRequest) : bool :=
  match sr_watchlistFilter req with
  | [] => false
  | watchlist => forallb screenable_address watchlist
  end.

(** The upstream [nansen] with a screener that fails on every request
    that is not clean. *)
Definition strict (nansen : NansenService) : NansenService :=
  mkNansen (getPnlSummary nansen) (getLabels nansen) (getCurrentBalance nansen)
           (getAllTransactions nansen)
           (fun req =>
              if clean_request req then screenTokens nansen req
              else Thrown NetworkError).

End RuggedWatch.

(** ** [test-runner.ts] *)

Module TestRunner.

(** [fallback || default] on a fallback property that may be missing,
    [null] or empty. *)
Definition or_else (fallback : option (option string)) (default : string)
  : string :=
  match fallback with
  | Some (Some message) => if String.eqb message "" then default else message
  | _ => default
  end.

(** The six awaited analyses of [runAllFunFacts], each inside its own
    [try] block. *)
Record Analyses : Type := mkAnalyses {
  pnlResult : outcome (AnalysisResult Pnl.Data);
  labelsResult : outcome (AnalysisResult Labels.Data);
  smartMoneyResult : outcome (AnalysisResult SmartMoney.Data);
  ruggedResult : outcome (AnalysisResult RuggedProjects.Data);
  ethBenchmarkResult : outcome (AnalysisResult EthBenchmark.Data);
  portfolioAthResult : outcome (AnalysisResult PortfolioATH.Data)
}.

Section Reports.

(** [formatUSD] prints through [Intl.NumberFormat]; its output is left
    open.  Its argument may be [null]. *)
Variable formatUSD : option JS.number -> string.

(** The [success] and [summary] of the row pushed for each feature, or
    what is thrown while the summary is put together. *)
Definition pnl_report (r : AnalysisResult Pnl.Data) : outcome (bool * string) :=
  match success r, data r with
  | true, Some d =>
      let status :=
        match Pnl.status d with Pnl.GAIN => "GAIN" | Pnl.LOSS => "LOSS" end in
      percent <- Formatting.formatPercent (Pnl.realized_pnl_percent d) 2 ;;
      Returned
        (true,
         status ++ " " ++ percent
         ++ " (" ++ formatUSD (Pnl.realized_pnl_usd d) ++ ")")
  | _, _ => Returned (false, or_else (fallback r) "No data")
  end.

Definition labels_report (r : AnalysisResult Labels.Data)
  : outcome (bool * string) :=
  match success r, data r with
  | true, Some d => Returned (true, Labels.label d)
  | _, _ => Returned (false, or_else (fallback r) "No labels")
  end.

Definition smart_money_report (r : AnalysisResult SmartMoney.Data)
  : outcome (bool * string) :=
  match success r, data r with
  | true, Some d =>
      if SmartMoney.isSmartMoney d then
        let labels :=
          match SmartMoney.labels d with
          | [] => ""
          | found => " (" ++ String.concat ", " found ++ ")"
          end in
        Returned (true, "Identified" ++ labels)
      else Returned (true, "Not identified")
  | _, _ => Returned (true, "Not identified")
  end.

(** The data carry no [totalLoss], so [totalLoss || 0] is 0. *)
Definition rugged_report (r : AnalysisResult RuggedProjects.Data)
  : outcome (bool * string) :=
  match success r, data r with
  | true, Some d =>
      if (0 <? RuggedProjects.ruggedCount d)%nat then
        Returned
          (true,
           JS.digits_of (Z.of_nat (RuggedProjects.ruggedCount d))
           ++ " detected (" ++ formatUSD (Some JS.zero) ++ " loss)")
      else Returned (true, "None detected")
  | _, _ => Returned (false, "No data")
  end.

Definition eth_benchmark_report (r : AnalysisResult EthBenchmark.Data)
  : outcome (bool * string) :=
  match success r, data r with
  | true, Some d =>
      let status :=
        match EthBenchmark.status d with
        | EthBenchmark.OUTPERFORMED => "OUTPERFORMED"
        | EthBenchmark.UNDERPERFORMED => "UNDERPERFORMED"
        end in
      percent <- Formatting.formatPercent (EthBenchmark.performancePercent d) 2 ;;
      Returned (true, status ++ " " ++ percent)
  | _, _ => Returned (false, or_else (fallback r) "No data")
  end.

Definition portfolio_ath_report (r : AnalysisResult PortfolioATH.Data)
  : outcome (bool * string) :=
  match success r, data r with
  | true, Some d =>
      percent <-
        Formatting.formatPercent (PortfolioATH.potentialGainPercent d) 2 ;;
      Returned (true, percent ++ " potential gain")
  | _, _ => Returned (false, or_else (fallback r) "No data")
  end.

End Reports.

Record TestResult : Type := mkTestResult {
  feature : string;
  success : bool;
  summary : string;
  duration : Z
}.

Section Runner.

Variable formatUSD : option JS.number -> string.

(** [Date.now()]: [clock n] is what its [n]-th call returns. *)
Variable clock : nat -> Z.

(** One block of [runAllFunFacts], entered after [reads] readings of the
    clock: the row it pushes and the number of readings after it.  The
    clock is read before the analysis and after it; the [catch] branch
    reads it once more when the summary could not be put together. *)
Definition row {T : Type} (reads : nat) (name : string)
  (analysis : outcome (AnalysisResult T))
  (report : AnalysisResult T -> outcome (bool * string)) : TestResult * nat :=
  let start := clock reads in
  match analysis with
  | Returned r =>
      let duration := (clock (reads + 1)%nat - start)%Z in
      match report r with
      | Returned (ok, text) =>
          (mkTestResult name ok text duration, (reads + 2)%nat)
      | Thrown _ =>
          (mkTestResult name false "Error occurred"
                        (clock (reads + 2)%nat - start)%Z,
           (reads + 3)%nat)
      end
  | Thrown _ =>
      (mkTestResult name false "Error occurred"
                    (clock (reads + 1)%nat - start)%Z,
       (reads + 2)%nat)
  end.

Definition runAllFunFacts (a : Analyses) : list TestResult :=
  let '(pnl, reads) := row 0 "P&L" (pnlResult a) (pnl_report formatUSD) in
  let '(labels, reads) := row reads "Labels" (labelsResult a) labels_report in
  let '(smartMoney, reads) :=
    row reads "Smart Money" (smartMoneyResult a) smart_money_report in
  let '(rugged, reads) :=
    row reads "Rugged Projects" (ruggedResult a) (rugged_report formatUSD) in
  let '(ethBenchmark, reads) :=
    row reads "ETH Benchmark" (ethBenchmarkResult a) eth_benchmark_report in
  let '(portfolioAth, _) :=
    row reads "Portfolio ATH" (portfolioAthResult a) portfolio_ath_report in
  [pnl; labels; smartMoney; rugged; ethBenchmark; portfolioAth].

End Runner.

(** [results.filter(r => r.success).length] *)
Definition successCount (results : list TestResult) : nat :=
  List.length (List.filter success results).

(** [formatDuration(ms)] on a whole number of milliseconds: the template
    prints [String(ms)], which for a whole number is what [toFixed(0)]
    returns; [toFixed(1)] has its digit count in range. *)
Definition formatDuration (ms : Z) : string :=
  if (ms <? 1000)%Z then JS.fixed (JS.of_Z ms) 0 ++ "ms"
  else JS.fixed (JS.div (JS.of_Z ms) (JS.of_Z 1000)) 1 ++ "s".

(** [((successCount / totalCount) * 100).toFixed(0)], the digit count
    being in range. *)
Definition successRate (results : list TestResult) : string :=
  JS.fixed
    (JS.mul (JS.div (JS.of_nat (successCount results))
                    (JS.of_nat (List.length results)))
            (JS.of_Z 100)) 0.

(** The analyses of a wallet by the analyzers above against an upstream
    and a price client; where there are two implementations, the first. *)
Definition analyses_of (nansen : NansenService) (coinGecko : CoinGeckoService)
  (address : string) : Analyses :=
  mkAnalyses
    (Returned (Pnl.analyzePnl nansen address 1))
    (Returned (Labels.Poc.analyzeLabels nansen address))
    (Returned (SmartMoney.Poc.analyzeSmartMoney nansen address))
    (Returned (RuggedProjects.analyzeRuggedProjects nansen address))
    (Returned (EthBenchmark.analyzeEthBenchmark nansen address))
    (Returned (PortfolioATH.Plain.analyzePortfolioATH nansen coinGecko address)).

End TestRunner.

(** ** [test-getall.ts] *)

Module GetAllTest.

(** What the loop reads of a response: [response.data?.data] when it is
    an array, and [response.data.pagination?.is_last_page]. *)
Record Page (A : Type) : Type := mkPage {
  page_data : option (list A);
  is_last_page : option bool
}.
Arguments mkPage {A} _ _.
Arguments page_data {A} _.
Arguments is_last_page {A} _.

(** [!response.data.pagination?.is_last_page] *)
Definition more_pages {A : Type} (response : Page A) : bool :=
  match is_last_page response with
  | Some true => false
  | _ => true
  end.

(** The [while] loop; [turns] is the number of turns left before
    [currentPage > 3] breaks it. *)
Fixpoint fetch_pages {A : Type} (client : nat -> outcome (Page A))
  (turns currentPage : nat) (allTransactions : list A) : outcome (list A) :=
  match turns with
  | O => Returned allTransactions
  | S turns' =>
      response <- client currentPage ;;
      match page_data response with
      | None => Returned allTransactions
      | Some data =>
          let allTransactions' := (allTransactions ++ data)%list in
          if more_pages response
          then fetch_pages client turns' (S currentPage) allTransactions'
          else Returned allTransactions'
      end
  end.

(** The transactions whose number the script prints as its final count. *)
Definition testGetAllTransactions {A : Type} (client : nat -> outcome (Page A))
  : outcome (list A) :=
  fetch_pages client 3 1 [].

(** The request asks for 100 transactions per page. *)
Definition PER_PAGE : nat := 100.

End GetAllTest.

(** ** The coverage report *)

Module Coverage.

Definition NATIVE_ADDRESS : string := "0xeeeeeeeeeeeeeeeeeeeeeeeeeeeeeeeeeeeeeeee".

(** The filter on [allHoldings]. *)
Definition is_token_holding (h : Balance.t) : bool :=
  match Balance.token_address h with
  | Some a =>
      JS.truthy_str (Some a)
      && negb (String.eqb (JS.toLowerCase a) NATIVE_ADDRESS)
      && JS.gt (Balance.value_usd h) JS.zero
  | None => false
  end.

Record Range : Type := mkRange {
  min : JS.number;
  max : JS.number;
  label : string
}.

Definition ranges : list Range :=
  [ mkRange (JS.of_Z 1000) JS.PosInf "> $1,000";
    mkRange (JS.of_Z 100) (JS.of_Z 1000) "$100 - $1,000";
    mkRange (JS.of_Z 10) (JS.of_Z 100) "$10 - $100";
    mkRange (JS.of_Z 0) (JS.of_Z 10) "< $10 (dust)" ].

(** [h.value_usd >= range.min && h.value_usd < range.max] *)
Definition in_range (range : Range) (h : Balance.t) : bool :=
  JS.ge (Balance.value_usd h) (min range)
  && JS.lt (Balance.value_usd h) (max range).

(** The [count] and [totalValue] printed for a range. *)
Definition count (tokenHoldings : list Balance.t) (range : Range) : nat :=
  List.length (List.filter (in_range range) tokenHoldings).

Definition totalValue (tokenHoldings : list Balance.t) (range : Range)
  : JS.number :=
  fold_left (fun sum h => JS.add sum (Balance.value_usd h))
            (List.filter (in_range range) tokenHoldings) JS.zero.

(** The holdings split of the ATH section, at [minValue = 50]. *)
Definition minValue : JS.number := JS.of_Z 50.

Definition athEligible (tokenHoldings : list Balance.t) : list Balance.t :=
  List.filter (fun h => JS.ge (Balance.value_usd h) minValue) tokenHoldings.

Definition dustFiltered (tokenHoldings : list Balance.t) : list Balance.t :=
  List.filter (fun h => JS.lt (Balance.value_usd h) minValue) tokenHoldings.

(** The sum of the counts printed for the four ranges. *)
Definition counted (tokenHoldings : list Balance.t) : nat :=
  fold_left Nat.add (List.map (count tokenHoldings) ranges) 0%nat.

End Coverage.

(** * Properties *)

(** ** Arithmetic on the number model *)

Section Numbers.

Import JS.

Example toFixed_rounds_half_up : toFixed (fin 0.005) 2 = Some "0.01".
Proof. vm_compute. reflexivity. Qed.

Example toFixed_keeps_sign_of_small_negative :
  toFixed (fin (-0.001)) 2 = Some "-0.00".
Proof. vm_compute. reflexivity. Qed.

Example toFixed_without_decimals : toFixed (fin 1234.5) 0 = Some "1235".
Proof. vm_compute. reflexivity. Qed.

Example toFixed_refuses_101_digits :
  toFixed (fin 1.5) 101 = None /\ toFixed NaN 101 = None.
Proof. split; reflexivity. Qed.

Example toFixed_from_1e21 :
  toFixed (of_Z (10 ^ 21)) 2 = Some "1e+21"
  /\ toFixed (of_Z (- 15 * 10 ^ 20)) 2 = Some "-1.5e+21"
  /\ toFixed (of_Z 123456789012345678901234) 0 = Some "1.2345678901234568e+23"
  /\ toFixed (of_Z (10 ^ 20)) 0 = Some "100000000000000000000".
Proof. repeat split; vm_compute; reflexivity. Qed.

Example parseFloat_integer : parseFloat "10" = of_Z 10.
Proof. vm_compute. reflexivity. Qed.

Example parseFloat_prefix : parseFloat "  -12.50e1abc" = of_Z (-125).
Proof. vm_compute. reflexivity. Qed.

Example parseFloat_not_a_number : parseFloat "abc" = NaN.
Proof. vm_compute. reflexivity. Qed.

Example division_by_zero : div (of_Z 1) zero = PosInf /\ div zero zero = NaN.
Proof. split; vm_compute; reflexivity. Qed.

Example includes_is_containment :
  includes "memecoin whale" "whale" = true
  /\ includes "memecoin whale" "whales" = false.
Proof. split; reflexivity. Qed.

Lemma Qltb_true (a b : Q) : Qltb a b = true <-> (a < b)%Q.
Proof.
  unfold Qltb. rewrite negb_true_iff. split.
  - intros H. apply Qnot_le_lt. intros Hle.
    apply Qle_bool_iff in Hle. congruence.
  - intros H. destruct (Qle_bool b a) eqn:E; [|reflexivity].
    apply Qle_bool_iff in E. exfalso. apply (Qlt_not_le _ _ H E).
Qed.


Lemma gt_zero_Fin (q : Q) : gt (Fin q) zero = true <-> (0 < q)%Q.
Proof. unfold gt, lt, zero. apply Qltb_true. Qed.

Lemma gt_zero_positive (a : number) : gt a zero = true <-> positive_number a.
Proof.
  destruct a as [q| | |]; simpl.
  - apply gt_zero_Fin.
  - unfold gt, lt, zero. tauto.
  - unfold gt, lt, zero. split; [discriminate | tauto].
  - unfold gt, lt, zero. split; [discriminate | tauto].
Qed.

Lemma positive_nonnegative (a : number) : positive_number a -> nonnegative_number a.
Proof. destruct a; simpl; auto using Qlt_le_weak. Qed.

Lemma add_nonneg_pos (a b : number) :
  nonnegative_number a -> positive_number b -> positive_number (add a b).
Proof.
  destruct a as [x| | |], b as [y| | |]; unfold add, fin; simpl; try tauto.
  intros Hx Hy. rewrite Qred_correct. lra.
Qed.

Lemma positive_not_zero (a : number) : positive_number a -> eq a zero = false.
Proof.
  destruct a as [q| | |]; unfold eq, zero; simpl; try tauto.
  intros H. destruct (Qeq_bool q 0) eqn:E; [|reflexivity].
  apply Qeq_bool_iff in E. exfalso. lra.
Qed.

End Numbers.

(** ** Portfolio at ATH: the value that divides *)

Section PortfolioValue.

Import PortfolioATH.

Lemma is_token_holding_positive (holding : Balance.t) :
  is_token_holding holding = true ->
  positive_number (Balance.value_usd holding).
Proof.
  unfold is_token_holding.
  destruct (Balance.token_address holding); [|discriminate].
  rewrite !andb_true_iff. intros [_ H]. now apply gt_zero_positive.
Qed.

Lemma filtered_holdings_positive (holdings : list Balance.t) :
  Forall (fun h => positive_number (Balance.value_usd h))
         (List.filter is_token_holding holdings).
Proof.
  apply List.Forall_forall. intros h Hin.
  apply List.filter_In in Hin. destruct Hin as [_ H].
  now apply is_token_holding_positive.
Qed.

(** The running sum stays non-negative, and is positive once a holding
    has been added. *)
Lemma sum_from_nonneg (l : list Balance.t) :
  Forall (fun h => positive_number (Balance.value_usd h)) l ->
  forall acc, nonnegative_number acc ->
    nonnegative_number
      (fold_left (fun cv h => JS.add cv (Balance.value_usd h)) l acc)
    /\ (l <> [] ->
        positive_number
          (fold_left (fun cv h => JS.add cv (Balance.value_usd h)) l acc)).
Proof.
  induction 1 as [|h l Hh Hl IH]; intros acc Hacc; simpl.
  - split; [assumption | congruence].
  - pose proof (add_nonneg_pos _ _ Hacc Hh) as Hpos.
    destruct (IH _ (positive_nonnegative _ Hpos)) as [Hnn Hp].
    split; [assumption|]. intros _.
    destruct l as [|h' l'].
    + exact Hpos.
    + apply Hp. discriminate.
Qed.

Lemma sum_values_positive (tokenHoldings : list Balance.t) :
  Forall (fun h => positive_number (Balance.value_usd h)) tokenHoldings ->
  tokenHoldings <> [] ->
  positive_number (sum_values tokenHoldings).
Proof.
  intros Hall Hne. unfold sum_values.
  apply (sum_from_nonneg _ Hall JS.zero); [|assumption].
  simpl. lra.
Qed.

Lemma fail_divides_by_positive : divides_by_positive fail.
Proof. intros d H. discriminate. Qed.

Lemma evaluate_divides_by_positive (tokenHoldings : list Balance.t)
  (athPrices : gmap string AthData.t) :
  Forall (fun h => positive_number (Balance.value_usd h)) tokenHoldings ->
  tokenHoldings <> [] ->
  match evaluate tokenHoldings athPrices with
  | Returned r => divides_by_positive r
  | Thrown _ => True
  end.
Proof.
  intros Hall Hne. unfold evaluate, bind.
  destruct (for_each _ _ _) as [[athValue n]|e]; [|exact I].
  simpl. destruct n as [|n]; [apply fail_divides_by_positive|].
  intros d [= <-]. simpl.
  pose proof (sum_values_positive _ Hall Hne) as Hpos.
  split; [now apply gt_zero_positive|].
  split; [now apply positive_not_zero | reflexivity].
Qed.

Lemma plain_divides_by_positive nansen coinGecko address :
  divides_by_positive (Plain.analyzePortfolioATH nansen coinGecko address).
Proof.
  unfold Plain.analyzePortfolioATH, Plain.body, bind, prop.
  destruct (getCurrentBalance nansen _) as [[[[|h r]|]|]|e];
    try apply fail_divides_by_positive.
  pose proof (filtered_holdings_positive (h :: r)) as Hall.
  destruct (List.filter is_token_holding (h :: r)) as [|th ths] eqn:E;
    [apply fail_divides_by_positive|].
  destruct (batchGetATHPrices _ _ _) as [fetched|e];
    [|apply fail_divides_by_positive].
  pose proof (evaluate_divides_by_positive (th :: ths) (map_of_entries fetched)
                Hall ltac:(discriminate)) as H.
  destruct (evaluate (th :: ths) (map_of_entries fetched));
    [exact H | apply fail_divides_by_positive].
Qed.

Lemma cached_divides_by_positive nansen coinGecko now address c :
  divides_by_positive
    (fst (Cached.analyzePortfolioATH nansen coinGecko now address c)).
Proof.
  unfold Cached.analyzePortfolioATH, Cached.body, Cached.bindM, Cached.lift,
    Cached.ret, prop.
  destruct (getCurrentBalance nansen _) as [[[[|h r]|]|]|e];
    try apply fail_divides_by_positive.
  pose proof (filtered_holdings_positive (h :: r)) as Hall.
  destruct (List.filter is_token_holding (h :: r)) as [|th ths] eqn:E;
    [apply fail_divides_by_positive|].
  destruct (Cached.for_eachM _ _ _ c) as [[st|e] c1];
    [|apply fail_divides_by_positive].
  assert (Hev : forall prices,
            divides_by_positive (try_catch (evaluate (th :: ths) prices) fail)).
  { intros prices.
    pose proof (evaluate_divides_by_positive (th :: ths) prices
                  Hall ltac:(discriminate)) as H.
    destruct (evaluate (th :: ths) prices);
      [exact H | apply fail_divides_by_positive]. }
  destruct (Cached.tokensToFetch st) as [|t ts]; [apply Hev|].
  destruct (batchGetATHPrices _ _ _) as [fetched|e];
    [|apply fail_divides_by_positive].
  destruct (Cached.for_eachM _ _ _ c1) as [[prices|e] c2];
    [apply Hev | apply fail_divides_by_positive].
Qed.

(** C4, as amended.  Whatever the upstream returns, the holdings that
    survive the filter all have a positive value, so the current value
    that reaches the division is positive and differs from zero: every
    success of either implementation reports a positive current value.
    The final step divides by it as it stands, without a test on the
    divisor. *)
Theorem current_value_positive_and_division_unguarded :
  (forall (holdings : list Balance.t),
     List.filter is_token_holding holdings <> [] ->
     let currentValue := sum_values (List.filter is_token_holding holdings) in
     JS.gt currentValue JS.zero = true
     /\ JS.eq currentValue JS.zero = false)
  /\ (forall (nansen : NansenService) (coinGecko : CoinGeckoService)
             (address : string) (now : Z) (c : AthCache.t),
        divides_by_positive (Plain.analyzePortfolioATH nansen coinGecko address)
        /\ divides_by_positive
             (fst (Cached.analyzePortfolioATH nansen coinGecko now address c)))
  /\ (forall (currentValue athValue : JS.number) (n : nat),
        conclude currentValue athValue (S n)
        = succeeded "portfolio_ath"
            (mkData currentValue athValue
               (JS.mul (JS.div (JS.sub athValue currentValue) currentValue)
                       (JS.of_Z 100)))).
Proof.
  split; [|split].
  - intros holdings Hne currentValue.
    assert (Hpos : positive_number currentValue).
    { apply sum_values_positive;
        [apply filtered_holdings_positive | assumption]. }
    split; [now apply gt_zero_positive | now apply positive_not_zero].
  - intros nansen coinGecko address now c. split.
    + apply plain_divides_by_positive.
    + apply cached_divides_by_positive.
  - reflexivity.
Qed.

(** A single holding worth $100 survives the filter. *)
Lemma current_value_positive_and_division_unguarded_witness :
  JS.gt (sum_values (List.filter is_token_holding [Examples.holding_A]))
        JS.zero = true.
Proof.
  apply (proj1 current_value_positive_and_division_unguarded
           [Examples.holding_A]).
  vm_compute. discriminate.
Defined.

(** C4, as stated, fails: the final step does not guard the division.
    Handed a zero current value and a zero ATH value it reports a success
    whose gain is [NaN]. *)
Lemma division_not_guarded :
  conclude JS.zero JS.zero 1
  = succeeded "portfolio_ath" (mkData JS.zero JS.zero JS.NaN)
  /\ ~ guards_zero_division conclude.
Proof.
  split; [vm_compute; reflexivity|].
  intros H. specialize (H JS.zero 1%nat eq_refl).
  vm_compute in H. discriminate.
Qed.

End PortfolioValue.

(** ** Portfolio at ATH: contributions and the worked example *)

Section PortfolioExample.

Import PortfolioATH.

(** A holding whose token has no record, or a record whose price is not
    positive, adds its current value and is not counted. *)
Lemma unknown_ath_adds_current_value
  (athPrices : gmap string AthData.t) (holding : Balance.t) (a : string)
  (athValue : JS.number) (n : nat) :
  Balance.token_address holding = Some a ->
  match athPrices !! JS.toLowerCase a with
  | Some athData => JS.gt (AthData.athPrice athData) JS.zero = false
  | None => True
  end ->
  add_ath_value athPrices (athValue, n) holding
  = Returned (JS.add athValue (Balance.value_usd holding), n).
Proof.
  intros Ha. unfold add_ath_value, key_of. rewrite Ha. simpl.
  destruct (athPrices !! JS.toLowerCase a) as [athData|]; [|reflexivity].
  intros Hrec. now rewrite Hrec.
Qed.

(** A holding whose token has a record with a positive price adds its
    amount times that price and is counted. *)
Lemma known_ath_adds_amount_times_price
  (athPrices : gmap string AthData.t) (holding : Balance.t) (a : string)
  (athData : AthData.t) (athValue : JS.number) (n : nat) :
  Balance.token_address holding = Some a ->
  athPrices !! JS.toLowerCase a = Some athData ->
  JS.gt (AthData.athPrice athData) JS.zero = true ->
  add_ath_value athPrices (athValue, n) holding
  = Returned (JS.add athValue
                (JS.mul (JS.parseFloat (Balance.balance holding))
                        (AthData.athPrice athData)),
              S n).
Proof.
  intros Ha Hrec Hpos. unfold add_ath_value, key_of. rewrite Ha. simpl.
  now rewrite Hrec, Hpos.
Qed.

(** C1.  On the holdings [{value: 100, amount: 10, token: A}] and
    [{value: 50, amount: 5, token: B}] with ATH prices [{A: 20}] and
    nothing usable for B (no entry, or the record of a failed lookup),
    both implementations of the analyzer succeed with a current value of
    150, an ATH value of 10 * 20 + 50 = 250, B contributing its current
    value, and a potential gain of 200/3 percent, printed as 66.67.  In
    general a holding without a record of positive ATH price adds its
    current [value_usd] to the ATH value and is not counted as a hit. *)
Theorem portfolio_ath_worked_example :
  (let nansen := Examples.with_balances [Examples.holding_A; Examples.holding_B] in
   let expected :=
     succeeded "portfolio_ath"
       (mkData (JS.of_Z 150) (JS.of_Z 250) (JS.Fin (200 # 3))) in
   Plain.analyzePortfolioATH nansen (Examples.with_ath [Examples.ath_A])
                             Examples.WALLET = expected
   /\ Plain.analyzePortfolioATH nansen
        (Examples.with_ath [Examples.ath_A; Examples.ath_B_failed])
        Examples.WALLET = expected
   /\ fst (Cached.analyzePortfolioATH nansen (Examples.with_ath [Examples.ath_A])
             Examples.NOW Examples.WALLET AthCache.empty) = expected
   /\ fst (Cached.analyzePortfolioATH nansen
             (Examples.with_ath [Examples.ath_A; Examples.ath_B_failed])
             Examples.NOW Examples.WALLET AthCache.empty) = expected
   /\ JS.toFixed (JS.Fin (200 # 3)) 2 = Some "66.67")
  /\ forall (athPrices : gmap string AthData.t) (holding : Balance.t)
            (a : string) (athValue : JS.number) (n : nat),
       Balance.token_address holding = Some a ->
       match athPrices !! JS.toLowerCase a with
       | Some athData => JS.gt (AthData.athPrice athData) JS.zero = false
       | None => True
       end ->
       add_ath_value athPrices (athValue, n) holding
       = Returned (JS.add athValue (Balance.value_usd holding), n).
Proof.
  split.
  - repeat split; vm_compute; reflexivity.
  - apply unknown_ath_adds_current_value.
Qed.

(** The general rule at holding B of the example, whose token has no record. *)
Lemma portfolio_ath_worked_example_witness :
  add_ath_value (map_of_entries [Examples.ath_A]) (JS.of_Z 200, 1%nat)
                Examples.holding_B
  = Returned (JS.add (JS.of_Z 200) (JS.of_Z 50), 1%nat).
Proof.
  apply (proj2 portfolio_ath_worked_example
           (map_of_entries [Examples.ath_A]) Examples.holding_B
           Examples.TOKEN_B (JS.of_Z 200) 1%nat eq_refl).
  vm_compute. exact I.
Defined.

End PortfolioExample.

(** ** The price cache *)

Section PriceCache.

Lemma lookup_after_set (now : Z) (a a' : string) (p : JS.number) (d : option Z)
  (c : AthCache.t) :
  JS.gt p JS.zero = true ->
  JS.toLowerCase a' = JS.toLowerCase a ->
  AthCache.entries (AthCache.set now a p d c) !! JS.toLowerCase a'
  = Some (AthCache.mkEntry (AthData.mk p d) now).
Proof.
  intros Hp Hcase. unfold AthCache.set. rewrite Hp. simpl.
  rewrite Hcase. apply lookup_insert_eq.
Qed.

(** C5.  After [set(a, p, d)] with a positive price, a [get] of the same
    address in any letter case returns the record just set as long as no
    more than 24 hours have elapsed, in particular at once; when more
    than 24 hours have elapsed it returns absent and counts a miss, and
    the entries of the cache, the stale one included, are left as they
    were. *)
Theorem cache_get_after_set :
  forall (a a' : string) (p : JS.number) (d : option Z) (now t : Z)
         (c : AthCache.t),
    JS.gt p JS.zero = true ->
    JS.toLowerCase a' = JS.toLowerCase a ->
    let c1 := AthCache.set now a p d c in
    fst (AthCache.get now a' c1) = Some (AthData.mk p d)
    /\ ((t - now <= AthCache.TTL_MS)%Z ->
        fst (AthCache.get t a' c1) = Some (AthData.mk p d))
    /\ ((t - now > AthCache.TTL_MS)%Z ->
        fst (AthCache.get t a' c1) = None
        /\ AthCache.missCount (snd (AthCache.get t a' c1))
           = S (AthCache.missCount c1)
        /\ AthCache.entries (snd (AthCache.get t a' c1)) = AthCache.entries c1
        /\ AthCache.entries (snd (AthCache.get t a' c1)) !! JS.toLowerCase a
           = Some (AthCache.mkEntry (AthData.mk p d) now)).
Proof.
  intros a a' p d now t c Hp Hcase c1.
  pose proof (lookup_after_set now a a' p d c Hp Hcase) as Hl.
  pose proof (lookup_after_set now a a p d c Hp eq_refl) as Hself.
  fold c1 in Hl, Hself.
  assert (Hfresh : forall u, (u - now <= AthCache.TTL_MS)%Z ->
            fst (AthCache.get u a' c1) = Some (AthData.mk p d)).
  { intros u Hu. unfold AthCache.get. rewrite Hl. simpl.
    destruct (Z.ltb_spec AthCache.TTL_MS (u - now)); [lia | reflexivity]. }
  split; [apply Hfresh; unfold AthCache.TTL_MS; lia|].
  split; [apply Hfresh|].
  intros Hstale. unfold AthCache.get. rewrite Hl. simpl.
  destruct (Z.ltb_spec AthCache.TTL_MS (t - now)); [|lia].
  simpl. auto.
Qed.

(** A mixed-case address, read at once and one millisecond past 24 hours. *)
Lemma cache_get_after_set_witness :
  let c1 := AthCache.set 0 "0xAbCd" (JS.of_Z 20) (Some 5%Z) AthCache.empty in
  fst (AthCache.get 0 "0xaBcD" c1) = Some (AthData.mk (JS.of_Z 20) (Some 5%Z))
  /\ fst (AthCache.get (AthCache.TTL_MS + 1) "0xaBcD" c1) = None.
Proof.
  pose proof (cache_get_after_set "0xAbCd" "0xaBcD" (JS.of_Z 20) (Some 5%Z) 0
                (AthCache.TTL_MS + 1) AthCache.empty eq_refl eq_refl) as H.
  split.
  - exact (proj1 H).
  - apply (proj2 (proj2 H)). vm_compute. reflexivity.
Defined.

End PriceCache.

(** ** ETH benchmark: the implied ETH price of a buy *)

Section EthPrice.

Import EthBenchmark EthPriceSpec.

Lemma eth_address_lower : JS.toLowerCase ETH_ADDRESS = ETH_ADDRESS.
Proof. reflexivity. Qed.

Lemma lower_eth_truthy (a : string) :
  String.eqb (JS.toLowerCase a) ETH_ADDRESS = true -> JS.truthy_str (Some a) = true.
Proof. destruct a; [discriminate | reflexivity]. Qed.

Lemma is_priced_eth_spec (token : TokenTransfer.t) :
  is_priced_eth token = true
  <-> is_native_eth token = true
      /\ explicit_price token = TokenTransfer.price_usd token
      /\ TokenTransfer.price_usd token <> None.
Proof.
  unfold is_priced_eth, is_native_eth, explicit_price, positive.
  rewrite eth_address_lower.
  destruct (TokenTransfer.token_address token) as [a|]; simpl.
  - destruct (String.eqb (JS.toLowerCase a) ETH_ADDRESS) eqn:E.
    + pose proof (lower_eth_truthy a E) as Ht. simpl in Ht. rewrite Ht. simpl.
      destruct (TokenTransfer.price_usd token) as [p|].
      * destruct (JS.gt p JS.zero).
        -- split; intros; repeat split; congruence.
        -- split; [discriminate | intros (_ & H & _); discriminate].
      * split; [discriminate | intros (_ & _ & H); congruence].
    + rewrite andb_false_r. simpl.
      split; [discriminate | intros [H _]; discriminate].
  - split; [discriminate | intros [H _]; discriminate].
Qed.

Lemma find_eth_price_spec (tokens : list TokenTransfer.t) :
  find_eth_price tokens = native_price tokens.
Proof.
  induction tokens as [|token rest IH]; [reflexivity|]. simpl.
  destruct (is_priced_eth token) eqn:E.
  - apply is_priced_eth_spec in E. destruct E as (Hn & Hp & Hs).
    rewrite Hn, Hp.
    destruct (TokenTransfer.price_usd token); [reflexivity | congruence].
  - rewrite IH. destruct (is_native_eth token) eqn:Hn; [|reflexivity].
    destruct (explicit_price token) as [p|] eqn:Hp; [|reflexivity].
    exfalso. assert (is_priced_eth token = true); [|congruence].
    apply is_priced_eth_spec. unfold explicit_price in *.
    destruct (TokenTransfer.price_usd token) as [q|]; [|discriminate].
    destruct (JS.gt q JS.zero); [|discriminate].
    repeat split; congruence.
Qed.

Lemma search_spec (tokens : option (list TokenTransfer.t)) :
  search tokens = native_price_in tokens.
Proof.
  destruct tokens as [[|t r]|]; try reflexivity.
  unfold search. apply find_eth_price_spec.
Qed.

Lemma pos_Qeq_bool (x : Q) : (0 < x)%Q -> Qeq_bool x 0 = false.
Proof.
  intros H. destruct (Qeq_bool x 0) eqn:E; [|reflexivity].
  apply Qeq_bool_iff in E. exfalso. lra.
Qed.

Lemma pos_Qle_bool (x : Q) : (0 < x)%Q -> Qle_bool 0 x = true.
Proof. intros H. apply Qle_bool_iff. lra. Qed.

Lemma pos_Qltb (x : Q) : (0 < x)%Q -> JS.Qltb 0 x = true.
Proof. intros H. now apply Qltb_true. Qed.

Lemma pos_quotient (x y : Q) : (0 < x)%Q -> (0 < y)%Q -> (0 < Qred (x / y))%Q.
Proof.
  intros Hx Hy. rewrite Qred_correct. unfold Qdiv.
  apply Qmult_lt_0_compat; [assumption | now apply Qinv_lt_0_compat].
Qed.

(** On positive values, [price * (volume / value)], which the code
    computes, is [price * volume / value]. *)
Lemma estimate_reassociates (p vol v : JS.number) :
  positive_number p -> positive_number vol -> positive_number v ->
  JS.mul p (JS.div vol v) = JS.div (JS.mul p vol) v.
Proof.
  destruct p as [p| | |], vol as [w| | |], v as [v| | |];
    simpl; try tauto; intros Hp Hw Hv;
    unfold JS.mul, JS.div, JS.fin, JS.inf_times, JS.inf_of;
    rewrite ?(pos_Qeq_bool _ Hp), ?(pos_Qeq_bool _ Hw), ?(pos_Qeq_bool _ Hv),
            ?(pos_Qltb _ Hp), ?(pos_Qltb _ Hw), ?(pos_Qle_bool _ Hv),
            ?(pos_Qeq_bool _ (pos_quotient _ _ Hw Hv)),
            ?(pos_Qltb _ (pos_quotient _ _ Hw Hv));
    try reflexivity.
  - f_equal. apply Qred_complete. rewrite !Qred_correct. field. lra.
  - f_equal. apply (Qred_complete (p * 0) 0). ring.
Qed.

(** The three strategies of the code, on a buy, are the order of
    preference of [preferred_eth_price]. *)
Lemma getEthPriceFromTransaction_spec (tx : Transaction.t) :
  is_buy tx = true ->
  getEthPriceFromTransaction tx = Returned (preferred_eth_price tx).
Proof.
  intros Hbuy. unfold getEthPriceFromTransaction, preferred_eth_price.
  rewrite !search_spec.
  destruct (native_price_in (Transaction.tokens_sent tx)); [reflexivity|].
  destruct (native_price_in (Transaction.tokens_received tx)); [reflexivity|].
  unfold is_buy in Hbuy. unfold derive_from_volume, estimate.
  destruct (Transaction.tokens_received tx) as [[|token rest]|];
    try discriminate.
  rewrite Hbuy. simpl.
  destruct (TokenTransfer.value_usd token) as [v|],
           (TokenTransfer.price_usd token) as [p|]; try reflexivity.
  rewrite (andb_comm (JS.gt p JS.zero)).
  destruct (JS.gt v JS.zero) eqn:Hv, (JS.gt p JS.zero) eqn:Hp; try reflexivity.
  simpl. f_equal. apply estimate_reassociates; now apply gt_zero_positive.
Qed.

(** C3.  For every buy the implied ETH price is, in this order: the
    explicit positive price of a native-ETH transfer in the sent list;
    else that of one in the received list; else the estimate
    [price_usd * volume_usd / value_usd] from the first received token;
    else 0.  One turn of the accumulation always adds the volume to the
    USD total, and adds an ETH equivalent and counts the transaction only
    when the price is positive; with a price of 0 the transaction is
    skipped. *)
Theorem eth_price_preference_order :
  forall (tx : Transaction.t),
    is_buy tx = true ->
    getEthPriceFromTransaction tx = Returned (preferred_eth_price tx)
    /\ forall (acc : Totals),
         exists acc' : Totals,
           accumulate acc tx = Returned acc'
           /\ totalUsdSpent acc'
              = JS.add (totalUsdSpent acc) (Transaction.volume_usd tx)
           /\ (JS.gt (preferred_eth_price tx) JS.zero = true ->
               totalEthEquivalent acc'
               = JS.add (totalEthEquivalent acc)
                        (JS.div (Transaction.volume_usd tx)
                                (preferred_eth_price tx))
               /\ pricesFound acc' = S (pricesFound acc))
           /\ (JS.gt (preferred_eth_price tx) JS.zero = false ->
               totalEthEquivalent acc' = totalEthEquivalent acc
               /\ pricesFound acc' = pricesFound acc)
           /\ (preferred_eth_price tx = JS.zero ->
               totalEthEquivalent acc' = totalEthEquivalent acc
               /\ pricesFound acc' = pricesFound acc).
Proof.
  intros tx Hbuy. split; [now apply getEthPriceFromTransaction_spec|].
  intros acc. unfold accumulate.
  rewrite (getEthPriceFromTransaction_spec tx Hbuy). simpl.
  destruct (JS.gt (preferred_eth_price tx) JS.zero) eqn:Hgt;
    eexists; (split; [reflexivity|]); simpl;
    repeat split; try congruence; try tauto.
  all: exfalso;
    match goal with
    | Hz : preferred_eth_price _ = JS.zero |- _ => rewrite Hz in Hgt
    end;
    vm_compute in Hgt; discriminate.
Qed.

(** The priced buy of the example: the sent list holds ETH at $2,000. *)
Lemma eth_price_preference_order_witness :
  getEthPriceFromTransaction Examples.buy_priced = Returned (JS.of_Z 2000).
Proof.
  exact (proj1 (eth_price_preference_order Examples.buy_priced eq_refl)).
Defined.

End EthPrice.

(** ** ETH benchmark: the price-coverage threshold *)

Section EthThreshold.

Import EthBenchmark.

(** [pricesFound < buys * 0.5] compares as naturals: [2 * pricesFound < buys]. *)
Lemma below_half (found buys : nat) :
  JS.lt (JS.of_nat found) (JS.mul (JS.of_nat buys) (JS.fin 0.5)) = true
  <-> (2 * found < buys)%nat.
Proof.
  change (JS.fin 0.5) with (JS.Fin (1 # 2)).
  unfold JS.lt, JS.mul, JS.of_nat, JS.of_Z, JS.fin.
  rewrite Qltb_true, Qred_correct.
  unfold Qlt, Qmult, inject_Z. simpl. lia.
Qed.

Lemma insufficient_prices_spec (acc : Totals) (buys : nat) :
  insufficient_prices acc buys = true
  <-> JS.eq (totalEthEquivalent acc) JS.zero = true
      \/ (2 * pricesFound acc < buys)%nat.
Proof.
  unfold insufficient_prices. rewrite orb_true_iff, below_half. tauto.
Qed.

(** The accumulation over buys never throws. *)
Lemma accumulate_buys_returns (buys : list Transaction.t) :
  Forall (fun tx => is_buy tx = true) buys ->
  forall acc, exists acc', for_each accumulate buys acc = Returned acc'.
Proof.
  induction 1 as [|tx rest Hbuy _ IH]; intros acc; simpl.
  - eauto.
  - unfold accumulate. rewrite (getEthPriceFromTransaction_spec tx Hbuy). simpl.
    destruct (JS.gt (EthPriceSpec.preferred_eth_price tx) JS.zero); apply IH.
Qed.

Lemma extractUniqueTokens_from (buys : list Transaction.t) :
  Forall (fun tx => is_buy tx = true) buys ->
  forall tokenSet,
    exists tokens,
      for_each
        (fun tokenSet tx =>
           bind (prop (Transaction.tokens_received tx))
                (fun received => Returned (fold_left add_token received tokenSet)))
        buys tokenSet = Returned tokens.
Proof.
  induction 1 as [|tx rest Hbuy _ IH]; intros tokenSet; simpl.
  - eauto.
  - unfold is_buy in Hbuy.
    destruct (Transaction.tokens_received tx) as [received|]; [|discriminate].
    simpl. apply IH.
Qed.

Lemma extractUniqueTokens_returns (buys : list Transaction.t) :
  Forall (fun tx => is_buy tx = true) buys ->
  exists tokens, extractUniqueTokens buys = Returned tokens.
Proof. intros H. now apply extractUniqueTokens_from. Qed.

Lemma filter_is_buy (transactions : list Transaction.t) :
  Forall (fun tx => is_buy tx = true) (List.filter is_buy transactions).
Proof.
  apply List.Forall_forall. intros tx Hin.
  now apply List.filter_In in Hin.
Qed.

(** What the analyzer returns once the upstream has answered with a list
    of transactions: the fallback when the price data is insufficient or
    no current ETH price is found, else the comparison. *)
Lemma benchmark_result (nansen : NansenService) (address : string)
  (transactions : list Transaction.t) :
  let buys := List.filter is_buy transactions in
  exists (acc : Totals) (tokens : list string),
    for_each accumulate buys no_totals = Returned acc
    /\ extractUniqueTokens buys = Returned tokens
    /\ benchmark nansen address transactions
       = Returned
           (if insufficient_prices acc (List.length buys) then fail
            else if JS.eq (getCurrentEthPriceFromNansen nansen address) JS.zero
            then fail
            else
              let ethEquivalentValue :=
                JS.mul (totalEthEquivalent acc)
                       (getCurrentEthPriceFromNansen nansen address) in
              let portfolioValue :=
                calculateCurrentPortfolioValue nansen address tokens in
              let performancePercent :=
                JS.mul (JS.div (JS.sub portfolioValue ethEquivalentValue)
                               ethEquivalentValue) (JS.of_Z 100) in
              succeeded "eth_benchmark"
                (mkData portfolioValue ethEquivalentValue performancePercent
                        (if JS.ge performancePercent JS.zero
                         then OUTPERFORMED else UNDERPERFORMED))).
Proof.
  intros buys. unfold benchmark. fold buys.
  pose proof (filter_is_buy transactions) as Hbuys. fold buys in Hbuys.
  destruct (accumulate_buys_returns buys Hbuys no_totals) as [acc Hacc].
  destruct (extractUniqueTokens_returns buys Hbuys) as [tokens Htok].
  exists acc, tokens. split; [assumption|]. split; [assumption|].
  destruct buys as [|b bs] eqn:E.
  - simpl in Hacc. injection Hacc as <-. reflexivity.
  - rewrite Hacc. simpl.
    destruct (insufficient_prices acc (S (List.length bs))); [reflexivity|].
    unfold compare. rewrite Htok. simpl.
    destruct (JS.eq (getCurrentEthPriceFromNansen nansen address) JS.zero);
      reflexivity.
Qed.

Lemma analyze_by_response (nansen : NansenService) (address : string) :
  analyzeEthBenchmark nansen address
  = match getAllTransactions nansen (request address) with
    | Returned (Some (Some transactions)) =>
        try_catch (benchmark nansen address transactions) fail
    | _ => fail
    end.
Proof.
  unfold analyzeEthBenchmark, body.
  destruct (getAllTransactions nansen (request address))
    as [[[[|tx rest]|]|]|e]; reflexivity.
Qed.

(** C2, as amended.  With two buys of which one yields a price ($2,000
    on a volume of $200, 0.1 ETH) the threshold is met (1 of 2 is not
    below 50%), the pipeline proceeds, and with a current ETH price of
    $2,500 the ETH-equivalent value is 0.1 * 2500 = 250.  In general, for
    every upstream, the analyzer returns its fallback exactly when fewer
    than 50% of the buys it saw yielded a usable price, or the total ETH
    equivalent is zero, or no current ETH price is found; otherwise it
    succeeds with the total ETH equivalent times the current ETH price. *)
Theorem eth_benchmark_threshold :
  (let buys := [Examples.buy_priced; Examples.buy_unpriced] in
   let nansen :=
     Examples.with_history buys [Examples.eth_balance; Examples.x_balance] in
   for_each accumulate buys no_totals
   = Returned (mkTotals (JS.of_Z 500) (JS.Fin (1 # 10)) 1)
   /\ insufficient_prices (mkTotals (JS.of_Z 500) (JS.Fin (1 # 10)) 1) 2 = false
   /\ analyzeEthBenchmark nansen Examples.WALLET
      = succeeded "eth_benchmark"
          (mkData (JS.of_Z 300) (JS.of_Z 250) (JS.of_Z 20) OUTPERFORMED))
  /\ forall (nansen : NansenService) (address : string),
       let buys := observed_buys nansen address in
       let currentEthPrice := getCurrentEthPriceFromNansen nansen address in
       exists acc : Totals,
         for_each accumulate buys no_totals = Returned acc
         /\ (insufficient_prices acc (List.length buys) = true
             <-> JS.eq (totalEthEquivalent acc) JS.zero = true
                 \/ (2 * pricesFound acc < List.length buys)%nat)
         /\ (analyzeEthBenchmark nansen address = fail
             <-> insufficient_prices acc (List.length buys) = true
                 \/ JS.eq currentEthPrice JS.zero = true)
         /\ (analyzeEthBenchmark nansen address <> fail ->
             exists d : Data,
               analyzeEthBenchmark nansen address = succeeded "eth_benchmark" d
               /\ ethEquivalentValue d
                  = JS.mul (totalEthEquivalent acc) currentEthPrice).
Proof.
  split; [repeat split; vm_compute; reflexivity|].
  intros nansen address buys currentEthPrice.
  assert (Hnone : buys = [] -> analyzeEthBenchmark nansen address = fail ->
            exists acc : Totals,
              for_each accumulate buys no_totals = Returned acc
              /\ (insufficient_prices acc (List.length buys) = true
                  <-> JS.eq (totalEthEquivalent acc) JS.zero = true
                      \/ (2 * pricesFound acc < List.length buys)%nat)
              /\ (analyzeEthBenchmark nansen address = fail
                  <-> insufficient_prices acc (List.length buys) = true
                      \/ JS.eq currentEthPrice JS.zero = true)
              /\ (analyzeEthBenchmark nansen address <> fail ->
                  exists d : Data,
                    analyzeEthBenchmark nansen address
                    = succeeded "eth_benchmark" d
                    /\ ethEquivalentValue d
                       = JS.mul (totalEthEquivalent acc) currentEthPrice)).
  { intros -> Hfail. exists no_totals. split; [reflexivity|].
    split; [apply insufficient_prices_spec|].
    split; [|congruence].
    split; [intros _; left; reflexivity | intros _; exact Hfail]. }
  unfold buys, observed_buys in *. rewrite analyze_by_response in *.
  destruct (getAllTransactions nansen (request address))
    as [[[transactions|]|]|e] eqn:Hresp;
    try (apply Hnone; reflexivity).
  clear Hnone.
  destruct (benchmark_result nansen address transactions)
    as (acc & tokens & Hacc & _ & Hres).
  fold currentEthPrice in Hres.
  exists acc. split; [assumption|].
  split; [apply insufficient_prices_spec|].
  rewrite Hres. simpl.
  destruct (insufficient_prices acc (List.length (List.filter is_buy transactions))).
  - split; [tauto | congruence].
  - destruct (JS.eq currentEthPrice JS.zero).
    + split; [tauto | congruence].
    + split.
      * split; [discriminate | intros [H|H]; discriminate].
      * intros _. eexists. split; reflexivity.
Qed.

(** The general statement at the two buys of the example. *)
Lemma eth_benchmark_threshold_witness :
  exists acc : Totals,
    for_each accumulate [Examples.buy_priced; Examples.buy_unpriced] no_totals
    = Returned acc
    /\ insufficient_prices acc 2 = false
    /\ analyzeEthBenchmark
         (Examples.with_history [Examples.buy_priced; Examples.buy_unpriced]
                                [Examples.eth_balance; Examples.x_balance])
         Examples.WALLET <> fail.
Proof.
  destruct (proj2 eth_benchmark_threshold
              (Examples.with_history
                 [Examples.buy_priced; Examples.buy_unpriced]
                 [Examples.eth_balance; Examples.x_balance])
              Examples.WALLET) as (acc & Hacc & _ & Hiff & _).
  exists acc. split; [exact Hacc|].
  vm_compute in Hacc. injection Hacc as <-.
  split; [vm_compute; reflexivity|].
  intros Hfail. apply Hiff in Hfail.
  vm_compute in Hfail. destruct Hfail; discriminate.
Defined.

(** C2, as stated, fails: with the same two buys, 50% of them priced and
    a total of 0.1 ETH, the analyzer still returns its fallback when the
    balance entries hold no native-asset entry to read the current ETH
    price from. *)
Lemma fallback_without_current_eth_price :
  let buys := [Examples.buy_priced; Examples.buy_unpriced] in
  let nansen := Examples.with_history buys [Examples.x_balance] in
  for_each accumulate buys no_totals
  = Returned (mkTotals (JS.of_Z 500) (JS.Fin (1 # 10)) 1)
  /\ JS.eq (JS.Fin (1 # 10)) JS.zero = false
  /\ JS.lt (JS.of_nat 1) (JS.mul (JS.of_nat 2) (JS.fin 0.5)) = false
  /\ analyzeEthBenchmark nansen Examples.WALLET = fail.
Proof.
  repeat split; vm_compute; reflexivity.
Qed.

End EthThreshold.

(** ** ETH benchmark: the set of purchased tokens *)

Section PurchasedTokens.

Import EthBenchmark.

Lemma lower_ascii_idempotent (c : ascii) :
  JS.lower_ascii (JS.lower_ascii c) = JS.lower_ascii c.
Proof.
  destruct c as [[] [] [] [] [] [] [] []]; reflexivity.
Qed.

Lemma toLowerCase_idempotent (s : string) :
  JS.toLowerCase (JS.toLowerCase s) = JS.toLowerCase s.
Proof.
  induction s as [|c r IH]; simpl; [reflexivity|].
  now rewrite lower_ascii_idempotent, IH.
Qed.

Lemma array_includes_In (l : list string) (x : string) :
  JS.array_includes l x = true <-> In x l.
Proof.
  unfold JS.array_includes. rewrite existsb_exists. split.
  - intros (y & Hin & Heq). apply String.eqb_eq in Heq. now subst.
  - intros Hin. exists x. split; [assumption | apply String.eqb_refl].
Qed.

Lemma set_add_invariant (tokenSet : list string) (x : string) :
  NoDup tokenSet -> Forall kept tokenSet -> kept x ->
  NoDup (set_add tokenSet x) /\ Forall kept (set_add tokenSet x).
Proof.
  intros Hnd Hall Hx. unfold set_add.
  destruct (JS.array_includes tokenSet x) eqn:E; [now split|].
  split.
  - apply NoDup_app. split; [assumption|]. split.
    + intros y Hy Hin. apply list_elem_of_In in Hy, Hin.
      destruct Hin as [<-|[]]. apply array_includes_In in Hy. congruence.
    + apply NoDup_singleton.
  - apply Forall_app. split; [assumption | now constructor].
Qed.

Lemma add_token_invariant (tokenSet : list string) (token : TokenTransfer.t) :
  NoDup tokenSet /\ Forall kept tokenSet ->
  NoDup (add_token tokenSet token) /\ Forall kept (add_token tokenSet token).
Proof.
  intros [Hnd Hall]. unfold add_token.
  destruct (TokenTransfer.token_address token) as [a|] eqn:Ha; [|now split].
  destruct (is_purchased_token token) eqn:E; [|now split].
  apply set_add_invariant; try assumption.
  unfold is_purchased_token in E. rewrite Ha in E.
  rewrite !andb_true_iff, !negb_true_iff in E. destruct E as [_ Hz].
  split; [apply toLowerCase_idempotent|].
  intros Heq. rewrite Heq, String.eqb_refl in Hz. discriminate.
Qed.

Lemma fold_add_token_invariant (received : list TokenTransfer.t) :
  forall tokenSet,
    NoDup tokenSet /\ Forall kept tokenSet ->
    NoDup (fold_left add_token received tokenSet)
    /\ Forall kept (fold_left add_token received tokenSet).
Proof.
  induction received as [|token rest IH]; intros tokenSet H; simpl.
  - assumption.
  - apply IH. now apply add_token_invariant.
Qed.

Lemma extract_invariant (transactions : list Transaction.t) :
  forall tokenSet tokens,
    for_each
      (fun tokenSet tx =>
         bind (prop (Transaction.tokens_received tx))
              (fun received => Returned (fold_left add_token received tokenSet)))
      transactions tokenSet = Returned tokens ->
    NoDup tokenSet /\ Forall kept tokenSet ->
    NoDup tokens /\ Forall kept tokens.
Proof.
  induction transactions as [|tx rest IH]; intros tokenSet tokens Hrun Hinv;
    simpl in Hrun.
  - injection Hrun as <-. assumption.
  - destruct (Transaction.tokens_received tx) as [received|]; [|discriminate].
    simpl in Hrun. apply (IH _ _ Hrun).
    now apply fold_add_token_invariant.
Qed.

(** The part of C8 that the code keeps: on buys, [extractUniqueTokens]
    returns a list without duplicates whose members are in lower case and
    differ from the zero address. *)
Lemma extractUniqueTokens_sound (buys : list Transaction.t) :
  Forall (fun tx => is_buy tx = true) buys ->
  exists tokens,
    extractUniqueTokens buys = Returned tokens
    /\ NoDup tokens
    /\ Forall kept tokens.
Proof.
  intros Hbuys. destruct (extractUniqueTokens_returns buys Hbuys) as [tokens H].
  exists tokens. split; [assumption|].
  apply (extract_invariant buys [] tokens H).
  split; constructor.
Qed.

Lemma add_token_no_sentinel (tokenSet : list string) (token : TokenTransfer.t) :
  match TokenTransfer.token_address token with
  | Some a => JS.toLowerCase a = a
  | None => True
  end ->
  ~ In ETH_ADDRESS tokenSet ->
  ~ In ETH_ADDRESS (add_token tokenSet token).
Proof.
  unfold add_token.
  destruct (TokenTransfer.token_address token) as [a|] eqn:Ha; [|tauto].
  intros Hlow Hnot.
  destruct (is_purchased_token token) eqn:E; [|assumption].
  unfold is_purchased_token in E. rewrite Ha in E.
  rewrite !andb_true_iff, !negb_true_iff in E. destruct E as [[_ Hne] _].
  apply String.eqb_neq in Hne. rewrite Hlow. unfold set_add.
  destruct (JS.array_includes tokenSet a); [assumption|].
  rewrite in_app_iff. intros [H|[H|[]]]; [tauto | congruence].
Qed.

Lemma fold_add_token_no_sentinel (received : list TokenTransfer.t) :
  Forall (fun token =>
            match TokenTransfer.token_address token with
            | Some a => JS.toLowerCase a = a
            | None => True
            end) received ->
  forall tokenSet,
    ~ In ETH_ADDRESS tokenSet ->
    ~ In ETH_ADDRESS (fold_left add_token received tokenSet).
Proof.
  induction 1 as [|token more Ht _ IH]; intros tokenSet Hnot; simpl.
  - assumption.
  - apply IH. now apply add_token_no_sentinel.
Qed.

Lemma extract_no_sentinel (transactions : list Transaction.t) :
  Forall received_in_lower_case transactions ->
  forall tokenSet tokens,
    for_each
      (fun tokenSet tx =>
         bind (prop (Transaction.tokens_received tx))
              (fun received => Returned (fold_left add_token received tokenSet)))
      transactions tokenSet = Returned tokens ->
    ~ In ETH_ADDRESS tokenSet ->
    ~ In ETH_ADDRESS tokens.
Proof.
  induction 1 as [|tx rest Hlow _ IH]; intros tokenSet tokens Hrun Hnot;
    simpl in Hrun.
  - injection Hrun as <-. assumption.
  - unfold received_in_lower_case in Hlow.
    destruct (Transaction.tokens_received tx) as [received|]; [|discriminate].
    simpl in Hrun. apply (IH _ _ Hrun).
    now apply fold_add_token_no_sentinel.
Qed.

(** The sentinel stays out when the received addresses come in lower
    case: the slip is the comparison that skips [toLowerCase]. *)
Lemma lower_case_input_excludes_sentinel (transactions : list Transaction.t) :
  Forall received_in_lower_case transactions ->
  forall tokens,
    extractUniqueTokens transactions = Returned tokens ->
    ~ In ETH_ADDRESS tokens.
Proof.
  intros Hlow tokens Hrun.
  apply (extract_no_sentinel transactions Hlow [] tokens Hrun).
  intros [].
Qed.

(** C8 at the failing input.  A buy that receives the native asset under
    the mixed-case spelling of its placeholder address passes the
    comparison with the lower-case constant, and the lower-cased
    placeholder enters the set; the balance of native ETH is then counted
    in the portfolio value. *)
Theorem extractUniqueTokens_keeps_native_sentinel :
  is_buy SentinelExample.buy_of_native = true
  /\ extractUniqueTokens [SentinelExample.buy_of_native]
     = Returned [ETH_ADDRESS]
  /\ In (JS.toLowerCase SentinelExample.CHECKSUMMED_ETH) [ETH_ADDRESS]
  /\ option_map portfolioValue
       (data (analyzeEthBenchmark
                (Examples.with_history [SentinelExample.buy_of_native]
                                       [Examples.eth_balance])
                Examples.WALLET))
     = Some (JS.of_Z 5000).
Proof.
  repeat split; try (vm_compute; reflexivity). left. reflexivity.
Qed.

End PurchasedTokens.

(** ** P&L: scaling and the negligible-result fallback *)

Section PnlThreshold.

Import Pnl.

(** On rational values the test reads [|percent| < 1/100] and [|usd| < 1]. *)
Lemma negligible_rational (percent usd : Q) :
  negligible (JS.Fin percent) (Some (JS.Fin usd)) = true
  <-> (Qabs percent < 1 # 100)%Q /\ (Qabs usd < 1)%Q.
Proof.
  unfold negligible, JS.of_null. change (JS.fin 0.01) with (JS.Fin (1 # 100)).
  unfold JS.lt, JS.abs, JS.fin, JS.of_Z.
  rewrite andb_true_iff, !Qltb_true, !Qred_correct. reflexivity.
Qed.

Lemma summarize_fail (percent : JS.number) (usd : option JS.number)
  (years : nat) :
  summarize percent usd years = fail
  <-> negligible (JS.mul percent (JS.of_Z 100)) usd = true.
Proof.
  unfold summarize.
  destruct (negligible (JS.mul percent (JS.of_Z 100)) usd).
  - split; reflexivity.
  - split; discriminate.
Qed.

(** What the analyzer returns, by the answer of the upstream. *)
Lemma analyzePnl_by_response (nansen : NansenService) (address : string)
  (years : nat) :
  analyzePnl nansen address years
  = match getPnlSummary nansen (request address years) with
    | Returned (Some r) =>
        match PnlSummary.realized_pnl_usd r with
        | Some pnlUsd =>
            summarize (PnlSummary.realized_pnl_percent r) pnlUsd years
        | None => fail
        end
    | _ => fail
    end.
Proof.
  unfold analyzePnl, body.
  destruct (getPnlSummary nansen (request address years)) as [[r|]|e];
    try reflexivity.
  cbn [bind try_catch].
  destruct (PnlSummary.realized_pnl_usd r); reflexivity.
Qed.

(** C9, as amended.  For every upstream: when it answers with a summary
    that carries [realized_pnl_usd], the analyzer scales the fraction
    [realized_pnl_percent] by 100 and returns its fallback exactly when
    the magnitude of the scaled percentage is below 0.01 and that of
    [realized_pnl_usd] is below 1 ([null] counting as 0), whether or not
    the raw values are zero; otherwise the data carry the scaled
    percentage and the amount as answered.  When the call fails, or the
    answer is no summary or one without [realized_pnl_usd], the analyzer
    returns the same fallback whatever the percentage is.  The raw
    fraction -0.0002273911194097849 is printed as -0.02%. *)
Theorem pnl_scaling_and_negligible_fallback :
  forall (nansen : NansenService) (address : string) (years : nat),
    (analyzePnl nansen address years = fail
     <-> match getPnlSummary nansen (request address years) with
         | Returned (Some r) =>
             match PnlSummary.realized_pnl_usd r with
             | Some pnlUsd =>
                 JS.lt (JS.abs (JS.mul (PnlSummary.realized_pnl_percent r)
                                       (JS.of_Z 100)))
                       (JS.fin 0.01) = true
                 /\ JS.lt (JS.abs (JS.of_null pnlUsd)) (JS.of_Z 1) = true
             | None => True
             end
         | _ => True
         end)
    /\ (forall (r : PnlSummary.t) (pnlUsd : option JS.number),
          getPnlSummary nansen (request address years) = Returned (Some r) ->
          PnlSummary.realized_pnl_usd r = Some pnlUsd ->
          let pnlPercent :=
            JS.mul (PnlSummary.realized_pnl_percent r) (JS.of_Z 100) in
          (analyzePnl nansen address years <> fail ->
           analyzePnl nansen address years
           = succeeded "pnl"
               (mkData pnlPercent pnlUsd
                       (if JS.ge pnlPercent JS.zero then GAIN else LOSS)
                       (timeframe_of years)))
          /\ (forall p u : Q,
                PnlSummary.realized_pnl_percent r = JS.Fin p ->
                pnlUsd = Some (JS.Fin u) ->
                (analyzePnl nansen address years = fail
                 <-> (Qabs (p * 100) < 1 # 100)%Q /\ (Qabs u < 1)%Q))
          /\ (forall p : Q,
                PnlSummary.realized_pnl_percent r = JS.Fin p ->
                pnlUsd = None ->
                (analyzePnl nansen address years = fail
                 <-> (Qabs (p * 100) < 1 # 100)%Q)))
    /\ Formatting.formatPercent
         (JS.mul (JS.fin (-0.0002273911194097849)) (JS.of_Z 100)) 2
       = Returned "-0.02%".
Proof.
  intros nansen address years. rewrite analyzePnl_by_response.
  split; [|split].
  - destruct (getPnlSummary nansen (request address years)) as [[r|]|e];
      try (split; [intros _; exact I | reflexivity]).
    destruct (PnlSummary.realized_pnl_usd r) as [pnlUsd|];
      [|split; [intros _; exact I | reflexivity]].
    rewrite summarize_fail. unfold negligible. apply andb_true_iff.
  - intros r pnlUsd Hresp Husd pnlPercent. rewrite Hresp, Husd.
    split; [|split].
    + intros Hne. unfold summarize in *. fold pnlPercent in Hne |- *.
      destruct (negligible pnlPercent pnlUsd); [congruence | reflexivity].
    + intros p u Hp Hu. rewrite summarize_fail, Hp, Hu.
      unfold JS.mul, JS.of_Z, JS.fin.
      rewrite negligible_rational.
      assert (Heq : (Qred (p * inject_Z 100) == p * 100)%Q)
        by (rewrite Qred_correct; reflexivity).
      rewrite Heq. reflexivity.
    + intros p Hp Hu. rewrite summarize_fail, Hp, Hu.
      unfold JS.mul, JS.of_Z, JS.fin.
      change None with (@None JS.number).
      assert (Hnull : negligible (JS.Fin (Qred (p * inject_Z 100))) None
                      = negligible (JS.Fin (Qred (p * inject_Z 100)))
                                   (Some (JS.Fin 0)))
        by reflexivity.
      rewrite Hnull, negligible_rational.
      assert (Heq : (Qred (p * inject_Z 100) == p * 100)%Q)
        by (rewrite Qred_correct; reflexivity).
      rewrite Heq. split; [tauto|]. intros H. split; [assumption|].
      reflexivity.
  - vm_compute. reflexivity.
Qed.

(** Raw values of 0.005% and $0.50: non-zero, and negligible. *)
Lemma pnl_scaling_and_negligible_fallback_witness :
  analyzePnl
    (Examples.with_pnl
       (PnlSummary.mk (Some (Some (JS.fin 0.5))) (JS.fin 0.00005)))
    Examples.WALLET 1
  = fail.
Proof.
  apply (proj1 (pnl_scaling_and_negligible_fallback
                  (Examples.with_pnl
                     (PnlSummary.mk (Some (Some (JS.fin 0.5)))
                                    (JS.fin 0.00005)))
                  Examples.WALLET 1)).
  split; vm_compute; reflexivity.
Defined.

(** C9, as stated, fails: a summary with a realized percentage of 50%
    and no [realized_pnl_usd] gets the insufficient-history fallback,
    though the scaled percentage, 50, is not below 0.01; so does any
    summary when the call itself fails. *)
Lemma pnl_fallback_without_negligible_values :
  let summary := PnlSummary.mk None (JS.Fin (1 # 2)) in
  analyzePnl (Examples.with_pnl summary) Examples.WALLET 1 = fail
  /\ JS.mul (PnlSummary.realized_pnl_percent summary) (JS.of_Z 100)
     = JS.of_Z 50
  /\ JS.lt (JS.abs (JS.of_Z 50)) (JS.fin 0.01) = false
  /\ analyzePnl (Examples.failing NetworkError) Examples.WALLET 1 = fail.
Proof.
  repeat split; vm_compute; reflexivity.
Qed.

End PnlThreshold.

(** ** Labels: the two analyzers compared *)

Section LabelsCompared.

Import Labels LabelsAgreement.

Lemma shared_cases (x : string) :
  shared x = true -> x = STAKER \/ x = OPENSEA_USER.
Proof.
  unfold shared. rewrite orb_true_iff, !String.eqb_eq. tauto.
Qed.

Lemma unmatched_not_listed (x : string) :
  unmatched x = true ->
  Poc.priority_index x = None /\ ~ In x Prd.LABEL_PRIORITY.
Proof.
  unfold unmatched. destruct (Poc.priority_index x); [discriminate|].
  rewrite negb_true_iff. intros H. split; [reflexivity|].
  intros Hin. apply array_includes_In in Hin. congruence.
Qed.

(** One turn of the short-list loop on an agreeable label. *)
Lemma consider_agreeable (x : string) (staker opensea : bool) :
  agreeable x = true ->
  Poc.consider (best_of staker opensea) x
  = best_of (staker || String.eqb STAKER x) (opensea || String.eqb OPENSEA_USER x).
Proof.
  unfold agreeable. rewrite orb_true_iff. intros [Hs|Hu].
  - destruct (shared_cases x Hs) as [-> | ->];
      destruct staker, opensea; reflexivity.
  - destruct (unmatched_not_listed x Hu) as [Hidx Hnot].
    unfold Poc.consider. rewrite Hidx.
    assert (Hs : String.eqb STAKER x = false).
    { apply String.eqb_neq. intros <-. apply Hnot. vm_compute. tauto. }
    assert (Ho : String.eqb OPENSEA_USER x = false).
    { apply String.eqb_neq. intros <-. apply Hnot. vm_compute. tauto. }
    now rewrite Hs, Ho, !orb_false_r.
Qed.

Lemma fold_consider_agreeable (names : list string) :
  forallb agreeable names = true ->
  forall staker opensea,
    fold_left Poc.consider names (best_of staker opensea)
    = best_of (staker || JS.array_includes names STAKER)
              (opensea || JS.array_includes names OPENSEA_USER).
Proof.
  induction names as [|x rest IH]; intros Hall staker opensea; simpl.
  - now rewrite !orb_false_r.
  - simpl in Hall. apply andb_true_iff in Hall. destruct Hall as [Hx Hrest].
    rewrite (consider_agreeable x _ _ Hx), (IH Hrest).
    now rewrite !orb_assoc.
Qed.

Lemma poc_select_agreeable (names : list string) :
  forallb agreeable names = true ->
  Poc.select names
  = common_answer (JS.array_includes names STAKER)
                  (JS.array_includes names OPENSEA_USER).
Proof.
  intros Hall. unfold Poc.select.
  change (None, List.length Poc.LABEL_PRIORITY) with (best_of false false).
  rewrite (fold_consider_agreeable names Hall). simpl.
  destruct (JS.array_includes names STAKER),
           (JS.array_includes names OPENSEA_USER); reflexivity.
Qed.

Lemma first_listed_ext (priority names names' : list string) :
  (forall p, In p priority ->
             JS.array_includes names p = JS.array_includes names' p) ->
  Prd.first_listed priority names = Prd.first_listed priority names'.
Proof.
  induction priority as [|p rest IH]; intros Hext; simpl; [reflexivity|].
  rewrite (Hext p (or_introl eq_refl)), IH; [reflexivity|].
  intros q Hq. apply Hext. now right.
Qed.

Lemma agreeable_includes (names : list string) (p : string) :
  forallb agreeable names = true ->
  In p Prd.LABEL_PRIORITY ->
  JS.array_includes names p
  = JS.array_includes
      (occurring (JS.array_includes names STAKER)
                 (JS.array_includes names OPENSEA_USER)) p.
Proof.
  intros Hall Hin.
  destruct (String.eqb_spec p STAKER) as [->|Hs].
  { destruct (JS.array_includes names STAKER),
             (JS.array_includes names OPENSEA_USER); reflexivity. }
  destruct (String.eqb_spec p OPENSEA_USER) as [->|Ho].
  { destruct (JS.array_includes names STAKER),
             (JS.array_includes names OPENSEA_USER); reflexivity. }
  transitivity false.
  - destruct (JS.array_includes names p) eqn:E; [|reflexivity].
    apply array_includes_In in E.
    rewrite forallb_forall in Hall. specialize (Hall p E).
    unfold agreeable in Hall. apply orb_true_iff in Hall.
    destruct Hall as [H|H].
    + destruct (shared_cases p H); congruence.
    + destruct (unmatched_not_listed p H) as [_ Hnot]. tauto.
  - symmetry. apply not_true_is_false. intros E.
    apply array_includes_In in E. unfold occurring in E.
    apply in_app_iff in E.
    destruct E as [E|E];
      [destruct (JS.array_includes names STAKER)
      |destruct (JS.array_includes names OPENSEA_USER)];
      simpl in E; intuition congruence.
Qed.

Lemma prd_select_agreeable (names : list string) :
  forallb agreeable names = true ->
  Prd.select names
  = common_answer (JS.array_includes names STAKER)
                  (JS.array_includes names OPENSEA_USER).
Proof.
  intros Hall. unfold Prd.select.
  rewrite (first_listed_ext _ names
             (occurring (JS.array_includes names STAKER)
                        (JS.array_includes names OPENSEA_USER)))
    by (intros p Hp; now apply agreeable_includes).
  destruct (JS.array_includes names STAKER),
           (JS.array_includes names OPENSEA_USER); reflexivity.
Qed.

(** C10, as amended.  The two label analyzers return the same result
    when the upstream call fails, when it answers with no array or an
    empty one (both then return the [null] fallback), and when every
    label of the answer is exactly [Staker] or [OpenSea User], the two
    entries the priority lists share, or is matched by neither list.
    The common result is [Staker] if it occurs, else [OpenSea User] if
    it occurs, else the fallback. *)
Theorem label_analyzers_agree_on_shared_labels :
  forall (nansen : NansenService) (address : string),
    agreeable_response (getLabels nansen (request address)) ->
    Poc.analyzeLabels nansen address = Prd.analyzeLabels nansen address
    /\ (forall labels,
          getLabels nansen (request address) = Returned (Some labels) ->
          Poc.analyzeLabels nansen address
          = common_answer
              (JS.array_includes (List.map Label.label labels) STAKER)
              (JS.array_includes (List.map Label.label labels) OPENSEA_USER)).
Proof.
  intros nansen address Hresp.
  unfold Poc.analyzeLabels, Prd.analyzeLabels, Poc.body, Prd.body.
  destruct (getLabels nansen (request address)) as [[[|l r]|]|e];
    unfold agreeable_response in Hresp; cbn [bind try_catch].
  - split; [reflexivity|]. intros labels [= <-]. reflexivity.
  - rewrite (poc_select_agreeable _ Hresp), (prd_select_agreeable _ Hresp).
    split; [reflexivity|]. intros labels [= <-]. reflexivity.
  - split; [reflexivity | discriminate].
  - split; [reflexivity | discriminate].
Qed.

(** Both shared labels next to one that neither list matches. *)
Lemma label_analyzers_agree_on_shared_labels_witness :
  Poc.analyzeLabels
    (Examples.with_labels [Label.mk "OpenSea User" "others";
                           Label.mk "Binance Deposit" "others";
                           Label.mk "Staker" "defi"])
    Examples.WALLET
  = Prd.analyzeLabels
      (Examples.with_labels [Label.mk "OpenSea User" "others";
                             Label.mk "Binance Deposit" "others";
                             Label.mk "Staker" "defi"])
      Examples.WALLET.
Proof.
  apply (label_analyzers_agree_on_shared_labels
           (Examples.with_labels [Label.mk "OpenSea User" "others";
                                  Label.mk "Binance Deposit" "others";
                                  Label.mk "Staker" "defi"])
           Examples.WALLET).
  vm_compute. reflexivity.
Defined.

(** C10, as stated, fails: on the single label [Whale] the short-list
    analyzer succeeds with [Whale] and the long-list analyzer returns the
    fallback; on [Memecoin Whale] both succeed, with different labels. *)
Lemma label_analyzers_differ :
  Poc.analyzeLabels (Examples.with_labels [Label.mk "Whale" "others"])
                    Examples.WALLET
  = succeeded "labels" (mkData "Whale")
  /\ Prd.analyzeLabels (Examples.with_labels [Label.mk "Whale" "others"])
                       Examples.WALLET
     = fail
  /\ Poc.analyzeLabels (Examples.with_labels [Label.mk "Whale" "others"])
                       Examples.WALLET
     <> Prd.analyzeLabels (Examples.with_labels [Label.mk "Whale" "others"])
                          Examples.WALLET
  /\ Poc.analyzeLabels (Examples.with_labels [Label.mk "Memecoin Whale" "others"])
                       Examples.WALLET
     = succeeded "labels" (mkData "Whale")
  /\ Prd.analyzeLabels (Examples.with_labels [Label.mk "Memecoin Whale" "others"])
                       Examples.WALLET
     = succeeded "labels" (mkData "Memecoin Whale").
Proof.
  repeat split; try (vm_compute; reflexivity).
  vm_compute. discriminate.
Qed.

End LabelsCompared.

(** ** The shape of the results *)

Section TaggedResults.

Lemma try_catch_well_tagged {T : Type} (body : outcome (AnalysisResult T))
  (handler : AnalysisResult T) :
  returns_well_tagged body -> well_tagged handler = true ->
  well_tagged (try_catch body handler) = true.
Proof. destruct body; simpl; auto. Qed.

Lemma pnl_well_tagged nansen address years :
  well_tagged (Pnl.analyzePnl nansen address years) = true.
Proof.
  apply try_catch_well_tagged; [|reflexivity].
  unfold Pnl.body, Pnl.summarize, bind. branches.
Qed.

Lemma labels_poc_well_tagged nansen address :
  well_tagged (Labels.Poc.analyzeLabels nansen address) = true.
Proof.
  apply try_catch_well_tagged; [|reflexivity].
  unfold Labels.Poc.body, bind.
  destruct (getLabels nansen (Labels.request address)) as [[[|l r]|]|e];
    try reflexivity; try exact I.
  unfold returns_well_tagged, Labels.Poc.select. branches.
Qed.

Lemma labels_prd_well_tagged nansen address :
  well_tagged (Labels.Prd.analyzeLabels nansen address) = true.
Proof.
  apply try_catch_well_tagged; [|reflexivity].
  unfold Labels.Prd.body, bind.
  destruct (getLabels nansen (Labels.request address)) as [[[|l r]|]|e];
    try reflexivity; try exact I.
  unfold returns_well_tagged, Labels.Prd.select. branches.
Qed.

Lemma smart_money_poc_well_tagged nansen address :
  well_tagged (SmartMoney.Poc.analyzeSmartMoney nansen address) = true.
Proof.
  apply try_catch_well_tagged; [|reflexivity].
  unfold SmartMoney.Poc.body, bind.
  destruct (getLabels nansen (Labels.request address)) as [[[|l r]|]|e];
    try reflexivity; try exact I.
  unfold returns_well_tagged, SmartMoney.Poc.select. branches.
Qed.

Lemma smart_money_prd_well_tagged nansen address :
  well_tagged (SmartMoney.Prd.analyzeSmartMoney nansen address) = true.
Proof.
  apply try_catch_well_tagged; [|reflexivity].
  unfold SmartMoney.Prd.body, bind.
  destruct (getLabels nansen (Labels.request address)) as [[[|l r]|]|e];
    try reflexivity; try exact I.
  unfold returns_well_tagged, SmartMoney.Prd.select. branches.
Qed.

Lemma eth_benchmark_well_tagged nansen address :
  well_tagged (EthBenchmark.analyzeEthBenchmark nansen address) = true.
Proof.
  rewrite analyze_by_response.
  destruct (getAllTransactions nansen (EthBenchmark.request address))
    as [[[transactions|]|]|e]; try reflexivity.
  destruct (benchmark_result nansen address transactions)
    as (acc & tokens & _ & _ & Hres).
  rewrite Hres. simpl. branches.
Qed.

Lemma evaluate_well_tagged tokenHoldings athPrices :
  returns_well_tagged (PortfolioATH.evaluate tokenHoldings athPrices).
Proof.
  unfold PortfolioATH.evaluate, bind.
  destruct (for_each _ _ _) as [[athValue n]|e]; [|exact I].
  simpl. destruct n; reflexivity.
Qed.

Lemma portfolio_plain_well_tagged nansen coinGecko address :
  well_tagged (PortfolioATH.Plain.analyzePortfolioATH nansen coinGecko address)
  = true.
Proof.
  apply try_catch_well_tagged; [|reflexivity].
  unfold PortfolioATH.Plain.body, bind, prop.
  destruct (getCurrentBalance nansen _) as [[[[|h r]|]|]|e];
    try reflexivity; try exact I.
  destruct (List.filter _ _); [reflexivity|].
  destruct (batchGetATHPrices _ _ _); [|exact I].
  apply evaluate_well_tagged.
Qed.

Lemma portfolio_cached_body_well_tagged nansen coinGecko now address c :
  returns_well_tagged
    (fst (PortfolioATH.Cached.body nansen coinGecko now address c)).
Proof.
  unfold PortfolioATH.Cached.body, PortfolioATH.Cached.bindM,
    PortfolioATH.Cached.lift, PortfolioATH.Cached.ret, prop.
  destruct (getCurrentBalance nansen _) as [[[[|h r]|]|]|e];
    try reflexivity; try exact I.
  destruct (List.filter _ _) as [|th ths]; [reflexivity|].
  destruct (PortfolioATH.Cached.for_eachM _ _ _ c) as [[st|e] c1]; [|exact I].
  destruct (PortfolioATH.Cached.tokensToFetch st) as [|t ts].
  - apply evaluate_well_tagged.
  - destruct (batchGetATHPrices _ _ _) as [fetched|e]; [|exact I].
    destruct (PortfolioATH.Cached.for_eachM _ _ _ c1) as [[prices|e] c2];
      [|exact I].
    apply evaluate_well_tagged.
Qed.

Lemma portfolio_cached_well_tagged nansen coinGecko now address c :
  well_tagged
    (fst (PortfolioATH.Cached.analyzePortfolioATH nansen coinGecko now address c))
  = true.
Proof.
  unfold PortfolioATH.Cached.analyzePortfolioATH.
  pose proof (portfolio_cached_body_well_tagged nansen coinGecko now address c)
    as H.
  destruct (PortfolioATH.Cached.body nansen coinGecko now address c) as [o c'].
  simpl in *. now apply try_catch_well_tagged.
Qed.

(** The rugged-projects analyzer returns either the clear-skies literal
    or a success with data and no fallback property. *)
Lemma rugged_shape nansen address :
  RuggedProjects.analyzeRuggedProjects nansen address
  = RuggedProjects.clear_skies
  \/ exists d, RuggedProjects.analyzeRuggedProjects nansen address
               = succeeded "rugged_projects" d.
Proof.
  unfold RuggedProjects.analyzeRuggedProjects, RuggedProjects.body, bind, prop.
  destruct (getCurrentBalance nansen _) as [[[[|h r]|]|]|e]; auto.
  destruct (List.map _ _) as [|a addrs]; auto.
  destruct (screenTokens nansen _) as [[[[[|t ts]|]|]|]|e]; simpl; auto.
  right. eexists. reflexivity.
Qed.

(** What the rugged-projects analyzer returns, by the tokens flagged. *)
Lemma rugged_by_flagged nansen address :
  RuggedProjects.analyzeRuggedProjects nansen address
  = match flagged_tokens nansen address with
    | [] => RuggedProjects.clear_skies
    | items =>
        succeeded "rugged_projects"
          (RuggedProjects.mkData (List.length items)
                                 (List.map RuggedProjects.details items))
    end.
Proof.
  unfold RuggedProjects.analyzeRuggedProjects, RuggedProjects.body,
    flagged_tokens, bind, prop.
  destruct (getCurrentBalance nansen _) as [[[[|h r]|]|]|e]; try reflexivity.
  destruct (List.map _ _) as [|a addrs]; [reflexivity|].
  destruct (screenTokens nansen _) as [[[[[|t ts]|]|]|]|e]; reflexivity.
Qed.

(** C6, as amended.  Every result of the P&L, labels, smart-money,
    ETH-benchmark and portfolio-ATH analyzers, in each of their
    implementations and for every upstream, is well tagged: a success
    carries data and no fallback, a failure the fallback and no data.
    The rugged-projects analyzer always returns a success with data.
    When no token is flagged, which includes every failure of one of its
    two upstream calls, its result is the empty data together with the
    clear-skies fallback message; when tokens are flagged, it is their
    number and details, without any fallback property. *)
Theorem results_are_tagged :
  forall (nansen : NansenService) (coinGecko : CoinGeckoService)
         (address : string) (years : nat) (now : Z) (c : AthCache.t),
    well_tagged (Pnl.analyzePnl nansen address years) = true
    /\ well_tagged (Labels.Poc.analyzeLabels nansen address) = true
    /\ well_tagged (Labels.Prd.analyzeLabels nansen address) = true
    /\ well_tagged (SmartMoney.Poc.analyzeSmartMoney nansen address) = true
    /\ well_tagged (SmartMoney.Prd.analyzeSmartMoney nansen address) = true
    /\ well_tagged (EthBenchmark.analyzeEthBenchmark nansen address) = true
    /\ well_tagged
         (PortfolioATH.Plain.analyzePortfolioATH nansen coinGecko address) = true
    /\ well_tagged
         (fst (PortfolioATH.Cached.analyzePortfolioATH
                 nansen coinGecko now address c)) = true
    /\ RuggedProjects.analyzeRuggedProjects nansen address
       = match flagged_tokens nansen address with
         | [] =>
             mkResult "rugged_projects" true
                      (Some (RuggedProjects.mkData 0 []))
                      (Some (Some RuggedProjects.FALLBACK))
         | items =>
             mkResult "rugged_projects" true
                      (Some (RuggedProjects.mkData
                               (List.length items)
                               (List.map RuggedProjects.details items)))
                      None
         end
    /\ (forall e : failure,
          getCurrentBalance nansen (RuggedProjects.request address) = Thrown e ->
          flagged_tokens nansen address = [])
    /\ ((forall req : ScreenerRequest,
           exists e : failure, screenTokens nansen req = Thrown e) ->
        flagged_tokens nansen address = [])
    /\ (forall (holdings : list Balance.t) (e : failure),
          getCurrentBalance nansen (RuggedProjects.request address)
          = Returned (Some (Some holdings)) ->
          screenTokens nansen
            (mkScreenerRequest RuggedProjects.CHAINS 1
               (List.map Balance.token_address
                         (List.filter RuggedProjects.is_screenable holdings))
               JS.zero RuggedProjects.LIQUIDITY_THRESHOLD 100)
          = Thrown e ->
          flagged_tokens nansen address = []).
Proof.
  intros nansen coinGecko address years now c.
  split; [apply pnl_well_tagged|].
  split; [apply labels_poc_well_tagged|].
  split; [apply labels_prd_well_tagged|].
  split; [apply smart_money_poc_well_tagged|].
  split; [apply smart_money_prd_well_tagged|].
  split; [apply eth_benchmark_well_tagged|].
  split; [apply portfolio_plain_well_tagged|].
  split; [apply portfolio_cached_well_tagged|].
  split; [|split; [|split]].
  - rewrite rugged_by_flagged.
    destruct (flagged_tokens nansen address); reflexivity.
  - intros e H. unfold flagged_tokens. now rewrite H.
  - intros Hfail. unfold flagged_tokens.
    destruct (getCurrentBalance nansen _) as [[[holdings|]|]|e];
      try reflexivity.
    destruct (List.map _ _) as [|a addrs]; [reflexivity|].
    match goal with
    | |- context [screenTokens nansen ?req] => destruct (Hfail req) as [e ->]
    end.
    reflexivity.
  - intros holdings e Hbalance Hscreen. unfold flagged_tokens.
    rewrite Hbalance.
    destruct (List.map Balance.token_address
                       (List.filter RuggedProjects.is_screenable holdings))
      as [|a addrs]; [reflexivity|].
    now rewrite Hscreen.
Qed.

(** C6, as stated, fails: for a wallet without holdings the
    rugged-projects analyzer returns one object with [success: true],
    [data] and the fallback message at once. *)
Lemma rugged_result_carries_data_and_fallback :
  RuggedProjects.analyzeRuggedProjects (Examples.with_balances []) Examples.WALLET
  = mkResult "rugged_projects" true
             (Some (RuggedProjects.mkData 0 []))
             (Some (Some "No rugged projects detected—clear skies ahead"))
  /\ well_tagged
       (RuggedProjects.analyzeRuggedProjects (Examples.with_balances [])
                                             Examples.WALLET)
     = false.
Proof.
  split; vm_compute; reflexivity.
Qed.

End TaggedResults.

(** ** Failures of the upstream *)

Section UpstreamFailures.

Lemma try_catch_contained {T : Type} (body : outcome (AnalysisResult T))
  (handler : AnalysisResult T) :
  contained body handler (try_catch body handler).
Proof. destruct body; reflexivity. Qed.

(** The helper that reads the current ETH price turns a failed balance
    call into a price of 0 ... *)
Lemma current_eth_price_on_failure nansen address e :
  getCurrentBalance nansen (EthBenchmark.price_request address) = Thrown e ->
  EthBenchmark.getCurrentEthPriceFromNansen nansen address = JS.zero.
Proof.
  intros H. unfold EthBenchmark.getCurrentEthPriceFromNansen. now rewrite H.
Qed.

(** ... and so does the helper that values the current portfolio. *)
Lemma portfolio_value_on_failure nansen address tokens e :
  getCurrentBalance nansen (EthBenchmark.holdings_request address) = Thrown e ->
  EthBenchmark.calculateCurrentPortfolioValue nansen address tokens = JS.zero.
Proof.
  intros H. unfold EthBenchmark.calculateCurrentPortfolioValue. now rewrite H.
Qed.

Lemma eth_benchmark_without_eth_price nansen address :
  EthBenchmark.getCurrentEthPriceFromNansen nansen address = JS.zero ->
  EthBenchmark.analyzeEthBenchmark nansen address = EthBenchmark.fail.
Proof.
  intros Hprice. rewrite analyze_by_response.
  destruct (getAllTransactions nansen (EthBenchmark.request address))
    as [[[transactions|]|]|e]; try reflexivity.
  destruct (benchmark_result nansen address transactions)
    as (acc & tokens & _ & _ & Hres).
  rewrite Hres, Hprice. simpl.
  destruct (EthBenchmark.insufficient_prices _ _); reflexivity.
Qed.

Lemma rugged_on_screener_failure nansen address :
  (forall req, exists e, screenTokens nansen req = Thrown e) ->
  RuggedProjects.analyzeRuggedProjects nansen address
  = RuggedProjects.clear_skies.
Proof.
  intros Hfail.
  unfold RuggedProjects.analyzeRuggedProjects, RuggedProjects.body, bind, prop.
  destruct (getCurrentBalance nansen _) as [[[[|h r]|]|]|e]; try reflexivity.
  destruct (List.map _ _) as [|a addrs]; [reflexivity|].
  match goal with
  | |- context [screenTokens nansen ?req] => destruct (Hfail req) as [e ->]
  end.
  reflexivity.
Qed.

Lemma portfolio_plain_on_price_failure nansen coinGecko address :
  (forall tokens days, exists e, batchGetATHPrices coinGecko tokens days = Thrown e) ->
  PortfolioATH.Plain.analyzePortfolioATH nansen coinGecko address
  = PortfolioATH.fail.
Proof.
  intros Hfail.
  unfold PortfolioATH.Plain.analyzePortfolioATH, PortfolioATH.Plain.body,
    bind, prop.
  destruct (getCurrentBalance nansen _) as [[[[|h r]|]|]|e]; try reflexivity.
  destruct (List.filter _ _) as [|th ths]; [reflexivity|].
  match goal with
  | |- context [batchGetATHPrices coinGecko ?t ?d] =>
      destruct (Hfail t d) as [e ->]
  end.
  reflexivity.
Qed.

Lemma portfolio_cached_on_balance_failure nansen coinGecko now address c e :
  getCurrentBalance nansen (PortfolioATH.request address) = Thrown e ->
  PortfolioATH.Cached.analyzePortfolioATH nansen coinGecko now address c
  = (PortfolioATH.fail, c).
Proof.
  intros H.
  unfold PortfolioATH.Cached.analyzePortfolioATH, PortfolioATH.Cached.body,
    PortfolioATH.Cached.bindM, PortfolioATH.Cached.lift.
  now rewrite H.
Qed.

(** C7 at the failing input.  The upstream answers the transactions
    call and the balance call on the [ethereum] chain, and its all-chains
    balance call, by which the ETH benchmark values the current
    portfolio, fails with a network error.  The analyzer does not return
    its fallback: it reports a success with a portfolio value of 0 and a
    performance of -100%.  The sibling helper that reads the current ETH
    price answers a failed call with 0 as well, and there the analyzer
    tests for 0 and returns its fallback: so it does on the same history
    when it is the [ethereum] balance call that fails. *)
Theorem balance_failure_reported_as_success :
  let nansen :=
    Examples.flaky_balances [Examples.buy_priced; Examples.buy_unpriced]
                            [Examples.eth_balance; Examples.x_balance] in
  let sibling :=
    mkNansen (fun _ => Thrown NetworkError) (fun _ => Thrown NetworkError)
             (fun req =>
                if String.eqb (br_chain req) "ethereum"
                then Thrown NetworkError
                else Returned (Some (Some [Examples.eth_balance;
                                           Examples.x_balance])))
             (fun _ => Returned (Some (Some [Examples.buy_priced;
                                             Examples.buy_unpriced])))
             (fun _ => Thrown NetworkError) in
  getCurrentBalance nansen (EthBenchmark.holdings_request Examples.WALLET)
  = Thrown NetworkError
  /\ EthBenchmark.calculateCurrentPortfolioValue nansen Examples.WALLET
       [Examples.TOKEN_X; Examples.TOKEN_Y] = JS.zero
  /\ EthBenchmark.analyzeEthBenchmark nansen Examples.WALLET
     = succeeded "eth_benchmark"
         (EthBenchmark.mkData JS.zero (JS.of_Z 250) (JS.of_Z (-100))
                              EthBenchmark.UNDERPERFORMED)
  /\ EthBenchmark.analyzeEthBenchmark nansen Examples.WALLET
     <> EthBenchmark.fail
  /\ getCurrentBalance sibling (EthBenchmark.price_request Examples.WALLET)
     = Thrown NetworkError
  /\ EthBenchmark.getCurrentEthPriceFromNansen sibling Examples.WALLET
     = JS.zero
  /\ EthBenchmark.analyzeEthBenchmark sibling Examples.WALLET
     = EthBenchmark.fail.
Proof.
  repeat split; try (vm_compute; reflexivity).
  vm_compute. discriminate.
Qed.

End UpstreamFailures.

(** ** Address validation *)

Section AddressValidation.

Import Validation.

Lemma length_append (s t : string) :
  String.length (s ++ t) = (String.length s + String.length t)%nat.
Proof. induction s as [|c r IH]; simpl; [reflexivity | now rewrite IH]. Qed.


Lemma length_substring_le (n m : nat) (s : string) :
  (String.length (substring n m s) <= m)%nat.
Proof.
  revert n m. induction s as [|c r IH]; intros n m.
  - destruct n, m; simpl; lia.
  - destruct n as [|n]; simpl.
    + destruct m as [|m]; simpl; [lia|]. specialize (IH 0%nat m). lia.
    + apply IH.
Qed.

Lemma length_toLowerCase (s : string) :
  String.length (JS.toLowerCase s) = String.length s.
Proof. induction s as [|c r IH]; simpl; [reflexivity | now rewrite IH]. Qed.

Lemma is_hex_lower (c : ascii) :
  is_hex c = true -> is_hex (JS.lower_ascii c) = true.
Proof. destruct c as [[] [] [] [] [] [] [] []]; simpl; intros H; try reflexivity; discriminate. Qed.

Lemma is_hex_not_ws (c : ascii) : is_hex c = true -> JS.is_ws c = false.
Proof. destruct c as [[] [] [] [] [] [] [] []]; simpl; intros H; try reflexivity; discriminate. Qed.

Lemma all_hex_lower (s : string) :
  all_hex s = true -> all_hex (JS.toLowerCase s) = true.
Proof.
  induction s as [|c r IH]; simpl; [reflexivity|].
  rewrite !andb_true_iff. intros [Hc Hr]. split; [now apply is_hex_lower | auto].
Qed.

Lemma all_hex_lower_fixed (s : string) :
  all_hex s = true -> JS.toLowerCase (JS.toLowerCase s) = JS.toLowerCase s.
Proof. intros _. apply toLowerCase_idempotent. Qed.

Lemma trim_end_cons (c : ascii) (r : string) :
  JS.is_ws c = false -> trim_end r = r -> trim_end (String c r) = String c r.
Proof.
  intros Hc Hr. cbn [trim_end]. rewrite Hr.
  destruct r; [now rewrite Hc | reflexivity].
Qed.

Lemma trim_end_hex (s : string) : all_hex s = true -> trim_end s = s.
Proof.
  induction s as [|c r IH]; [reflexivity|]. cbn [all_hex].
  rewrite andb_true_iff. intros [Hc Hr].
  apply trim_end_cons; [now apply is_hex_not_ws | auto].
Qed.

Lemma valid_shape (a : string) :
  isValidEthereumAddress a = true ->
  exists digits, a = String "0" (String "x" digits)
                 /\ String.length digits = 40%nat /\ all_hex digits = true.
Proof.
  unfold isValidEthereumAddress.
  destruct a as [|c0 [|c1 digits]]; try discriminate;
    try (destruct c0 as [[] [] [] [] [] [] [] []]; discriminate).
  destruct c0 as [[] [] [] [] [] [] [] []]; try discriminate.
  destruct c1 as [[] [] [] [] [] [] [] []]; try discriminate.
  rewrite andb_true_iff, Nat.eqb_eq. intros [Hl Hh]. now exists digits.
Qed.

Lemma trim_valid (a : string) : isValidEthereumAddress a = true -> trim a = a.
Proof.
  intros H. destruct (valid_shape a H) as (digits & -> & Hl & Hh).
  unfold trim. cbn [JS.trim_start]. change (JS.is_ws "0") with false.
  cbn iota. repeat apply trim_end_cons; try reflexivity.
  now apply trim_end_hex.
Qed.

Lemma lower_valid (a : string) :
  isValidEthereumAddress a = true ->
  isValidEthereumAddress (JS.toLowerCase a) = true.
Proof.
  intros H. destruct (valid_shape a H) as (digits & -> & Hl & Hh).
  cbn [JS.toLowerCase]. change (JS.lower_ascii "0") with "0"%char.
  change (JS.lower_ascii "x") with "x"%char.
  unfold isValidEthereumAddress.
  now rewrite length_toLowerCase, Hl, (all_hex_lower digits Hh).
Qed.

Lemma length_substring_min (n m : nat) (s : string) :
  String.length (substring n m s) = Nat.min m (String.length s - n).
Proof.
  revert n m. induction s as [|c r IH]; intros n m.
  - destruct n, m; reflexivity.
  - destruct n as [|n]; simpl.
    + destruct m as [|m]; [reflexivity|]. simpl. rewrite IH.
      now rewrite Nat.sub_0_r.
    + apply IH.
Qed.

Lemma length_substring_from (n : nat) (s : string) :
  String.length (substring_from n s) = (String.length s - n)%nat.
Proof. unfold substring_from. rewrite length_substring_min. lia. Qed.

Lemma truncateAddress_shape_short (address : string) (startChars endChars : nat) :
  (String.length address < startChars + endChars)%nat ->
  truncateAddress address startChars endChars = address.
Proof.
  intros Hshort. unfold truncateAddress.
  destruct (Nat.ltb_spec (String.length address) (startChars + endChars));
    [|lia].
  now rewrite orb_true_r.
Qed.

(** X1.  [validateAndNormalizeAddress] accepts a string exactly when,
    white space at both ends removed, it is [0x] followed by 40
    hexadecimal digits, and rejects every other string with one fixed
    message.  What it returns is the trimmed string in lower case: 42
    characters long, itself a valid address, unchanged by lower-casing,
    and returned as it is when validated again. *)
Theorem validation_normalizes :
  forall (s : string),
    match validateAndNormalizeAddress s with
    | Normalized a =>
        isValidEthereumAddress (trim s) = true
        /\ a = JS.toLowerCase (trim s)
        /\ isValidEthereumAddress a = true
        /\ JS.toLowerCase a = a
        /\ String.length a = 42%nat
        /\ validateAndNormalizeAddress a = Normalized a
    | Rejected message =>
        isValidEthereumAddress (trim s) = false
        /\ message = INVALID_FORMAT
    end.
Proof.
  intros s. unfold validateAndNormalizeAddress.
  destruct (isValidEthereumAddress (trim s)) eqn:Hv; simpl; [|now split].
  pose proof (lower_valid _ Hv) as Hlow.
  split; [reflexivity|]. split; [reflexivity|]. split; [assumption|].
  split; [apply toLowerCase_idempotent|].
  split.
  - destruct (valid_shape _ Hlow) as (digits & -> & Hl & _). simpl. now rewrite Hl.
  - rewrite (trim_valid _ Hlow), Hlow. simpl.
    now rewrite toLowerCase_idempotent.
Qed.

(** X2.  [truncateAddress] returns an empty address, or one shorter than
    the two counts together, as it is; any other address becomes its
    first [startChars] characters, three dots and its last [endChars]
    characters, [startChars + 3 + endChars] characters in all.  A
    validated address is shortened to 13 characters by the default
    counts. *)
Theorem truncateAddress_shape :
  forall (address : string) (startChars endChars : nat),
    ((String.length address < startChars + endChars)%nat ->
     truncateAddress address startChars endChars = address)
    /\ (address <> "" ->
        (startChars + endChars <= String.length address)%nat ->
        truncateAddress address startChars endChars
        = substring 0 startChars address ++ "..."
          ++ substring_from (String.length address - endChars) address
        /\ String.length (truncateAddress address startChars endChars)
           = (startChars + 3 + endChars)%nat)
    /\ (isValidEthereumAddress address = true ->
        String.length (truncateAddress address 6 4) = 13%nat).
Proof.
  intros address startChars endChars.
  assert (Hlong : address <> "" ->
            (startChars + endChars <= String.length address)%nat ->
            truncateAddress address startChars endChars
            = substring 0 startChars address ++ "..."
              ++ substring_from (String.length address - endChars) address).
  { intros Hne Hlen. unfold truncateAddress.
    apply String.eqb_neq in Hne. rewrite Hne.
    destruct (Nat.ltb_spec (String.length address) (startChars + endChars));
      [lia | reflexivity]. }
  split; [|split].
  - intros Hshort. unfold truncateAddress.
    destruct (Nat.ltb_spec (String.length address) (startChars + endChars));
      [|lia].
    now rewrite orb_true_r.
  - intros Hne Hlen. split; [now apply Hlong|].
    rewrite (Hlong Hne Hlen), !length_append, length_substring_min,
      length_substring_from.
    simpl. lia.
  - intros Hv. destruct (valid_shape _ Hv) as (digits & -> & Hl & _).
    unfold truncateAddress.
    replace (String.length (String "0" (String "x" digits))) with 42%nat
      by (simpl; now rewrite Hl).
    cbn [String.eqb Ascii.eqb orb Nat.ltb Nat.leb Nat.add].
    rewrite !length_append, length_substring_min, length_substring_from.
    simpl String.length. rewrite Hl. reflexivity.
Qed.

(** A 42-character address, and a short string cut at 2 + 2. *)
Lemma truncateAddress_shape_witness :
  truncateAddress Examples.WALLET 6 4 = "0xf977...acec"
  /\ truncateAddress "0xab" 6 4 = "0xab".
Proof.
  destruct (truncateAddress_shape Examples.WALLET 6 4) as (_ & Hlong & _).
  destruct (truncateAddress_shape "0xab" 6 4) as (Hshort & _).
  split.
  - rewrite (proj1 (Hlong ltac:(discriminate) ltac:(vm_compute; lia))).
    reflexivity.
  - apply Hshort. vm_compute. lia.
Defined.

(** X3.  The truncation that the test runner writes out by hand,
    [slice(0, 6) + '...' + slice(-4)], is the default [truncateAddress]
    exactly on the addresses of 10 characters or more; on a shorter one
    the runner repeats characters where [truncateAddress] returns the
    address itself. *)
Theorem runner_truncation_agrees_from_ten :
  forall (address : string),
    truncateAddress address 6 4 = runner_truncated address
    <-> (10 <= String.length address)%nat.
Proof.
  intros address. split.
  - intros Heq.
    destruct (Nat.le_gt_cases 10 (String.length address)) as [H|H];
      [assumption|].
    exfalso.
    assert (Hs : truncateAddress address 6 4 = address).
    { apply truncateAddress_shape_short. simpl. lia. }
    rewrite Hs in Heq. apply (f_equal String.length) in Heq.
    unfold runner_truncated in Heq.
    rewrite !length_append, length_substring_min, length_substring_from in Heq.
    change (String.length "...") with 3%nat in Heq. lia.
  - intros Hlen. unfold truncateAddress, runner_truncated.
    destruct address as [|c r]; [simpl in Hlen; lia|].
    destruct (Nat.ltb_spec (String.length (String c r)) (6 + 4)); [lia|].
    reflexivity.
Qed.

End AddressValidation.

(** ** Printing a percentage *)

Section PercentFormat.

Import JS.









End PercentFormat.

(** ** The price service and its provider chain *)

Section ProviderChain.

Import PriceProviders.

Lemma first_usable_spec {A : Type} (call : PriceProvider -> outcome A)
  (usable : A -> bool) (none : A) (providers : list PriceProvider) :
  first_accepted call usable none providers
                 (first_usable call usable none providers).
Proof.
  induction providers as [|p rest IH]; simpl.
  - right. split; [reflexivity | constructor].
  - assert (Hskip : passed_over call usable p ->
              first_accepted call usable none (p :: rest)
                             (first_usable call usable none rest)).
    { intros Hp. destruct IH as [(front & q & back & -> & Hfront & Hq & Hu)|[-> Hall]].
      - left. exists (p :: front), q, back. repeat split; auto.
      - right. split; [reflexivity | now constructor]. }
    destruct (call p) as [a|e] eqn:Hcall.
    + destruct (usable a) eqn:Hu.
      * left. exists [], p, rest. repeat split; auto.
      * apply Hskip. unfold passed_over. now rewrite Hcall.
    + apply Hskip. unfold passed_over. now rewrite Hcall.
Qed.

(** X5.  Each lookup of the price service walks the provider chain in
    order and returns the answer of the first provider that answers
    with a positive price; a provider that throws or answers with a
    price that is not positive is passed over; when every provider is
    passed over the lookup returns 0 (for the ATH lookup the record
    with price 0 and no date).  The lookup itself never throws. *)
Theorem price_service_takes_first_positive :
  forall (providers : list PriceProvider) (coinId chain address : string)
         (date : Z) (days : nat),
    first_accepted (fun p => getHistoricalPrice p coinId date)
                   positive_price JS.zero providers
                   (service_getHistoricalPrice providers coinId date)
    /\ first_accepted (fun p => getCurrentPrice p coinId)
                      positive_price JS.zero providers
                      (service_getCurrentPrice providers coinId)
    /\ first_accepted (fun p => getATHPrice p chain address days)
                      (fun r => positive_price (AthData.athPrice r))
                      NO_ATH providers
                      (service_getATHPrice providers chain address days).
Proof.
  intros. repeat split; apply first_usable_spec.
Qed.

(** X6.  In the default chain the Nansen provider never contributes.
    An ATH lookup is the CoinGecko answer when its price is positive and
    the empty record otherwise, whether or not CoinMarketCap is
    configured; without CoinMarketCap the same holds of the historical
    price; and the batch lookup always goes through the CoinGecko batch
    call, an empty map standing for its failure. *)
Theorem default_chain_is_coinGecko :
  forall (clients : Clients) (coinId chain address : string) (date : Z)
         (days : nat) (tokens : list (string * string)),
    service_getATHPrice (default_providers clients) chain address days
    = (let r := try_catch (coinGecko_getATHPrice clients chain address days)
                          NO_ATH in
       if JS.gt (AthData.athPrice r) JS.zero then r else NO_ATH)
    /\ (coinMarketCap_isEnabled clients = false ->
        service_getHistoricalPrice (default_providers clients) coinId date
        = (let p := try_catch (coinGecko_getHistoricalPrice clients coinId date)
                              JS.zero in
           if JS.gt p JS.zero then p else JS.zero))
    /\ service_batchGetATHPrices clients (default_providers clients) tokens days
       = match coinGecko_batchGetATHPrices clients tokens days with
         | Returned fetched => PortfolioATH.map_of_entries fetched
         | Thrown _ => ∅
         end.
Proof.
  intros clients coinId chain address date days tokens.
  split; [|split].
  - unfold service_getATHPrice, default_providers, positive_price.
    destruct (coinMarketCap_isEnabled clients); simpl;
      destruct (JS.gt _ JS.zero); reflexivity.
  - intros Hoff. unfold service_getHistoricalPrice, default_providers,
      positive_price.
    rewrite Hoff. simpl. destruct (JS.gt _ JS.zero); reflexivity.
  - unfold service_batchGetATHPrices, default_providers.
    destruct (coinMarketCap_isEnabled clients); simpl;
      destruct (coinGecko_batchGetATHPrices clients tokens days); reflexivity.
Qed.

(** CoinGecko answers $2,000 and CoinMarketCap is not configured. *)
Lemma default_chain_is_coinGecko_witness :
  service_getHistoricalPrice (default_providers PriceExamples.clients)
                             "ethereum" 0
  = JS.of_Z 2000.
Proof.
  rewrite (proj1 (proj2 (default_chain_is_coinGecko
                           PriceExamples.clients "ethereum" "" "" 0 365 []))
             eq_refl).
  reflexivity.
Defined.

Lemma batch_fold_keeps (providers : list PriceProvider) (days : nat)
  (tokens : list (string * string)) :
  forall (m : gmap string AthData.t) (key : string) (r : AthData.t),
    m !! key = Some r ->
    fold_left
      (fun results token =>
         <[JS.toLowerCase (snd token) :=
             service_getATHPrice providers (fst token) (snd token) days]>
           results)
      tokens m !! key = Some r
    \/ exists token,
         In token tokens
         /\ JS.toLowerCase (snd token) = key
         /\ fold_left
              (fun results token =>
                 <[JS.toLowerCase (snd token) :=
                     service_getATHPrice providers (fst token) (snd token) days]>
                   results)
              tokens m !! key
            = Some (service_getATHPrice providers (fst token) (snd token) days).
Proof.
  induction tokens as [|t rest IH]; intros m key r Hm; simpl.
  - now left.
  - destruct (decide (JS.toLowerCase (snd t) = key)) as [Heq|Hne].
    + assert (Hins : <[JS.toLowerCase (snd t) :=
                         service_getATHPrice providers (fst t) (snd t) days]> m
                     !! key
                     = Some (service_getATHPrice providers (fst t) (snd t) days))
        by (rewrite Heq; apply lookup_insert_eq).
      destruct (IH _ _ _ Hins) as [H|(t' & Hin & Hk & H)].
      * right. exists t. repeat split; simpl; auto; try (now symmetry).
      * right. exists t'. repeat split; simpl; auto; try (now symmetry).
    + assert (Hins : <[JS.toLowerCase (snd t) :=
                         service_getATHPrice providers (fst t) (snd t) days]> m
                     !! key = Some r)
        by (now rewrite lookup_insert_ne).
      destruct (IH _ _ _ Hins) as [H|(t' & Hin & Hk & H)].
      * now left.
      * right. exists t'. repeat split; simpl; auto; try (now symmetry).
Qed.

Lemma batch_fold_covers (providers : list PriceProvider) (days : nat)
  (tokens : list (string * string)) :
  forall (m : gmap string AthData.t) (token : string * string),
    In token tokens ->
    exists token',
      In token' tokens
      /\ JS.toLowerCase (snd token') = JS.toLowerCase (snd token)
      /\ fold_left
           (fun results token =>
              <[JS.toLowerCase (snd token) :=
                  service_getATHPrice providers (fst token) (snd token) days]>
                results)
           tokens m !! JS.toLowerCase (snd token)
         = Some (service_getATHPrice providers (fst token') (snd token') days).
Proof.
  induction tokens as [|t rest IH]; intros m token Hin; [destruct Hin|].
  simpl. destruct Hin as [->|Hin].
  - assert (Hins : <[JS.toLowerCase (snd token) :=
                       service_getATHPrice providers (fst token) (snd token) days]> m
                   !! JS.toLowerCase (snd token)
                   = Some (service_getATHPrice providers (fst token) (snd token)
                                               days))
      by apply lookup_insert_eq.
    destruct (batch_fold_keeps providers days rest _ _ _ Hins)
      as [H|(t' & Hin' & Hk & H)].
    + exists token. repeat split; simpl; auto; try (now symmetry).
    + exists t'. repeat split; simpl; auto; try (now symmetry).
  - destruct (IH (<[JS.toLowerCase (snd t) :=
                      service_getATHPrice providers (fst t) (snd t) days]> m)
                 token Hin) as (t' & Hin' & Hk & H).
    exists t'. repeat split; simpl; auto; try (now symmetry).
Qed.

Lemma batch_fold_keys (providers : list PriceProvider) (days : nat)
  (tokens : list (string * string)) :
  forall (m : gmap string AthData.t) (key : string) (r : AthData.t),
    fold_left
      (fun results token =>
         <[JS.toLowerCase (snd token) :=
             service_getATHPrice providers (fst token) (snd token) days]>
           results)
      tokens m !! key = Some r ->
    m !! key = Some r
    \/ exists token,
         In token tokens
         /\ key = JS.toLowerCase (snd token)
         /\ r = service_getATHPrice providers (fst token) (snd token) days.
Proof.
  induction tokens as [|t rest IH]; intros m key r H; simpl in H.
  - now left.
  - destruct (IH _ _ _ H) as [Hm|(t' & Hin & Hk & Hr)].
    + destruct (decide (JS.toLowerCase (snd t) = key)) as [Heq|Hne].
      * rewrite Heq, lookup_insert_eq in Hm. injection Hm as <-.
        right. exists t. repeat split; simpl; auto; try (now symmetry).
      * rewrite lookup_insert_ne in Hm by assumption. now left.
    + right. exists t'. repeat split; simpl; auto; try (now symmetry).
Qed.

(** X7.  When the chain holds no provider named CoinGecko, the batch
    lookup answers token by token: every requested token has an entry
    under its address in lower case, holding the ATH lookup of a
    requested token with that address (the last one, when several
    differ in letter case only), and the map has no other key.  A token
    that no provider knows still gets an entry, the empty record. *)
Theorem batch_fallback_covers_every_token :
  forall (clients : Clients) (providers : list PriceProvider)
         (tokens : list (string * string)) (days : nat),
    has_coinGecko providers = false ->
    let results := service_batchGetATHPrices clients providers tokens days in
    (forall token,
        In token tokens ->
        exists token',
          In token' tokens
          /\ JS.toLowerCase (snd token') = JS.toLowerCase (snd token)
          /\ results !! JS.toLowerCase (snd token)
             = Some (service_getATHPrice providers (fst token') (snd token') days))
    /\ (forall key r,
          results !! key = Some r ->
          exists token,
            In token tokens
            /\ key = JS.toLowerCase (snd token)
            /\ r = service_getATHPrice providers (fst token) (snd token) days).
Proof.
  intros clients providers tokens days Hno results.
  unfold results, service_batchGetATHPrices. rewrite Hno. split.
  - intros token Hin. now apply batch_fold_covers.
  - intros key r H. destruct (batch_fold_keys _ _ _ _ _ _ H) as [Hm|Hex].
    + rewrite lookup_empty in Hm. discriminate.
    + exact Hex.
Qed.

(** Two spellings of one address asked through a chain that knows no
    price: one entry, the empty record. *)
Lemma batch_fallback_covers_every_token_witness :
  service_batchGetATHPrices PriceExamples.clients PriceExamples.nansen_only
    [("ethereum", "0xAbC"); ("ethereum", "0xaBc")] 365 !! "0xabc"
  = Some NO_ATH.
Proof.
  destruct (proj1 (batch_fallback_covers_every_token
                     PriceExamples.clients PriceExamples.nansen_only
                     [("ethereum", "0xAbC"); ("ethereum", "0xaBc")] 365 eq_refl)
              ("ethereum", "0xAbC") (or_introl eq_refl))
    as (token' & _ & _ & H).
  etransitivity; [exact H | reflexivity].
Defined.

End ProviderChain.

(** ** ETH benchmark: the helpers and the final division *)

Section EthHelpers.

Import EthBenchmark.

Lemma find_current_eth_price_listed (balances : list Balance.t) (p : JS.number) :
  find_current_eth_price balances = Some p ->
  positive_number p
  /\ exists b a,
       In b balances
       /\ Balance.token_address b = Some a
       /\ JS.toLowerCase a = ETH_ADDRESS
       /\ Balance.price_usd b = p.
Proof.
  induction balances as [|b rest IH]; [discriminate|].
  cbn [find_current_eth_price].
  destruct (JS.truthy_str (Balance.token_address b)
            && match Balance.token_address b with
               | Some a => String.eqb (JS.toLowerCase a) (JS.toLowerCase ETH_ADDRESS)
               | None => false
               end
            && JS.gt (Balance.price_usd b) JS.zero) eqn:E.
  - intros [= <-]. rewrite !andb_true_iff in E. destruct E as [[_ He] Hp].
    destruct (Balance.token_address b) as [a|] eqn:Ha; [|discriminate].
    apply String.eqb_eq in He. split; [now apply gt_zero_positive|].
    exists b, a. repeat split; auto. now left.
  - intros H. destruct (IH H) as (Hp & b' & a' & Hin & Hrest).
    split; [assumption|]. exists b', a'. split; [now right | assumption].
Qed.

Lemma current_eth_price_cases (nansen : NansenService) (address : string) :
  getCurrentEthPriceFromNansen nansen address = JS.zero
  \/ (positive_number (getCurrentEthPriceFromNansen nansen address)
      /\ exists balances b a,
           getCurrentBalance nansen (price_request address)
           = Returned (Some (Some balances))
           /\ In b balances
           /\ Balance.token_address b = Some a
           /\ JS.toLowerCase a = ETH_ADDRESS
           /\ Balance.price_usd b
              = getCurrentEthPriceFromNansen nansen address).
Proof.
  unfold getCurrentEthPriceFromNansen.
  destruct (getCurrentBalance nansen (price_request address))
    as [[[[|b0 rest]|]|]|e]; cbn [bind prop try_catch]; auto.
  destruct (find_current_eth_price (b0 :: rest)) as [p|] eqn:E;
    cbn [bind prop try_catch]; auto.
  destruct (find_current_eth_price_listed _ _ E) as (Hp & b & a & Hrest).
  right. split; [assumption|]. exists (b0 :: rest), b, a.
  split; [reflexivity | assumption].
Qed.

(** X8.  [getCurrentEthPriceFromNansen] never throws and returns either
    0 or a positive number; a positive result is the [price_usd] of an
    entry of the balance response whose address is the native-asset
    placeholder in some letter case.  A failed call, a missing body or an
    empty list give 0. *)
Theorem current_eth_price_is_zero_or_listed :
  forall (nansen : NansenService) (address : string),
    (getCurrentEthPriceFromNansen nansen address = JS.zero
     \/ (JS.gt (getCurrentEthPriceFromNansen nansen address) JS.zero = true
         /\ exists balances b a,
              getCurrentBalance nansen (price_request address)
              = Returned (Some (Some balances))
              /\ In b balances
              /\ Balance.token_address b = Some a
              /\ JS.toLowerCase a = ETH_ADDRESS
              /\ Balance.price_usd b
                 = getCurrentEthPriceFromNansen nansen address))
    /\ (match getCurrentBalance nansen (price_request address) with
        | Returned (Some (Some (_ :: _))) => True
        | _ => getCurrentEthPriceFromNansen nansen address = JS.zero
        end).
Proof.
  intros nansen address. split.
  - destruct (current_eth_price_cases nansen address) as [H|[Hp Hex]];
      [now left|].
    right. split; [now apply gt_zero_positive | exact Hex].
  - unfold getCurrentEthPriceFromNansen.
    destruct (getCurrentBalance nansen (price_request address))
      as [[[[|b0 rest]|]|]|e]; cbn [bind prop try_catch]; auto.
Qed.

End EthHelpers.

(** ** ETH benchmark: the accumulation, the comparison, the purchased tokens *)

Section EthLoop.

Import EthBenchmark BenchmarkLoop.

Lemma price_of_buy (tx : Transaction.t) :
  is_buy tx = true ->
  getEthPriceFromTransaction tx = Returned (price_of tx).
Proof.
  intros Hbuy. unfold price_of.
  now rewrite (getEthPriceFromTransaction_spec tx Hbuy).
Qed.

Lemma accumulate_from (buys : list Transaction.t) :
  Forall (fun tx => is_buy tx = true) buys ->
  forall acc : Totals,
    for_each accumulate buys acc
    = Returned
        (mkTotals
           (fold_left JS.add (List.map Transaction.volume_usd buys)
                      (totalUsdSpent acc))
           (fold_left JS.add (List.map eth_share (List.filter priced buys))
                      (totalEthEquivalent acc))
           (pricesFound acc + List.length (List.filter priced buys))).
Proof.
  induction 1 as [|tx rest Hbuy _ IH]; intros acc.
  - cbn. rewrite Nat.add_0_r. now destruct acc.
  - cbn [for_each List.map List.filter]. unfold accumulate at 1.
    rewrite (price_of_buy tx Hbuy). cbn [bind].
    fold (priced tx). destruct (priced tx) eqn:Hp; cbn [bind]; rewrite IH;
      cbn [totalUsdSpent totalEthEquivalent pricesFound List.map fold_left
           List.length]; f_equal; f_equal; lia.
Qed.

(** X9.  On the buys of any transaction list the loop of step 3 never
    throws, and its three variables are sums: the USD spent is the sum of
    the volumes of all buys, the ETH equivalent is the sum of
    volume / price over the buys with a positive implied ETH price, and
    [pricesFound] is the number of those buys, hence at most the number of
    buys. *)
Theorem accumulation_is_three_sums :
  forall transactions : list Transaction.t,
    let buys := List.filter is_buy transactions in
    let pricedBuys := List.filter priced buys in
    for_each accumulate buys no_totals
    = Returned
        (mkTotals
           (fold_left JS.add (List.map Transaction.volume_usd buys) JS.zero)
           (fold_left JS.add (List.map eth_share pricedBuys) JS.zero)
           (List.length pricedBuys))
    /\ (List.length pricedBuys <= List.length buys)%nat.
Proof.
  intros transactions buys pricedBuys. split.
  - unfold buys, pricedBuys.
    now rewrite (accumulate_from _ (filter_is_buy transactions) no_totals).
  - apply List.filter_length_le.
Qed.

Lemma unpriced_filter (buys : list Transaction.t) :
  Forall (fun tx => priced tx = false) buys -> List.filter priced buys = [].
Proof.
  induction 1 as [|tx rest Hp _ IH]; [reflexivity|].
  cbn [List.filter]. now rewrite Hp.
Qed.

(** X10.  When none of the buys the analyzer sees yields a positive ETH
    price, the analyzer returns its fallback, whatever the balances and
    the current ETH price are: the ETH equivalent stays 0 and the guard
    of step 4 fires. *)
Theorem unpriced_history_falls_back :
  forall (nansen : NansenService) (address : string),
    Forall (fun tx => priced tx = false) (observed_buys nansen address) ->
    analyzeEthBenchmark nansen address = fail.
Proof.
  intros nansen address Hnone. rewrite analyze_by_response.
  unfold observed_buys in Hnone.
  destruct (getAllTransactions nansen (request address))
    as [[[transactions|]|]|e]; try reflexivity.
  destruct (benchmark_result nansen address transactions)
    as (acc & tokens & Hacc & _ & Hres).
  rewrite Hres.
  rewrite (accumulate_from _ (filter_is_buy transactions) no_totals) in Hacc.
  rewrite (unpriced_filter _ Hnone) in Hacc. injection Hacc as <-.
  reflexivity.
Qed.

(** The buy of the examples that carries no price is such a history. *)
Lemma unpriced_history_falls_back_witness :
  analyzeEthBenchmark
    (Examples.with_history [Examples.buy_unpriced] [Examples.eth_balance])
    Examples.WALLET = fail.
Proof.
  apply unpriced_history_falls_back.
  vm_compute. repeat constructor.
Defined.

(** X11.  Whenever the ETH benchmark reports data, both guards have
    passed: the current ETH price is positive, the total ETH equivalent
    of the priced buys is not zero, and at least half of the buys seen
    had a positive implied ETH price.  The data are then: the value of
    the purchased tokens; the total ETH equivalent times the current ETH
    price; their relative difference in percent, the second being the
    divisor; and OUTPERFORMED exactly when that percentage is at least 0.
    The code tests the two factors, not the product it divides by. *)
Theorem eth_benchmark_success_shape :
  forall (nansen : NansenService) (address : string) (d : Data),
    data (analyzeEthBenchmark nansen address) = Some d ->
    let buys := observed_buys nansen address in
    let totalEthEquivalent :=
      fold_left JS.add (List.map eth_share (List.filter priced buys)) JS.zero in
    let currentEthPrice := getCurrentEthPriceFromNansen nansen address in
    JS.gt currentEthPrice JS.zero = true
    /\ JS.eq totalEthEquivalent JS.zero = false
    /\ (List.length buys <= 2 * List.length (List.filter priced buys))%nat
    /\ (exists tokens : list string,
          extractUniqueTokens buys = Returned tokens
          /\ portfolioValue d
             = calculateCurrentPortfolioValue nansen address tokens)
    /\ ethEquivalentValue d = JS.mul totalEthEquivalent currentEthPrice
    /\ performancePercent d
       = JS.mul (JS.div (JS.sub (portfolioValue d) (ethEquivalentValue d))
                        (ethEquivalentValue d))
                (JS.of_Z 100)
    /\ (status d = OUTPERFORMED <-> JS.ge (performancePercent d) JS.zero = true)
    /\ analyzeEthBenchmark nansen address = succeeded "eth_benchmark" d.
Proof.
  intros nansen address d. rewrite analyze_by_response. unfold observed_buys.
  destruct (getAllTransactions nansen (request address))
    as [[[transactions|]|]|e]; try discriminate.
  destruct (benchmark_result nansen address transactions)
    as (acc & tokens & Hacc & Htok & Hres).
  rewrite Hres. cbn [try_catch].
  rewrite (accumulate_from _ (filter_is_buy transactions) no_totals) in Hacc.
  injection Hacc as <-.
  destruct (insufficient_prices _ _) eqn:Hins; [discriminate|].
  destruct (JS.eq (getCurrentEthPriceFromNansen nansen address) JS.zero)
    eqn:Hprice; [discriminate|].
  cbn [data succeeded]. intros [= <-].
  cbn [ethEquivalentValue performancePercent portfolioValue status
       totalEthEquivalent no_totals].
  assert (Hpos : positive_number (getCurrentEthPriceFromNansen nansen address)).
  { destruct (current_eth_price_cases nansen address) as [Hz|[Hp _]];
      [|assumption].
    rewrite Hz in Hprice. discriminate. }
  assert (Hhalf : ~ (2 * List.length
                           (List.filter priced (List.filter is_buy transactions))
                     < List.length (List.filter is_buy transactions))%nat).
  { match type of Hins with
    | insufficient_prices ?A ?B = false =>
        assert (Hnot : ~ (JS.eq (EthBenchmark.totalEthEquivalent A) JS.zero = true
                          \/ (2 * pricesFound A < B)%nat))
          by (rewrite <- insufficient_prices_spec, Hins; discriminate)
    end.
    cbn [pricesFound no_totals Nat.add] in Hnot. tauto. }
  unfold insufficient_prices in Hins. apply orb_false_iff in Hins.
  destruct Hins as [Hne _].
  cbn [EthBenchmark.totalEthEquivalent no_totals] in Hne.
  split; [now apply gt_zero_positive|].
  split; [exact Hne|].
  split; [lia|].
  split; [exists tokens; split; [exact Htok | reflexivity]|].
  split; [reflexivity|].
  split; [reflexivity|].
  split; [|reflexivity].
  destruct (JS.ge _ JS.zero); split; congruence.
Qed.

(** The two buys of the worked example, one of them priced. *)
Lemma eth_benchmark_success_shape_witness :
  JS.gt (getCurrentEthPriceFromNansen
           (Examples.with_history
              [Examples.buy_priced; Examples.buy_unpriced]
              [Examples.eth_balance; Examples.x_balance])
           Examples.WALLET) JS.zero = true
  /\ JS.of_Z 250 = JS.mul (JS.Fin (1 # 10)) (JS.of_Z 2500).
Proof.
  pose proof (eth_benchmark_success_shape
                (Examples.with_history
                   [Examples.buy_priced; Examples.buy_unpriced]
                   [Examples.eth_balance; Examples.x_balance])
                Examples.WALLET
                (mkData (JS.of_Z 300) (JS.of_Z 250) (JS.of_Z 20) OUTPERFORMED)
                eq_refl) as (Hprice & _ & _ & _ & Hvalue & _).
  split; [exact Hprice|].
  etransitivity; [exact Hvalue|]. vm_compute. reflexivity.
Defined.

End EthLoop.

(** ** ETH benchmark: the value of the purchased tokens *)

Section PurchasedValue.

Import EthBenchmark BenchmarkLoop.

Lemma array_includes_same (l l' : list string) :
  (forall x, In x l <-> In x l') ->
  forall x, JS.array_includes l x = JS.array_includes l' x.
Proof.
  intros Hsame x.
  destruct (JS.array_includes l x) eqn:E, (JS.array_includes l' x) eqn:E';
    try reflexivity.
  - apply array_includes_In, Hsame, array_includes_In in E. congruence.
  - apply array_includes_In, Hsame, array_includes_In in E'. congruence.
Qed.

Lemma filter_throwing_ext {A : Type} (p q : A -> outcome bool) (l : list A) :
  (forall x, p x = q x) -> filter_throwing p l = filter_throwing q l.
Proof.
  intros Hpq. induction l as [|x r IH]; [reflexivity|].
  cbn [filter_throwing]. now rewrite Hpq, IH.
Qed.

(** X12.  [calculateCurrentPortfolioValue] reads its token list as a set
    of lower-cased addresses: two lists that name the same tokens, letter
    case, order and repetitions apart, give the same value for every
    upstream. *)
Theorem portfolio_value_reads_token_set :
  forall (nansen : NansenService) (address : string)
         (tokens tokens' : list string),
    same_tokens tokens tokens' ->
    calculateCurrentPortfolioValue nansen address tokens
    = calculateCurrentPortfolioValue nansen address tokens'.
Proof.
  intros nansen address tokens tokens' Hsame.
  unfold calculateCurrentPortfolioValue.
  destruct (getCurrentBalance nansen (holdings_request address))
    as [[[[|b r]|]|]|e]; try reflexivity.
  cbn [bind prop].
  rewrite (filter_throwing_ext
             (fun bal =>
                bind (prop (Balance.token_address bal))
                     (fun a => Returned
                                 (JS.array_includes
                                    (List.map JS.toLowerCase tokens)
                                    (JS.toLowerCase a))))
             (fun bal =>
                bind (prop (Balance.token_address bal))
                     (fun a => Returned
                                 (JS.array_includes
                                    (List.map JS.toLowerCase tokens')
                                    (JS.toLowerCase a))))).
  - reflexivity.
  - intros bal. destruct (Balance.token_address bal) as [a|]; [|reflexivity].
    cbn [bind prop]. f_equal. now apply array_includes_same.
Qed.

(** A token listed twice, in two letter cases, counts once. *)
Lemma portfolio_value_reads_token_set_witness :
  calculateCurrentPortfolioValue
    (Examples.with_balances [Examples.x_balance]) Examples.WALLET
    ["0x1111111111111111111111111111111111111111";
     "0X1111111111111111111111111111111111111111"]
  = JS.of_Z 300.
Proof.
  etransitivity.
  - apply (portfolio_value_reads_token_set _ _ _ [Examples.TOKEN_X]).
    intros x. cbn. tauto.
  - reflexivity.
Defined.

Lemma filter_nothing (balances : list Balance.t) :
  filter_throwing
    (fun bal =>
       bind (prop (Balance.token_address bal))
            (fun a => Returned (JS.array_includes [] (JS.toLowerCase a))))
    balances = Returned []
  \/ exists e,
       filter_throwing
         (fun bal =>
            bind (prop (Balance.token_address bal))
                 (fun a => Returned (JS.array_includes [] (JS.toLowerCase a))))
         balances = Thrown e.
Proof.
  induction balances as [|b r IH]; [now left|].
  cbn [filter_throwing].
  destruct (Balance.token_address b) as [a|]; cbn [bind prop];
    [|right; eauto].
  destruct IH as [->|[e ->]]; cbn [bind]; [now left | right; eauto].
Qed.

Lemma filter_throws_on_null (p : string -> bool) (balances : list Balance.t)
  (b : Balance.t) :
  In b balances -> Balance.token_address b = None ->
  exists e,
    filter_throwing
      (fun bal =>
         bind (prop (Balance.token_address bal))
              (fun a => Returned (p (JS.toLowerCase a))))
      balances = Thrown e.
Proof.
  intros Hin Hnull. induction balances as [|b0 r IH]; [destruct Hin|].
  cbn [filter_throwing].
  destruct Hin as [->|Hin].
  - rewrite Hnull. cbn [bind prop]. eauto.
  - destruct (Balance.token_address b0) as [a|]; cbn [bind prop]; [|eauto].
    destruct (IH Hin) as [e ->]. cbn [bind]. eauto.
Qed.

(** X13.  [calculateCurrentPortfolioValue] never throws and gives 0 in
    each of these cases: no purchased token; a failed balance call, a
    missing list or an empty list; a balance list in which some entry has
    no token address (the filter callback reads a property of [null], the
    error is caught, and the values of the other entries are lost). *)
Theorem portfolio_value_zero_cases :
  forall (nansen : NansenService) (address : string),
    calculateCurrentPortfolioValue nansen address [] = JS.zero
    /\ (forall tokens : list string,
          match getCurrentBalance nansen (holdings_request address) with
          | Returned (Some (Some (_ :: _))) => True
          | _ => calculateCurrentPortfolioValue nansen address tokens = JS.zero
          end)
    /\ (forall (tokens : list string) (balances : list Balance.t) (b : Balance.t),
          getCurrentBalance nansen (holdings_request address)
          = Returned (Some (Some balances)) ->
          In b balances ->
          Balance.token_address b = None ->
          calculateCurrentPortfolioValue nansen address tokens = JS.zero).
Proof.
  intros nansen address. split; [|split].
  - unfold calculateCurrentPortfolioValue.
    destruct (getCurrentBalance nansen (holdings_request address))
      as [[[[|b r]|]|]|e]; try reflexivity.
    cbn [bind prop List.map].
    destruct (filter_nothing (b :: r)) as [->|[e ->]]; reflexivity.
  - intros tokens. unfold calculateCurrentPortfolioValue.
    destruct (getCurrentBalance nansen (holdings_request address))
      as [[[[|b r]|]|]|e]; first [reflexivity | exact I].
  - intros tokens balances b Hresp Hin Hnull.
    unfold calculateCurrentPortfolioValue. rewrite Hresp.
    destruct balances as [|b0 r]; [destruct Hin|].
    cbn [bind prop].
    destruct (filter_throws_on_null
                (JS.array_includes (List.map JS.toLowerCase tokens))
                (b0 :: r) b Hin Hnull) as [e ->].
    reflexivity.
Qed.

(** A holding of token X worth $300 is lost to an entry without address. *)
Lemma portfolio_value_zero_cases_witness :
  calculateCurrentPortfolioValue
    (Examples.with_balances
       [Examples.x_balance;
        Balance.mk None (Some "ethereum") "1" (JS.of_Z 1) (JS.of_Z 1)])
    Examples.WALLET [Examples.TOKEN_X]
  = JS.zero.
Proof.
  apply (proj2 (proj2 (portfolio_value_zero_cases _ _)) _
               [Examples.x_balance;
                Balance.mk None (Some "ethereum") "1" (JS.of_Z 1) (JS.of_Z 1)]
               (Balance.mk None (Some "ethereum") "1" (JS.of_Z 1) (JS.of_Z 1))).
  - reflexivity.
  - right. left. reflexivity.
  - reflexivity.
Defined.

Lemma is_purchased_token_spec (token : TokenTransfer.t) (a : string) :
  TokenTransfer.token_address token = Some a ->
  is_purchased_token token = true
  <-> a <> "" /\ a <> ETH_ADDRESS /\ JS.toLowerCase a <> ZERO_ADDRESS.
Proof.
  intros Ha. unfold is_purchased_token. rewrite Ha.
  unfold JS.truthy_str.
  rewrite !andb_true_iff, !negb_true_iff, !String.eqb_neq. tauto.
Qed.

Lemma set_add_In (tokenSet : list string) (x y : string) :
  In x (set_add tokenSet y) <-> In x tokenSet \/ x = y.
Proof.
  unfold set_add. destruct (JS.array_includes tokenSet y) eqn:E.
  - apply array_includes_In in E. split; [tauto|]. intros [H| ->]; assumption.
  - rewrite in_app_iff. simpl. split.
    + intros [H|[<-|[]]]; [now left | now right].
    + intros [H| ->]; [now left | right; now left].
Qed.

Lemma add_token_In (tokenSet : list string) (token : TokenTransfer.t)
  (x : string) :
  In x (add_token tokenSet token)
  <-> In x tokenSet
      \/ exists a,
           TokenTransfer.token_address token = Some a
           /\ a <> "" /\ a <> ETH_ADDRESS /\ JS.toLowerCase a <> ZERO_ADDRESS
           /\ x = JS.toLowerCase a.
Proof.
  unfold add_token.
  destruct (TokenTransfer.token_address token) as [a|] eqn:Ha.
  - destruct (is_purchased_token token) eqn:E.
    + rewrite set_add_In. apply (is_purchased_token_spec _ _ Ha) in E.
      split; intros [H|H]; auto.
      * right. exists a. tauto.
      * destruct H as (a' & [= <-] & _ & _ & _ & ->). now right.
    + split; [tauto|]. intros [H|(a' & [= <-] & H1 & H2 & H3 & _)];
        [assumption|].
      assert (is_purchased_token token = true)
        by (apply (is_purchased_token_spec _ _ Ha); tauto).
      congruence.
  - split; [tauto|]. intros [H|(a' & H & _)]; [assumption | discriminate].
Qed.

Lemma fold_add_token_In (received : list TokenTransfer.t) (x : string) :
  forall tokenSet,
    In x (fold_left add_token received tokenSet)
    <-> In x tokenSet
        \/ exists token a,
             In token received
             /\ TokenTransfer.token_address token = Some a
             /\ a <> "" /\ a <> ETH_ADDRESS /\ JS.toLowerCase a <> ZERO_ADDRESS
             /\ x = JS.toLowerCase a.
Proof.
  induction received as [|token rest IH]; intros tokenSet; cbn [fold_left].
  - split; [tauto|]. intros [H|(token & a & [] & _)]. assumption.
  - rewrite IH, add_token_In. split.
    + intros [[H|(a & Ha)]|(token' & a & Hin & Ha)]; auto.
      * right. exists token, a. split; [now left | assumption].
      * right. exists token', a. split; [now right | assumption].
    + intros [H|(token' & a & [<-|Hin] & Ha)]; auto.
      * left. right. now exists a.
      * right. now exists token', a.
Qed.

Lemma extract_In (transactions : list Transaction.t) (x : string) :
  forall tokenSet tokens,
    for_each
      (fun tokenSet tx =>
         bind (prop (Transaction.tokens_received tx))
              (fun received => Returned (fold_left add_token received tokenSet)))
      transactions tokenSet = Returned tokens ->
    In x tokens <-> In x tokenSet \/ purchased_in transactions x.
Proof.
  induction transactions as [|tx rest IH]; intros tokenSet tokens Hrun;
    cbn [for_each] in Hrun.
  - injection Hrun as <-. split; [tauto|].
    intros [H|(tx & received & token & a & [] & _)]. assumption.
  - destruct (Transaction.tokens_received tx) as [received|] eqn:Hrec;
      [|discriminate].
    cbn [bind prop] in Hrun. rewrite (IH _ _ Hrun), fold_add_token_In.
    unfold purchased_in. split.
    + intros [[H|(token & a & Hin & Ha)]|(tx' & received' & token & a & Hin & H)];
        auto.
      * right. exists tx, received, token, a.
        split; [now left|]. split; [exact Hrec|]. split; assumption.
      * right. exists tx', received', token, a. split; [now right | assumption].
    + intros [H|(tx' & received' & token & a & [<-|Hin] & Hrec' & H)]; auto.
      * left. right. rewrite Hrec in Hrec'. injection Hrec' as <-.
        now exists token, a.
      * right. now exists tx', received', token, a.
Qed.

(** X14.  On the buys of any transaction list [extractUniqueTokens]
    returns, without repetition, exactly the lower-cased addresses of the
    received tokens whose address is not empty, is not the native-asset
    placeholder as the constant spells it and is not the zero address:
    nothing else is in the list and none of them is left out. *)
Theorem extractUniqueTokens_collects_every_purchase :
  forall transactions : list Transaction.t,
    let buys := List.filter is_buy transactions in
    exists tokens : list string,
      extractUniqueTokens buys = Returned tokens
      /\ NoDup tokens
      /\ forall x : string, In x tokens <-> purchased_in buys x.
Proof.
  intros transactions buys.
  destruct (extractUniqueTokens_sound buys (filter_is_buy transactions))
    as (tokens & Hrun & Hnd & _).
  exists tokens. split; [assumption|]. split; [assumption|].
  intros x. rewrite (extract_In buys x [] tokens Hrun).
  split; [intros [[]|H]; assumption | now right].
Qed.

End PurchasedValue.

(** ** Portfolio ATH: the valuation loop and the two implementations *)

Section AthValuation.

Import PortfolioATH AthSums.

Lemma is_token_holding_address (holding : Balance.t) :
  is_token_holding holding = true ->
  exists a, Balance.token_address holding = Some a.
Proof.
  unfold is_token_holding.
  destruct (Balance.token_address holding) as [a|]; [eauto | discriminate].
Qed.

Lemma filter_is_token_holding (holdings : list Balance.t) :
  Forall (fun h => is_token_holding h = true)
         (List.filter is_token_holding holdings).
Proof.
  apply List.Forall_forall. intros h Hin.
  now apply List.filter_In in Hin.
Qed.

Lemma add_ath_from (athPrices : gmap string AthData.t)
  (tokenHoldings : list Balance.t) :
  Forall (fun h => is_token_holding h = true) tokenHoldings ->
  forall (athValue : JS.number) (successfulTokens : nat),
    for_each (add_ath_value athPrices) tokenHoldings (athValue, successfulTokens)
    = Returned
        (fold_left JS.add (List.map (ath_or_current athPrices) tokenHoldings)
                   athValue,
         (successfulTokens
          + List.length (List.filter (has_ath athPrices) tokenHoldings))%nat).
Proof.
  induction 1 as [|h rest Hh _ IH]; intros athValue successfulTokens.
  - cbn. now rewrite Nat.add_0_r.
  - destruct (is_token_holding_address h Hh) as [a Ha].
    cbn [for_each List.map List.filter fold_left].
    unfold add_ath_value at 1, key_of, has_ath, ath_or_current, ath_of.
    rewrite Ha. cbn [bind prop].
    destruct (athPrices !! JS.toLowerCase a) as [athData|]; cbn [bind].
    + destruct (JS.gt (AthData.athPrice athData) JS.zero); cbn [bind];
        rewrite IH; cbn [List.length]; rewrite ?Nat.add_succ_r; reflexivity.
    + rewrite IH. reflexivity.
Qed.

Lemma ath_value_is_sum_parts (holdings : list Balance.t)
  (athPrices : gmap string AthData.t) :
  evaluate (List.filter is_token_holding holdings) athPrices
  = Returned
      (conclude (sum_values (List.filter is_token_holding holdings))
         (fold_left JS.add
            (List.map (ath_or_current athPrices)
                      (List.filter is_token_holding holdings)) JS.zero)
         (List.length
            (List.filter (has_ath athPrices)
                         (List.filter is_token_holding holdings))))
  /\ (evaluate (List.filter is_token_holding holdings) athPrices = Returned fail
      <-> List.filter (has_ath athPrices)
                      (List.filter is_token_holding holdings) = []).
Proof.
  assert (Hev : evaluate (List.filter is_token_holding holdings) athPrices
                = Returned
                    (conclude
                       (sum_values (List.filter is_token_holding holdings))
                       (fold_left JS.add
                          (List.map (ath_or_current athPrices)
                             (List.filter is_token_holding holdings)) JS.zero)
                       (List.length
                          (List.filter (has_ath athPrices)
                             (List.filter is_token_holding holdings))))).
  { unfold evaluate.
    rewrite (add_ath_from athPrices _ (filter_is_token_holding holdings)).
    reflexivity. }
  split; [exact Hev|].
  rewrite Hev.
  destruct (List.filter (has_ath athPrices) _) as [|p ps];
    cbn [List.length conclude].
  - split; reflexivity.
  - split; [intros [= H] | discriminate].
Qed.

(** X15.  On the holdings that pass the filter, steps 4 and 5 never
    throw: the ATH value is the sum, over the holdings, of amount times
    ATH price where a positive ATH price is known and of the current
    value elsewhere; the number of successful tokens is the number of
    holdings with a positive ATH price; the result is the fallback
    exactly when there is none. *)
Theorem ath_value_is_sum_over_holdings :
  forall (holdings : list Balance.t) (athPrices : gmap string AthData.t),
    let tokenHoldings := List.filter is_token_holding holdings in
    let priced := List.filter (has_ath athPrices) tokenHoldings in
    for_each (add_ath_value athPrices) tokenHoldings (JS.zero, 0%nat)
    = Returned
        (fold_left JS.add (List.map (ath_or_current athPrices) tokenHoldings)
                   JS.zero,
         List.length priced)
    /\ evaluate tokenHoldings athPrices
       = Returned
           (conclude (sum_values tokenHoldings)
              (fold_left JS.add
                 (List.map (ath_or_current athPrices) tokenHoldings) JS.zero)
              (List.length priced))
    /\ (evaluate tokenHoldings athPrices = Returned fail <-> priced = []).
Proof.
  intros holdings athPrices tokenHoldings priced.
  split; [|exact (ath_value_is_sum_parts holdings athPrices)].
  exact (add_ath_from athPrices tokenHoldings
           (filter_is_token_holding holdings) JS.zero 0%nat).
Qed.

Lemma plain_by_response (nansen : NansenService)
  (coinGecko : CoinGeckoService) (address : string)
  (holdings : list Balance.t) (fetched : list (string * AthData.t)) :
  getCurrentBalance nansen (request address) = Returned (Some (Some holdings)) ->
  batchGetATHPrices coinGecko
    (List.map token_ref (List.filter is_token_holding holdings))
    ATH_LOOKBACK_DAYS = Returned fetched ->
  Plain.analyzePortfolioATH nansen coinGecko address
  = match List.filter is_token_holding holdings with
    | [] => fail
    | tokenHoldings =>
        try_catch (evaluate tokenHoldings (map_of_entries fetched)) fail
    end.
Proof.
  intros Hresp Hfetch. unfold Plain.analyzePortfolioATH, Plain.body.
  rewrite Hresp. cbn [bind prop].
  destruct holdings as [|h r]; [reflexivity|].
  destruct (List.filter is_token_holding (h :: r)) as [|th ths] eqn:E;
    [reflexivity|].
  rewrite Hfetch. reflexivity.
Qed.

(** X16.  Once the balances and the ATH prices have been answered, the
    first implementation returns its fallback exactly when no holding
    that passes the filter has a positive ATH price among the fetched
    entries; this covers the wallet in which nothing passes the filter
    and the price client that answers price 0 for every token. *)
Theorem portfolio_ath_falls_back_without_ath :
  forall (nansen : NansenService) (coinGecko : CoinGeckoService)
         (address : string) (holdings : list Balance.t)
         (fetched : list (string * AthData.t)),
    getCurrentBalance nansen (request address)
    = Returned (Some (Some holdings)) ->
    batchGetATHPrices coinGecko
      (List.map token_ref (List.filter is_token_holding holdings))
      ATH_LOOKBACK_DAYS = Returned fetched ->
    (Plain.analyzePortfolioATH nansen coinGecko address = fail
     <-> List.filter (has_ath (map_of_entries fetched))
                     (List.filter is_token_holding holdings) = []).
Proof.
  intros nansen coinGecko address holdings fetched Hresp Hfetch.
  rewrite (plain_by_response _ _ _ _ _ Hresp Hfetch).
  destruct (ath_value_is_sum_parts holdings (map_of_entries fetched))
    as (Hev & Hiff).
  revert Hev Hiff.
  destruct (List.filter is_token_holding holdings) as [|th ths].
  - intros _ _. split; reflexivity.
  - intros Hev Hiff. rewrite <- Hiff.
    destruct (evaluate (th :: ths) (map_of_entries fetched)) as [r|e];
      [|discriminate Hev].
    cbn [try_catch].
    split; [intros ->; reflexivity | intros [= ->]; reflexivity].
Qed.

(** Token A has an ATH price of $20, token B the record of a failed
    lookup: the analysis succeeds; with B alone it falls back. *)
Lemma portfolio_ath_falls_back_without_ath_witness :
  Plain.analyzePortfolioATH
    (Examples.with_balances [Examples.holding_B])
    (Examples.with_ath [Examples.ath_B_failed]) Examples.WALLET = fail
  /\ Plain.analyzePortfolioATH
       (Examples.with_balances [Examples.holding_A; Examples.holding_B])
       (Examples.with_ath [Examples.ath_A; Examples.ath_B_failed])
       Examples.WALLET <> fail.
Proof.
  split.
  - apply (portfolio_ath_falls_back_without_ath
             (Examples.with_balances [Examples.holding_B])
             (Examples.with_ath [Examples.ath_B_failed]) Examples.WALLET
             [Examples.holding_B] [Examples.ath_B_failed]
             eq_refl eq_refl).
    vm_compute. reflexivity.
  - intros Hfail.
    apply (portfolio_ath_falls_back_without_ath
             (Examples.with_balances [Examples.holding_A; Examples.holding_B])
             (Examples.with_ath [Examples.ath_A; Examples.ath_B_failed])
             Examples.WALLET
             [Examples.holding_A; Examples.holding_B]
             [Examples.ath_A; Examples.ath_B_failed]
             eq_refl eq_refl) in Hfail.
    vm_compute in Hfail. discriminate Hfail.
Defined.

End AthValuation.

(** ** Portfolio ATH: the cached implementation on a cache that holds nothing *)

Section ColdCache.

Import PortfolioATH.

Lemma check_cache_cold (now : Z) (tokenHoldings : list Balance.t) :
  Forall (fun h => is_token_holding h = true) tokenHoldings ->
  forall (st : Cached.Lookup) (c : AthCache.t),
    AthCache.entries c = ∅ ->
    exists c' : AthCache.t,
      Cached.for_eachM (Cached.check_cache now) tokenHoldings st c
      = (Returned
           (Cached.mkLookup (Cached.athPrices st)
              (Cached.tokensToFetch st ++ List.map token_ref tokenHoldings)%list
              (Cached.cacheHits st)),
         c')
      /\ AthCache.entries c' = ∅.
Proof.
  induction 1 as [|h rest Hh _ IH]; intros st c Hc.
  - exists c. cbn. rewrite app_nil_r. destruct st. now split.
  - destruct (is_token_holding_address h Hh) as [a Ha].
    cbn [Cached.for_eachM List.map].
    unfold Cached.bindM at 1, Cached.check_cache at 1.
    rewrite Ha.
    unfold Cached.bindM, Cached.lift, Cached.cache_get, Cached.ret, prop,
      AthCache.get.
    rewrite Hc, lookup_empty.
    destruct (IH (Cached.mkLookup (Cached.athPrices st)
                    (Cached.tokensToFetch st ++ [token_ref h])%list
                    (Cached.cacheHits st))
                 (AthCache.mkCache ∅ (AthCache.hitCount c)
                                   (S (AthCache.missCount c)))
                 eq_refl) as (c' & Hrun & Hc').
    exists c'. split; [|exact Hc'].
    fold (@Cached.bindM). unfold Cached.bindM, Cached.ret in Hrun.
    etransitivity; [exact Hrun|].
    cbn [Cached.athPrices Cached.tokensToFetch Cached.cacheHits].
    now rewrite <- app_assoc.
Qed.

Lemma store_fetched_fold (now : Z) (fetched : list (string * AthData.t)) :
  forall (prices : gmap string AthData.t) (c : AthCache.t),
    exists c' : AthCache.t,
      Cached.for_eachM (Cached.store_fetched now) fetched prices c
      = (Returned (fold_left (fun m kv => <[fst kv := snd kv]> m) fetched prices),
         c').
Proof.
  induction fetched as [|[address athData] rest IH]; intros prices c.
  - exists c. reflexivity.
  - cbn [Cached.for_eachM fold_left fst snd].
    unfold Cached.bindM at 1, Cached.store_fetched at 1.
    unfold Cached.bindM at 1.
    destruct (JS.gt (AthData.athPrice athData) JS.zero);
      [destruct (AthData.athDate athData)|];
      unfold Cached.cache_set, Cached.ret; apply IH.
Qed.

(** X17.  Started on a cache that holds no entry, the cached
    implementation returns what the first implementation returns, for
    every upstream and price client: every holding misses, the whole
    filtered list is fetched in one batch, and the fetched entries form
    the same price map. *)
Theorem cold_cache_agrees_with_uncached :
  forall (nansen : NansenService) (coinGecko : CoinGeckoService)
         (now : Z) (address : string) (c : AthCache.t),
    AthCache.entries c = ∅ ->
    fst (Cached.analyzePortfolioATH nansen coinGecko now address c)
    = Plain.analyzePortfolioATH nansen coinGecko address.
Proof.
  intros nansen coinGecko now address c Hc.
  unfold Cached.analyzePortfolioATH, Cached.body, Plain.analyzePortfolioATH,
    Plain.body.
  unfold Cached.bindM at 1, Cached.lift at 1.
  destruct (getCurrentBalance nansen (request address))
    as [[[[|h r]|]|]|e]; try reflexivity.
  cbn [bind prop]. unfold Cached.bindM at 1, Cached.lift at 1. cbn [prop].
  pose proof (filter_is_token_holding (h :: r)) as Hall.
  destruct (List.filter is_token_holding (h :: r)) as [|th ths];
    [reflexivity|].
  destruct (check_cache_cold now (th :: ths) Hall (Cached.mkLookup ∅ [] 0) c Hc)
    as (c1 & Hrun & _).
  unfold Cached.bindM at 1. rewrite Hrun.
  cbn [Cached.tokensToFetch Cached.athPrices app List.map].
  unfold Cached.bindM at 1, Cached.bindM at 1, Cached.lift at 1.
  change (token_ref th :: List.map token_ref ths)
    with (List.map token_ref (th :: ths)).
  destruct (batchGetATHPrices coinGecko (List.map token_ref (th :: ths))
                              ATH_LOOKBACK_DAYS) as [fetched|e];
    [|reflexivity].
  cbn [bind].
  destruct (store_fetched_fold now fetched ∅ c1) as (c2 & Hstore).
  rewrite Hstore. unfold Cached.lift. cbn [fst].
  reflexivity.
Qed.

(** The cache of a fresh process, on the holdings of the worked example. *)
Lemma cold_cache_agrees_with_uncached_witness :
  fst (Cached.analyzePortfolioATH
         (Examples.with_balances [Examples.holding_A; Examples.holding_B])
         (Examples.with_ath [Examples.ath_A; Examples.ath_B_failed])
         Examples.NOW Examples.WALLET AthCache.empty)
  = Plain.analyzePortfolioATH
      (Examples.with_balances [Examples.holding_A; Examples.holding_B])
      (Examples.with_ath [Examples.ath_A; Examples.ath_B_failed])
      Examples.WALLET.
Proof.
  apply cold_cache_agrees_with_uncached. reflexivity.
Defined.

End ColdCache.

(** ** Labels: what each analyzer chooses *)

Section LabelSelection.

Import Labels LabelChoice.

Lemma first_listed_first_of (priority names : list string) (p : string) :
  Prd.first_listed priority names = Some p <-> first_of priority names p.
Proof.
  split.
  - induction priority as [|q rest IH]; cbn [Prd.first_listed]; [discriminate|].
    destruct (JS.array_includes names q) eqn:E.
    + intros [= <-]. exists [], rest. split; [reflexivity|].
      split; [now apply array_includes_In | intros q' []].
    + intros H. destruct (IH H) as (front & back & -> & Hin & Hfront).
      exists (q :: front), back. split; [reflexivity|]. split; [assumption|].
      intros q' [<-|Hq'].
      * intros Hq. apply array_includes_In in Hq. congruence.
      * now apply Hfront.
  - intros (front & back & -> & Hin & Hfront).
    induction front as [|q front IH]; cbn [app Prd.first_listed].
    + apply array_includes_In in Hin. now rewrite Hin.
    + destruct (JS.array_includes names q) eqn:E.
      * apply array_includes_In in E. destruct (Hfront q (or_introl eq_refl) E).
      * apply IH. intros q' Hq'. apply Hfront. now right.
Qed.

Lemma first_listed_none_of (priority names : list string) :
  Prd.first_listed priority names = None <-> none_of priority names.
Proof.
  unfold none_of. induction priority as [|q rest IH]; cbn [Prd.first_listed].
  - split; [intros _ q [] | reflexivity].
  - destruct (JS.array_includes names q) eqn:E.
    + split; [discriminate|]. intros H. apply array_includes_In in E.
      destruct (H q (or_introl eq_refl) E).
    + rewrite IH. split.
      * intros H q' [<-|Hq']; [|now apply H].
        intros Hq. apply array_includes_In in Hq. congruence.
      * intros H q' Hq'. apply H. now right.
Qed.

Lemma prd_by_response (nansen : NansenService) (address : string)
  (labels : list Label.t) :
  getLabels nansen (request address) = Returned (Some labels) ->
  Prd.analyzeLabels nansen address = Prd.select (List.map Label.label labels).
Proof.
  intros Hresp. unfold Prd.analyzeLabels, Prd.body. rewrite Hresp.
  destruct labels; reflexivity.
Qed.

(** X18.  The long-list analyzer, once the upstream has answered with
    labels, reports a label exactly when it is the first entry of
    [LABEL_PRIORITY] that equals one of the labels, no earlier entry
    equalling any; it returns its fallback exactly when no entry of the
    list equals a label. *)
Theorem prd_label_is_first_listed :
  forall (nansen : NansenService) (address : string) (labels : list Label.t),
    getLabels nansen (request address) = Returned (Some labels) ->
    let names := List.map Label.label labels in
    (forall p : string,
       Prd.analyzeLabels nansen address = succeeded "labels" (mkData p)
       <-> first_of Prd.LABEL_PRIORITY names p)
    /\ (Prd.analyzeLabels nansen address = fail
        <-> none_of Prd.LABEL_PRIORITY names).
Proof.
  intros nansen address labels Hresp names.
  rewrite (prd_by_response _ _ _ Hresp). fold names. unfold Prd.select.
  split.
  - intros p. rewrite <- first_listed_first_of.
    destruct (Prd.first_listed Prd.LABEL_PRIORITY names) as [q|].
    + split; [intros [= ->]; reflexivity | intros [= ->]; reflexivity].
    + split; discriminate.
  - rewrite <- first_listed_none_of.
    destruct (Prd.first_listed Prd.LABEL_PRIORITY names) as [q|].
    + split; discriminate.
    + split; reflexivity.
Qed.

(** An address labelled [OpenSea User] and [Staker]: [Staker] comes first
    in the list. *)
Lemma prd_label_is_first_listed_witness :
  first_of Prd.LABEL_PRIORITY ["OpenSea User"; "Staker"] "Staker".
Proof.
  apply (proj1 (prd_label_is_first_listed
                  (Examples.with_labels
                     [Label.mk "OpenSea User" "behavioral";
                      Label.mk "Staker" "behavioral"])
                  Examples.WALLET
                  [Label.mk "OpenSea User" "behavioral";
                   Label.mk "Staker" "behavioral"]
                  eq_refl) "Staker").
  reflexivity.
Defined.

Lemma findIndex_lt {A : Type} (p : A -> bool) (l : list A) (i : nat) :
  JS.findIndex p l = Some i -> (i < List.length l)%nat.
Proof.
  revert i. induction l as [|x r IH]; intros i; cbn [JS.findIndex List.length];
    [discriminate|].
  destruct (p x); [intros [= <-]; lia|].
  destruct (JS.findIndex p r) as [j|]; cbn [option_map]; [|discriminate].
  intros [= <-]. specialize (IH j eq_refl). lia.
Qed.

Lemma priority_index_lt (l : string) (i : nat) :
  Poc.priority_index l = Some i -> (i < List.length Poc.LABEL_PRIORITY)%nat.
Proof. apply findIndex_lt. Qed.

Lemma consider_eq (best : option string) (n : nat) (x : string) :
  Poc.consider (best, n) x
  = match Poc.priority_index x with
    | Some k =>
        if (k <? n)%nat then (nth_error Poc.LABEL_PRIORITY k, k) else (best, n)
    | None => (best, n)
    end.
Proof. reflexivity. Qed.

Lemma fold_consider_spec (names : list string) :
  forall (best : option string) (n : nat),
    let r := fold_left Poc.consider names (best, n) in
    (forall l j, In l names -> Poc.priority_index l = Some j -> (snd r <= j)%nat)
    /\ ((snd r = n /\ fst r = best)
        \/ ((snd r < n)%nat
            /\ fst r = nth_error Poc.LABEL_PRIORITY (snd r)
            /\ exists l, In l names /\ Poc.priority_index l = Some (snd r))).
Proof.
  induction names as [|x rest IH]; intros best n; cbv zeta; cbn [fold_left].
  - cbn. split; [intros l j []|]. left. now split.
  - rewrite (consider_eq best n x).
    destruct (Poc.priority_index x) as [k|] eqn:Hk; cbv beta iota.
    + destruct (Nat.ltb_spec k n) as [Hlt|Hge]; cbv beta iota.
      * specialize (IH (nth_error Poc.LABEL_PRIORITY k) k). cbn zeta in IH.
        destruct IH as (Hmin & Hcase). split.
        -- intros l j [<-|Hin] Hj; [|now apply (Hmin l)].
           rewrite Hk in Hj. injection Hj as <-.
           destruct Hcase as [[Hs _]|[Hlt' _]]; lia.
        -- right. destruct Hcase as [[Hs Hf]|(Hlt' & Hf & l & Hin & Hl)].
           ++ rewrite Hs, Hf. split; [assumption|]. split; [reflexivity|].
              exists x. split; [now left | assumption].
           ++ split; [lia|]. split; [assumption|].
              exists l. split; [now right | assumption].
      * specialize (IH best n). cbn zeta in IH.
        destruct IH as (Hmin & Hcase). split.
        -- intros l j [<-|Hin] Hj; [|now apply (Hmin l)].
           rewrite Hk in Hj. injection Hj as <-.
           destruct Hcase as [[Hs _]|[Hlt' _]]; lia.
        -- destruct Hcase as [Hsame|(Hlt' & Hf & l & Hin & Hl)];
             [now left|].
           right. split; [assumption|]. split; [assumption|].
           exists l. split; [now right | assumption].
    + specialize (IH best n). cbn zeta in IH.
      destruct IH as (Hmin & Hcase). split.
      * intros l j [<-|Hin] Hj; [congruence | now apply (Hmin l)].
      * destruct Hcase as [Hsame|(Hlt' & Hf & l & Hin & Hl)]; [now left|].
        right. split; [assumption|]. split; [assumption|].
        exists l. split; [now right | assumption].
Qed.

Lemma poc_priority_not_empty (i : nat) (p : string) :
  nth_error Poc.LABEL_PRIORITY i = Some p -> String.eqb p "" = false.
Proof.
  intros H. apply nth_error_In in H.
  repeat (destruct H as [<-|H]; [reflexivity|]). destruct H.
Qed.

Lemma poc_select_cases (names : list string) :
  (exists i p,
     least_index names i
     /\ nth_error Poc.LABEL_PRIORITY i = Some p
     /\ Poc.select names = succeeded "labels" (mkData p))
  \/ ((forall l, In l names -> Poc.priority_index l = None)
      /\ Poc.select names = fail).
Proof.
  unfold Poc.select.
  destruct (fold_consider_spec names None (List.length Poc.LABEL_PRIORITY))
    as (Hmin & Hcase).
  cbn zeta in Hmin, Hcase.
  destruct Hcase as [[Hs Hf]|(Hlt & Hf & l & Hin & Hl)].
  - right. rewrite Hf. split; [|reflexivity].
    intros l Hin. destruct (Poc.priority_index l) as [j|] eqn:Hj; [|reflexivity].
    pose proof (Hmin l j Hin Hj). pose proof (priority_index_lt l j Hj). lia.
  - left.
    destruct (nth_error Poc.LABEL_PRIORITY
                (snd (fold_left Poc.consider names
                        (None, List.length Poc.LABEL_PRIORITY)))) as [p|] eqn:Hp.
    + exists (snd (fold_left Poc.consider names
                     (None, List.length Poc.LABEL_PRIORITY))), p.
      split; [split; [now exists l | assumption]|].
      split; [assumption|].
      rewrite Hf, (poc_priority_not_empty _ _ Hp). reflexivity.
    + apply nth_error_None in Hp. lia.
Qed.

Lemma poc_by_response (nansen : NansenService) (address : string)
  (labels : list Label.t) :
  getLabels nansen (request address) = Returned (Some labels) ->
  Poc.analyzeLabels nansen address = Poc.select (List.map Label.label labels).
Proof.
  intros Hresp. unfold Poc.analyzeLabels, Poc.body. rewrite Hresp.
  destruct labels; reflexivity.
Qed.

(** X19.  The short-list analyzer, once the upstream has answered with
    labels, gives every label the index of the first entry of its
    [LABEL_PRIORITY] that the label contains, letter case apart, and
    reports the entry of least index: it reports [p] exactly when [p] is
    the entry at the least index any label gets, and returns its fallback
    exactly when no label contains an entry. *)
Theorem poc_label_has_least_index :
  forall (nansen : NansenService) (address : string) (labels : list Label.t),
    getLabels nansen (request address) = Returned (Some labels) ->
    let names := List.map Label.label labels in
    (forall p : string,
       Poc.analyzeLabels nansen address = succeeded "labels" (mkData p)
       <-> exists i, nth_error Poc.LABEL_PRIORITY i = Some p
                     /\ least_index names i)
    /\ (Poc.analyzeLabels nansen address = fail
        <-> forall l, In l names -> Poc.priority_index l = None).
Proof.
  intros nansen address labels Hresp names.
  rewrite (poc_by_response _ _ _ Hresp). fold names.
  destruct (poc_select_cases names)
    as [(i & p & Hleast & Hp & Hsel)|(Hnone & Hsel)]; rewrite Hsel.
  - split.
    + intros p'. split.
      * intros [= <-]. now exists i.
      * intros (i' & Hp' & (l' & Hin' & Hl') & Hmin').
        destruct Hleast as ((l & Hin & Hl) & Hmin).
        pose proof (Hmin l' i' Hin' Hl'). pose proof (Hmin' l i Hin Hl).
        assert (i' = i) by lia. subst i'. congruence.
    + split; [discriminate|]. intros Hnone.
      destruct Hleast as ((l & Hin & Hl) & _).
      rewrite (Hnone l Hin) in Hl. discriminate.
  - split.
    + intros p'. split; [discriminate|].
      intros (i' & _ & (l' & Hin' & Hl') & _).
      rewrite (Hnone l' Hin') in Hl'. discriminate.
    + split; [intros _; exact Hnone | reflexivity].
Qed.

(** A label that contains [Whale] and one that contains [Staker]:
    [Whale] has the lesser index. *)
Lemma poc_label_has_least_index_witness :
  Poc.analyzeLabels
    (Examples.with_labels
       [Label.mk "Staker" "behavioral"; Label.mk "Memecoin Whale" "smart_money"])
    Examples.WALLET
  = succeeded "labels" (mkData "Whale")
  /\ exists i, nth_error Poc.LABEL_PRIORITY i = Some "Whale"
               /\ least_index ["Staker"; "Memecoin Whale"] i.
Proof.
  split; [reflexivity|].
  apply (proj1 (proj1 (poc_label_has_least_index
                         (Examples.with_labels
                            [Label.mk "Staker" "behavioral";
                             Label.mk "Memecoin Whale" "smart_money"])
                         Examples.WALLET
                         [Label.mk "Staker" "behavioral";
                          Label.mk "Memecoin Whale" "smart_money"]
                         eq_refl) "Whale")).
  reflexivity.
Defined.

End LabelSelection.

(** ** Smart money and rugged projects *)

Section SmartAndRugged.

Import LabelChoice.

Lemma filter_empty {A : Type} (p : A -> bool) (l : list A) :
  List.filter p l = [] <-> forall x, In x l -> p x = false.
Proof.
  induction l as [|x r IH]; cbn [List.filter].
  - split; [intros _ x [] | reflexivity].
  - destruct (p x) eqn:E.
    + split; [discriminate|]. intros H.
      rewrite (H x (or_introl eq_refl)) in E. discriminate.
    + rewrite IH. split.
      * intros H y [<-|Hy]; [assumption | now apply H].
      * intros H y Hy. apply H. now right.
Qed.

Lemma none_of_app (priority priority' names : list string) :
  none_of (priority ++ priority') names
  <-> none_of priority names /\ none_of priority' names.
Proof.
  unfold none_of. split.
  - intros H. split; intros q Hq; apply H, in_app_iff; [now left | now right].
  - intros [H H'] q Hq. apply in_app_iff in Hq. destruct Hq; auto.
Qed.

Lemma first_listed_In (priority names : list string) (p : string) :
  Labels.Prd.first_listed priority names = Some p -> In p names.
Proof.
  intros H. apply first_listed_first_of in H.
  now destruct H as (_ & _ & _ & Hin & _).
Qed.

Lemma smart_poc_by_response (nansen : NansenService) (address : string)
  (response : list Label.t) :
  getLabels nansen (Labels.request address) = Returned (Some response) ->
  SmartMoney.Poc.analyzeSmartMoney nansen address
  = SmartMoney.Poc.select (List.map Label.label response).
Proof.
  intros Hresp. unfold SmartMoney.Poc.analyzeSmartMoney, SmartMoney.Poc.body.
  rewrite Hresp. destruct response; reflexivity.
Qed.

Lemma smart_prd_by_response (nansen : NansenService) (address : string)
  (response : list Label.t) :
  getLabels nansen (Labels.request address) = Returned (Some response) ->
  SmartMoney.Prd.analyzeSmartMoney nansen address
  = SmartMoney.Prd.select response.
Proof.
  intros Hresp. unfold SmartMoney.Prd.analyzeSmartMoney, SmartMoney.Prd.body.
  rewrite Hresp. destruct response; reflexivity.
Qed.

(** X20.  Both smart-money analyzers, once the upstream has answered
    with labels, report only labels the upstream returned, at least one
    of them, under [isSmartMoney = true].  The first returns its fallback
    exactly when no label equals, letter case apart, one of its six
    names, and otherwise reports all the labels that do.  The second
    returns its fallback exactly when no label is of category
    [smart_money] and none equals one of the four priority names or one
    of the five keywords. *)
Theorem smart_money_reports_upstream_labels :
  forall (nansen : NansenService) (address : string) (response : list Label.t),
    getLabels nansen (Labels.request address) = Returned (Some response) ->
    let names := List.map Label.label response in
    (SmartMoney.Poc.analyzeSmartMoney nansen address = SmartMoney.fail
     <-> forall l, In l names -> SmartMoney.Poc.is_smart l = false)
    /\ (forall d : SmartMoney.Data,
          data (SmartMoney.Poc.analyzeSmartMoney nansen address) = Some d ->
          SmartMoney.isSmartMoney d = true
          /\ SmartMoney.labels d <> []
          /\ forall x, In x (SmartMoney.labels d)
                       <-> In x names /\ SmartMoney.Poc.is_smart x = true)
    /\ (SmartMoney.Prd.analyzeSmartMoney nansen address = SmartMoney.fail
        <-> (forall item, In item response ->
                          Label.category item <> SmartMoney.Prd.SMART_MONEY_CATEGORY)
            /\ none_of (SmartMoney.Prd.SMART_MONEY_PRIORITY
                        ++ SmartMoney.Prd.SMART_MONEY_KEYWORDS) names)
    /\ (forall d : SmartMoney.Data,
          data (SmartMoney.Prd.analyzeSmartMoney nansen address) = Some d ->
          SmartMoney.isSmartMoney d = true
          /\ SmartMoney.labels d <> []
          /\ forall x, In x (SmartMoney.labels d) -> In x names).
Proof.
  intros nansen address response Hresp names.
  rewrite (smart_poc_by_response _ _ _ Hresp),
    (smart_prd_by_response _ _ _ Hresp). fold names.
  split; [|split; [|split]].
  - rewrite <- filter_empty. unfold SmartMoney.Poc.select.
    destruct (List.filter SmartMoney.Poc.is_smart names);
      split; try reflexivity; discriminate.
  - intros d. unfold SmartMoney.Poc.select.
    destruct (List.filter SmartMoney.Poc.is_smart names) as [|s ss] eqn:E;
      [discriminate|].
    intros [= <-]. cbn [SmartMoney.isSmartMoney SmartMoney.labels].
    split; [reflexivity|]. split; [discriminate|].
    intros x. rewrite <- E. apply List.filter_In.
  - unfold SmartMoney.Prd.select.
    destruct (List.filter
                (fun item => String.eqb (Label.category item)
                                        SmartMoney.Prd.SMART_MONEY_CATEGORY)
                response) as [|s ss] eqn:E.
    + pose proof (proj1 (filter_empty _ _) E) as Hnocat.
      fold names. rewrite none_of_app, <- !first_listed_none_of.
      destruct (Labels.Prd.first_listed SmartMoney.Prd.SMART_MONEY_PRIORITY names).
      * split; [discriminate | intros (_ & H & _); discriminate].
      * destruct (Labels.Prd.first_listed SmartMoney.Prd.SMART_MONEY_KEYWORDS
                                          names).
        -- split; [discriminate | intros (_ & _ & H); discriminate].
        -- split; [|reflexivity]. intros _. split; [|now split].
           intros item Hin. apply String.eqb_neq. now apply Hnocat.
    + assert (Hcat : exists item, In item response
                       /\ Label.category item
                          = SmartMoney.Prd.SMART_MONEY_CATEGORY).
      { exists s.
        assert (Hs : In s (List.filter
                             (fun item =>
                                String.eqb (Label.category item)
                                           SmartMoney.Prd.SMART_MONEY_CATEGORY)
                             response)) by (rewrite E; now left).
        apply List.filter_In in Hs. destruct Hs as [Hin Heq].
        split; [assumption | now apply String.eqb_eq]. }
      destruct Hcat as (item & Hin & Hcat).
      destruct (Labels.Prd.first_listed _ _);
        (split; [discriminate | intros [H _]; destruct (H item Hin Hcat)]).
  - intros d. unfold SmartMoney.Prd.select.
    destruct (List.filter
                (fun item => String.eqb (Label.category item)
                                        SmartMoney.Prd.SMART_MONEY_CATEGORY)
                response) as [|s ss] eqn:E.
    + fold names.
      destruct (Labels.Prd.first_listed SmartMoney.Prd.SMART_MONEY_PRIORITY names)
        as [p|] eqn:Hp.
      * intros [= <-]. cbn [SmartMoney.isSmartMoney SmartMoney.labels].
        split; [reflexivity|]. split; [discriminate|].
        intros x [<-|[]]. now apply (first_listed_In _ _ _ Hp).
      * destruct (Labels.Prd.first_listed SmartMoney.Prd.SMART_MONEY_KEYWORDS
                                          names) as [k|] eqn:Hk;
          [|discriminate].
        intros [= <-]. cbn [SmartMoney.isSmartMoney SmartMoney.labels].
        split; [reflexivity|]. split; [discriminate|].
        intros x [<-|[]]. now apply (first_listed_In _ _ _ Hk).
    + assert (Hsub : forall x, In x (List.map Label.label (s :: ss)) ->
                               In x names).
      { intros x Hx. apply in_map_iff in Hx. destruct Hx as (item & <- & Hitem).
        rewrite <- E in Hitem. apply List.filter_In in Hitem.
        apply in_map. now destruct Hitem. }
      destruct (Labels.Prd.first_listed SmartMoney.Prd.SMART_MONEY_PRIORITY
                  (List.map Label.label (s :: ss))) as [p|] eqn:Hp.
      * intros [= <-]. cbn [SmartMoney.isSmartMoney SmartMoney.labels].
        split; [reflexivity|]. split; [discriminate|].
        intros x [<-|[]]. apply Hsub. now apply (first_listed_In _ _ _ Hp).
      * intros [= <-]. cbn [SmartMoney.isSmartMoney SmartMoney.labels].
        split; [reflexivity|]. split; [discriminate|]. exact Hsub.
Qed.

(** A wallet labelled [Fund] and [30D Smart Trader]: the first analyzer
    reports [Fund], the second the priority name. *)
Lemma smart_money_reports_upstream_labels_witness :
  SmartMoney.Poc.analyzeSmartMoney
    (Examples.with_labels
       [Label.mk "Fund" "other"; Label.mk "30D Smart Trader" "smart_money"])
    Examples.WALLET <> SmartMoney.fail
  /\ SmartMoney.Prd.analyzeSmartMoney
       (Examples.with_labels
          [Label.mk "Fund" "other"; Label.mk "30D Smart Trader" "smart_money"])
       Examples.WALLET <> SmartMoney.fail.
Proof.
  destruct (smart_money_reports_upstream_labels
              (Examples.with_labels
                 [Label.mk "Fund" "other";
                  Label.mk "30D Smart Trader" "smart_money"])
              Examples.WALLET
              [Label.mk "Fund" "other"; Label.mk "30D Smart Trader" "smart_money"]
              eq_refl) as (Hpoc & _ & Hprd & _).
  split.
  - intros H. pose proof (proj1 Hpoc H "Fund" (or_introl eq_refl)) as Hfund.
    discriminate Hfund.
  - intros H. destruct (proj1 Hprd H) as [Hcat _].
    apply (Hcat (Label.mk "30D Smart Trader" "smart_money")); [|reflexivity].
    right. left. reflexivity.
Defined.

Import RuggedProjects RuggedWatch.

Lemma is_screenable_address (holding : Balance.t) :
  is_screenable holding = true ->
  screenable_address (Balance.token_address holding) = true.
Proof.
  unfold is_screenable, screenable_address.
  destruct (Balance.token_address holding) as [a|]; [|discriminate].
  unfold JS.truthy_str. tauto.
Qed.

Lemma watchlist_is_clean (holdings : list Balance.t) :
  List.map Balance.token_address (List.filter is_screenable holdings) <> [] ->
  clean_request
    (mkScreenerRequest CHAINS 1
       (List.map Balance.token_address (List.filter is_screenable holdings))
       JS.zero LIQUIDITY_THRESHOLD 100) = true.
Proof.
  intros Hne. unfold clean_request. cbn [sr_watchlistFilter].
  assert (Hall : forallb screenable_address
                   (List.map Balance.token_address
                             (List.filter is_screenable holdings)) = true).
  { apply forallb_forall. intros o Ho. apply in_map_iff in Ho.
    destruct Ho as (h & <- & Hh). apply List.filter_In in Hh.
    now apply is_screenable_address. }
  destruct (List.map Balance.token_address (List.filter is_screenable holdings));
    [congruence | exact Hall].
Qed.

(** X21.  The rugged-projects analyzer always returns data, for every
    upstream: [ruggedCount] is the length of [ruggedTokens]; the count is
    0 exactly when the result is the clear-skies literal, which carries
    the fallback message; a positive count comes without a fallback
    property and is the number of items of the screener's answer. *)
Theorem rugged_count_is_list_length :
  forall (nansen : NansenService) (address : string),
    exists d : Data,
      data (analyzeRuggedProjects nansen address) = Some d
      /\ success (analyzeRuggedProjects nansen address) = true
      /\ ruggedCount d = List.length (ruggedTokens d)
      /\ (ruggedCount d = 0%nat
          <-> analyzeRuggedProjects nansen address = clear_skies)
      /\ (ruggedCount d <> 0%nat ->
          fallback (analyzeRuggedProjects nansen address) = None
          /\ exists (req : ScreenerRequest) (items : list ScreenedToken.t),
               screenTokens nansen req = Returned (Some (Some (Some items)))
               /\ clean_request req = true
               /\ ruggedTokens d = List.map details items).
Proof.
  intros nansen address. unfold analyzeRuggedProjects, body.
  assert (Hclear : exists d : Data,
            data clear_skies = Some d
            /\ success clear_skies = true
            /\ ruggedCount d = List.length (ruggedTokens d)
            /\ (ruggedCount d = 0%nat <-> clear_skies = clear_skies)
            /\ (ruggedCount d <> 0%nat ->
                fallback clear_skies = None
                /\ exists (req : ScreenerRequest) (items : list ScreenedToken.t),
                     screenTokens nansen req = Returned (Some (Some (Some items)))
                     /\ clean_request req = true
                     /\ ruggedTokens d = List.map details items)).
  { exists (mkData 0 []). split; [reflexivity|]. split; [reflexivity|].
    split; [reflexivity|]. split; [split; reflexivity|].
    intros Hne. now destruct Hne. }
  destruct (getCurrentBalance nansen (request address))
    as [[[[|h r]|]|]|e]; cbn [bind prop try_catch]; try exact Hclear.
  pose proof (watchlist_is_clean (h :: r)) as Hclean.
  destruct (List.map Balance.token_address
                     (List.filter is_screenable (h :: r))) as [|a addrs] eqn:E;
    [exact Hclear|].
  specialize (Hclean ltac:(discriminate)).
  destruct (screenTokens nansen
              (mkScreenerRequest CHAINS 1 (a :: addrs) JS.zero
                                 LIQUIDITY_THRESHOLD 100))
    as [[[[[|t ts]|]|]|]|e] eqn:Hscreen;
    cbn [bind prop try_catch]; try exact Hclear.
  exists (mkData (List.length (t :: ts)) (List.map details (t :: ts))).
  cbn [data success fallback succeeded ruggedCount ruggedTokens].
  split; [reflexivity|]. split; [reflexivity|].
  split; [now rewrite length_map|].
  split; [split; discriminate|].
  intros _. split; [reflexivity|].
  exists (mkScreenerRequest CHAINS 1 (a :: addrs) JS.zero LIQUIDITY_THRESHOLD 100),
         (t :: ts).
  split; [assumption|]. split; [assumption | reflexivity].
Qed.

(** X22.  The analyzer asks the screener about a watchlist that is never
    empty and never holds a missing address, an empty one or the
    native-asset placeholder in any letter case: replacing the screener
    by one that fails on every other request changes no result. *)
Theorem rugged_screens_clean_watchlists_only :
  forall (nansen : NansenService) (address : string),
    analyzeRuggedProjects (strict nansen) address
    = analyzeRuggedProjects nansen address.
Proof.
  intros nansen address. unfold analyzeRuggedProjects, body.
  cbn [strict getCurrentBalance screenTokens].
  destruct (getCurrentBalance nansen (request address))
    as [[[[|h r]|]|]|e]; cbn [bind prop try_catch]; try reflexivity.
  pose proof (watchlist_is_clean (h :: r)) as Hclean.
  destruct (List.map Balance.token_address
                     (List.filter is_screenable (h :: r))) as [|a addrs] eqn:E;
    [reflexivity|].
  rewrite (Hclean ltac:(discriminate)). reflexivity.
Qed.

End SmartAndRugged.

(** ** The test runner *)

Section Runner.

Import TestRunner.

(** With the default of two decimals [formatPercent] returns. *)
Lemma formatPercent_default_returns (value : JS.number) :
  exists text, Formatting.formatPercent value 2 = Returned text.
Proof. unfold Formatting.formatPercent. cbn. eauto. Qed.

Lemma pnl_report_returns (formatUSD : option JS.number -> string)
  (r : AnalysisResult Pnl.Data) :
  exists ok text, pnl_report formatUSD r = Returned (ok, text).
Proof.
  unfold pnl_report. destruct r as [ty [] [d|] f]; cbn; eauto.
Qed.

Lemma labels_report_returns (r : AnalysisResult Labels.Data) :
  exists ok text, labels_report r = Returned (ok, text).
Proof.
  unfold labels_report. destruct r as [ty [] [d|] f]; cbn; eauto.
Qed.

Lemma eth_benchmark_report_returns (r : AnalysisResult EthBenchmark.Data) :
  exists ok text, eth_benchmark_report r = Returned (ok, text).
Proof.
  unfold eth_benchmark_report. destruct r as [ty [] [d|] f]; cbn; eauto.
Qed.

Lemma portfolio_ath_report_returns (r : AnalysisResult PortfolioATH.Data) :
  exists ok text, portfolio_ath_report r = Returned (ok, text).
Proof.
  unfold portfolio_ath_report. destruct r as [ty [] [d|] f]; cbn; eauto.
Qed.

Lemma smart_money_row_succeeds (r : AnalysisResult SmartMoney.Data) :
  exists text, smart_money_report r = Returned (true, text).
Proof.
  unfold smart_money_report.
  destruct r as [ty [] [d|] f]; cbn; eauto.
  destruct (SmartMoney.isSmartMoney d); eauto.
Qed.

Lemma rugged_row_succeeds (formatUSD : option JS.number -> string)
  (nansen : NansenService) (address : string) :
  exists text,
    rugged_report formatUSD
      (RuggedProjects.analyzeRuggedProjects nansen address)
    = Returned (true, text).
Proof.
  destruct (rugged_shape nansen address) as [->|[d ->]].
  - cbn. eauto.
  - unfold rugged_report, succeeded. cbn.
    destruct (RuggedProjects.ruggedCount d); cbn; eauto.
Qed.

(** The six rows on the analyzers above: no summary throws, so every
    block reads the clock twice. *)
Lemma runner_rows (formatUSD : option JS.number -> string) (clock : nat -> Z)
  (nansen : NansenService) (coinGecko : CoinGeckoService) (address : string) :
  exists (b0 b1 b4 b5 : bool) (t0 t1 t2 t3 t4 t5 : string),
    runAllFunFacts formatUSD clock (analyses_of nansen coinGecko address)
    = [ mkTestResult "P&L" b0 t0 (clock 1%nat - clock 0%nat);
        mkTestResult "Labels" b1 t1 (clock 3%nat - clock 2%nat);
        mkTestResult "Smart Money" true t2 (clock 5%nat - clock 4%nat);
        mkTestResult "Rugged Projects" true t3 (clock 7%nat - clock 6%nat);
        mkTestResult "ETH Benchmark" b4 t4 (clock 9%nat - clock 8%nat);
        mkTestResult "Portfolio ATH" b5 t5 (clock 11%nat - clock 10%nat) ].
Proof.
  destruct (pnl_report_returns formatUSD (Pnl.analyzePnl nansen address 1))
    as (b0 & t0 & H0).
  destruct (labels_report_returns (Labels.Poc.analyzeLabels nansen address))
    as (b1 & t1 & H1).
  destruct (smart_money_row_succeeds
              (SmartMoney.Poc.analyzeSmartMoney nansen address)) as (t2 & H2).
  destruct (rugged_row_succeeds formatUSD nansen address) as (t3 & H3).
  destruct (eth_benchmark_report_returns
              (EthBenchmark.analyzeEthBenchmark nansen address))
    as (b4 & t4 & H4).
  destruct (portfolio_ath_report_returns
              (PortfolioATH.Plain.analyzePortfolioATH nansen coinGecko address))
    as (b5 & t5 & H5).
  exists b0, b1, b4, b5, t0, t1, t2, t3, t4, t5.
  unfold runAllFunFacts, row, analyses_of.
  cbn [pnlResult labelsResult smartMoneyResult ruggedResult ethBenchmarkResult
       portfolioAthResult].
  rewrite H0. cbn [Nat.add]. rewrite H1. cbn [Nat.add]. rewrite H2.
  cbn [Nat.add]. rewrite H3. cbn [Nat.add]. rewrite H4. cbn [Nat.add].
  rewrite H5. reflexivity.
Qed.

Lemma runner_count (formatUSD : option JS.number -> string) (clock : nat -> Z)
  (nansen : NansenService) (coinGecko : CoinGeckoService) (address : string) :
  exists b0 b1 b4 b5 : bool,
    successCount
      (runAllFunFacts formatUSD clock (analyses_of nansen coinGecko address))
    = (Nat.b2n b0 + Nat.b2n b1 + 2 + Nat.b2n b4 + Nat.b2n b5)%nat.
Proof.
  destruct (runner_rows formatUSD clock nansen coinGecko address)
    as (b0 & b1 & b4 & b5 & t0 & t1 & t2 & t3 & t4 & t5 & ->).
  exists b0, b1, b4, b5. unfold successCount.
  cbn [List.filter TestRunner.success].
  destruct b0, b1, b4, b5; reflexivity.
Qed.

(** X23.  For every upstream, price client and clock, [runAllFunFacts]
    returns six rows, in the order P&L, Labels, Smart Money, Rugged
    Projects, ETH Benchmark, Portfolio ATH, each with the time between
    its two clock readings.  The Smart Money and Rugged Projects rows are
    always successes, so at least 2 of the 6 features count as
    successful and the printed rate is one of 33, 50, 67, 83 and 100; a
    run in which every upstream call fails counts exactly 2. *)
Theorem runner_counts_at_least_two :
  forall (formatUSD : option JS.number -> string) (clock : nat -> Z)
         (nansen : NansenService) (coinGecko : CoinGeckoService)
         (address : string),
    let results :=
      runAllFunFacts formatUSD clock (analyses_of nansen coinGecko address) in
    List.map feature results
    = ["P&L"; "Labels"; "Smart Money"; "Rugged Projects"; "ETH Benchmark";
       "Portfolio ATH"]
    /\ List.map duration results
       = List.map (fun k => (clock (2 * k + 1)%nat - clock (2 * k)%nat)%Z)
                  (seq 0 6)
    /\ (2 <= successCount results <= 6)%nat
    /\ In (successRate results) ["33"; "50"; "67"; "83"; "100"]
    /\ forall e : failure,
         successCount
           (runAllFunFacts formatUSD clock
              (analyses_of (Examples.failing e) (Examples.failing_prices e)
                           address)) = 2%nat.
Proof.
  intros formatUSD clock nansen coinGecko address results.
  destruct (runner_count formatUSD clock nansen coinGecko address)
    as (b0 & b1 & b4 & b5 & Hcount).
  fold results in Hcount.
  destruct (runner_rows formatUSD clock nansen coinGecko address)
    as (c0 & c1 & c4 & c5 & t0 & t1 & t2 & t3 & t4 & t5 & Hrows).
  fold results in Hrows.
  split; [rewrite Hrows; reflexivity|].
  split; [rewrite Hrows; reflexivity|].
  split; [rewrite Hcount; destruct b0, b1, b4, b5; cbn; lia|].
  split.
  - unfold successRate. rewrite Hcount.
    replace (List.length results) with 6%nat by (rewrite Hrows; reflexivity).
    destruct b0, b1, b4, b5; vm_compute; tauto.
  - intros e. reflexivity.
Qed.

End Runner.

(** ** The pagination test and the coverage report *)

Section Scripts.

Lemma fetch_pages_ext {A : Type} (client client' : nat -> outcome (GetAllTest.Page A))
  (turns : nat) :
  forall (currentPage : nat) (allTransactions : list A),
    (forall p, (currentPage <= p < currentPage + turns)%nat ->
               client p = client' p) ->
    GetAllTest.fetch_pages client turns currentPage allTransactions
    = GetAllTest.fetch_pages client' turns currentPage allTransactions.
Proof.
  induction turns as [|turns IH]; intros currentPage allTransactions Hsame;
    cbn [GetAllTest.fetch_pages]; [reflexivity|].
  rewrite <- (Hsame currentPage ltac:(lia)).
  destruct (client currentPage) as [response|e]; cbn [bind]; [|reflexivity].
  destruct (GetAllTest.page_data response) as [data|]; [|reflexivity].
  destruct (GetAllTest.more_pages response); [|reflexivity].
  apply IH. intros p Hp. apply Hsame. lia.
Qed.

Lemma fetch_pages_length {A : Type} (client : nat -> outcome (GetAllTest.Page A))
  (turns : nat) :
  (forall p response data,
     client p = Returned response ->
     GetAllTest.page_data response = Some data ->
     (List.length data <= GetAllTest.PER_PAGE)%nat) ->
  forall (currentPage : nat) (allTransactions result : list A),
    GetAllTest.fetch_pages client turns currentPage allTransactions
    = Returned result ->
    (List.length result
     <= List.length allTransactions + turns * GetAllTest.PER_PAGE)%nat.
Proof.
  intros Hpage.
  induction turns as [|turns IH]; intros currentPage allTransactions result;
    cbn [GetAllTest.fetch_pages].
  - intros [= <-]. lia.
  - destruct (client currentPage) as [response|e] eqn:Hresp; cbn [bind];
      [|discriminate].
    destruct (GetAllTest.page_data response) as [data|] eqn:Hdata.
    + pose proof (Hpage _ _ _ Hresp Hdata) as Hlen.
      destruct (GetAllTest.more_pages response).
      * intros Hrun. apply IH in Hrun. rewrite length_app in Hrun. lia.
      * intros [= <-]. rewrite length_app. lia.
    + intros [= <-]. lia.
Qed.

(** X24.  The pagination loop of the test script asks for pages 1, 2
    and 3 at most, whatever the responses say about a last page: a
    client that differs from page 4 on gives the same outcome.  When each
    page holds at most the 100 transactions asked for, the final count
    is at most 300; a failed call or a first page without a data array
    ends the loop with what has been collected. *)
Theorem test_getall_reads_at_most_three_pages :
  forall (A : Type) (client : nat -> outcome (GetAllTest.Page A)),
    (forall client' : nat -> outcome (GetAllTest.Page A),
       (forall p, (1 <= p <= 3)%nat -> client p = client' p) ->
       GetAllTest.testGetAllTransactions client
       = GetAllTest.testGetAllTransactions client')
    /\ ((forall p response data,
           client p = Returned response ->
           GetAllTest.page_data response = Some data ->
           (List.length data <= GetAllTest.PER_PAGE)%nat) ->
        forall result,
          GetAllTest.testGetAllTransactions client = Returned result ->
          (List.length result <= 300)%nat)
    /\ (forall response,
          client 1%nat = Returned response ->
          GetAllTest.page_data response = None ->
          GetAllTest.testGetAllTransactions client = Returned []).
Proof.
  intros A client. split; [|split].
  - intros client' Hsame. apply fetch_pages_ext.
    intros p Hp. apply Hsame. lia.
  - intros Hpage result Hrun.
    apply (fetch_pages_length client 3 Hpage) in Hrun.
    cbn in Hrun. lia.
  - intros response Hresp Hdata. unfold GetAllTest.testGetAllTransactions.
    cbn [GetAllTest.fetch_pages]. rewrite Hresp. cbn [bind].
    now rewrite Hdata.
Qed.

(** A client that never reports a last page and fails from page 4 on:
    the script collects the three pages. *)
Lemma test_getall_reads_at_most_three_pages_witness :
  GetAllTest.testGetAllTransactions
    (fun p => if (p <=? 3)%nat
              then Returned (GetAllTest.mkPage (Some [p]) None)
              else Thrown NetworkError)
  = Returned [1%nat; 2%nat; 3%nat].
Proof.
  etransitivity.
  - apply (proj1 (test_getall_reads_at_most_three_pages nat
                    (fun p => if (p <=? 3)%nat
                              then Returned (GetAllTest.mkPage (Some [p]) None)
                              else Thrown NetworkError))
                 (fun p => Returned (GetAllTest.mkPage (Some [p]) None))).
    intros p Hp. destruct (Nat.leb_spec p 3); [reflexivity | lia].
  - reflexivity.
Defined.

Lemma ge_Fin (x y : Q) : JS.ge (JS.Fin x) (JS.Fin y) = Qle_bool y x.
Proof.
  unfold JS.ge, JS.lt, JS.eq, JS.Qltb.
  destruct (Qle_bool x y) eqn:Hxy, (Qeq_bool x y) eqn:He, (Qle_bool y x) eqn:Hyx;
    try reflexivity; exfalso.
  - apply Qeq_bool_iff in He.
    assert (Hle : (y <= x)%Q) by lra.
    apply Qle_bool_iff in Hle. congruence.
  - apply Qle_bool_iff in Hxy, Hyx.
    assert (Heq : (x == y)%Q) by lra.
    apply Qeq_bool_iff in Heq. congruence.
  - apply Qeq_bool_iff in He.
    assert (Hle : (y <= x)%Q) by lra.
    apply Qle_bool_iff in Hle. congruence.
  - destruct (Qlt_le_dec x y) as [Hlt|Hle].
    + assert (H : (x <= y)%Q) by lra. apply Qle_bool_iff in H. congruence.
    + apply Qle_bool_iff in Hle. congruence.
Qed.

Lemma Qle_bool_mono (a b q : Q) :
  (a <= b)%Q -> Qle_bool b q = true -> Qle_bool a q = true.
Proof.
  intros Hab H. apply Qle_bool_iff in H. apply Qle_bool_iff. lra.
Qed.

Lemma one_range_per_value (h : Balance.t) :
  JS.gt (Balance.value_usd h) JS.zero = true ->
  fold_left Nat.add
    (List.map (fun range => Nat.b2n (Coverage.in_range range h)) Coverage.ranges)
    0%nat
  = Nat.b2n (JS.is_finite (Balance.value_usd h)).
Proof.
  unfold Coverage.ranges, Coverage.in_range.
  cbn [List.map fold_left Coverage.min Coverage.max].
  destruct (Balance.value_usd h) as [q| | |]; try discriminate.
  - intros Hpos. apply gt_zero_Fin in Hpos.
    unfold JS.of_Z. rewrite !ge_Fin.
    unfold JS.lt, JS.Qltb. cbn [JS.is_finite Nat.b2n].
    assert (H0 : Qle_bool (inject_Z 0) q = true)
      by (apply Qle_bool_iff; unfold inject_Z; lra).
    rewrite H0.
    destruct (Qle_bool (inject_Z 1000) q) eqn:H1000.
    + rewrite (Qle_bool_mono (inject_Z 100) (inject_Z 1000) q),
        (Qle_bool_mono (inject_Z 10) (inject_Z 1000) q);
        first [ reflexivity | assumption | unfold inject_Z, Qle; simpl; lia ].
    + destruct (Qle_bool (inject_Z 100) q) eqn:H100.
      * rewrite (Qle_bool_mono (inject_Z 10) (inject_Z 100) q);
          first [ reflexivity | assumption | unfold inject_Z, Qle; simpl; lia ].
      * destruct (Qle_bool (inject_Z 10) q); reflexivity.
  - intros _. reflexivity.
Qed.

Lemma counted_cons (h : Balance.t) (l : list Balance.t) :
  Coverage.counted (h :: l)
  = (fold_left Nat.add
       (List.map (fun range => Nat.b2n (Coverage.in_range range h))
                 Coverage.ranges) 0
     + Coverage.counted l)%nat.
Proof.
  unfold Coverage.counted, Coverage.count, Coverage.ranges.
  cbn [List.map fold_left List.filter].
  destruct (Coverage.in_range _ h), (Coverage.in_range _ h),
           (Coverage.in_range _ h), (Coverage.in_range _ h);
    cbn [List.length Nat.b2n]; lia.
Qed.

Lemma counted_finite (l : list Balance.t) :
  Forall (fun h => JS.gt (Balance.value_usd h) JS.zero = true) l ->
  Coverage.counted l
  = List.length (List.filter (fun h => JS.is_finite (Balance.value_usd h)) l).
Proof.
  induction 1 as [|h l Hh _ IH]; [reflexivity|].
  rewrite counted_cons, IH, (one_range_per_value h Hh).
  cbn [List.filter].
  destruct (JS.is_finite (Balance.value_usd h)); reflexivity.
Qed.

Lemma split_at_min_value (l : list Balance.t) :
  Forall (fun h => JS.gt (Balance.value_usd h) JS.zero = true) l ->
  (List.length (Coverage.athEligible l) + List.length (Coverage.dustFiltered l)
   = List.length l)%nat.
Proof.
  unfold Coverage.athEligible, Coverage.dustFiltered.
  induction 1 as [|h l Hh _ IH]; [reflexivity|].
  cbn [List.filter List.length].
  assert (Hone : JS.lt (Balance.value_usd h) Coverage.minValue
                 = negb (JS.ge (Balance.value_usd h) Coverage.minValue)).
  { unfold Coverage.minValue, JS.of_Z.
    destruct (Balance.value_usd h) as [q| | |]; try discriminate.
    - rewrite ge_Fin. unfold JS.lt, JS.Qltb. reflexivity.
    - reflexivity. }
  rewrite Hone.
  destruct (JS.ge (Balance.value_usd h) Coverage.minValue);
    cbn [negb List.length]; lia.
Qed.

Lemma coverage_holdings_positive (allHoldings : list Balance.t) :
  Forall (fun h => JS.gt (Balance.value_usd h) JS.zero = true)
         (List.filter Coverage.is_token_holding allHoldings).
Proof.
  apply List.Forall_forall. intros h Hin.
  apply List.filter_In in Hin. destruct Hin as [_ H].
  unfold Coverage.is_token_holding in H.
  destruct (Balance.token_address h); [|discriminate].
  rewrite !andb_true_iff in H. tauto.
Qed.

(** X25.  In the coverage report the four value ranges count every
    token holding of finite value once: the printed counts add up to the
    number of holdings whose value is finite, and a holding whose value
    is infinite is counted in no range.  The split at $50 of the ATH
    section loses none: eligible and dust holdings together are all the
    token holdings. *)
Theorem value_ranges_count_finite_holdings :
  forall allHoldings : list Balance.t,
    let tokenHoldings := List.filter Coverage.is_token_holding allHoldings in
    Coverage.counted tokenHoldings
    = List.length
        (List.filter (fun h => JS.is_finite (Balance.value_usd h)) tokenHoldings)
    /\ (Coverage.counted tokenHoldings <= List.length tokenHoldings)%nat
    /\ (forall h range,
          Balance.value_usd h = JS.PosInf ->
          In range Coverage.ranges ->
          Coverage.in_range range h = false)
    /\ (List.length (Coverage.athEligible tokenHoldings)
        + List.length (Coverage.dustFiltered tokenHoldings)
        = List.length tokenHoldings)%nat.
Proof.
  intros allHoldings tokenHoldings.
  pose proof (coverage_holdings_positive allHoldings) as Hpos.
  fold tokenHoldings in Hpos.
  split; [now apply counted_finite|].
  split; [rewrite (counted_finite _ Hpos); apply List.filter_length_le|].
  split; [|now apply split_at_min_value].
  intros h range Hinf Hin. unfold Coverage.in_range. rewrite Hinf.
  unfold Coverage.ranges in Hin.
  repeat (destruct Hin as [<-|Hin]; [reflexivity|]). destruct Hin.
Qed.

End Scripts.

(** ** Failures of the upstream calls *)

Section Containment.

Lemma portfolio_cached_on_price_failure nansen coinGecko now address c e :
  asked_prices nansen now address c <> [] ->
  batchGetATHPrices coinGecko (asked_prices nansen now address c)
                    PortfolioATH.ATH_LOOKBACK_DAYS = Thrown e ->
  fst (PortfolioATH.Cached.analyzePortfolioATH nansen coinGecko now address c)
  = PortfolioATH.fail.
Proof.
  unfold asked_prices, PortfolioATH.Cached.analyzePortfolioATH,
    PortfolioATH.Cached.body.
  unfold PortfolioATH.Cached.bindM at 1, PortfolioATH.Cached.lift at 1.
  destruct (getCurrentBalance nansen (PortfolioATH.request address))
    as [[[holdings|]|]|e0]; try (intros H; now destruct H).
  cbn [prop]. unfold PortfolioATH.Cached.bindM at 1,
    PortfolioATH.Cached.lift at 1.
  destruct holdings as [|h r]; [intros H; now destruct H|].
  destruct (List.filter PortfolioATH.is_token_holding (h :: r)) as [|th ths];
    [intros H; now destruct H|].
  unfold PortfolioATH.Cached.bindM at 1.
  destruct (PortfolioATH.Cached.for_eachM
              (PortfolioATH.Cached.check_cache now) (th :: ths)
              (PortfolioATH.Cached.mkLookup ∅ [] 0) c) as [[st|e1] c1];
    cbn [fst]; [|intros H; now destruct H].
  intros Hne Hfail.
  destruct (PortfolioATH.Cached.tokensToFetch st) as [|t ts];
    [now destruct Hne|].
  unfold PortfolioATH.Cached.bindM at 1, PortfolioATH.Cached.bindM at 1,
    PortfolioATH.Cached.lift at 1.
  rewrite Hfail. reflexivity.
Qed.

Lemma asked_prices_cold nansen now address c holdings :
  getCurrentBalance nansen (PortfolioATH.request address)
  = Returned (Some (Some holdings)) ->
  AthCache.entries c = ∅ ->
  asked_prices nansen now address c
  = List.map PortfolioATH.token_ref
             (List.filter PortfolioATH.is_token_holding holdings).
Proof.
  intros Hresp Hc. unfold asked_prices. rewrite Hresp.
  destruct (check_cache_cold now
              (List.filter PortfolioATH.is_token_holding holdings)
              (filter_is_token_holding holdings)
              (PortfolioATH.Cached.mkLookup ∅ [] 0) c Hc) as (c' & -> & _).
  reflexivity.
Qed.

(** X26.  No exception leaves an analyzer: each returns what its [try]
    block returned, or its fixed fallback when the block threw.  A
    failure of the P&L, labels, transactions or screener call, of the
    balance call of the rugged-projects and portfolio-ATH analyzers, of
    the balance call that reads the current ETH price, or of the
    ATH-price call of either portfolio analyzer, ends in the fixed
    fallback of the analyzer; the cached portfolio analyzer makes that
    call for the holdings that miss its cache, which on a cache without
    entries are all the holdings that pass the filter.  The helper that
    values the current portfolio of the ETH benchmark never throws
    either: it answers a failed balance call with 0. *)
Theorem failures_are_contained :
  forall (nansen : NansenService) (coinGecko : CoinGeckoService)
         (address : string) (years : nat) (now : Z) (c : AthCache.t),
    (contained (Pnl.body nansen address years) Pnl.fail
               (Pnl.analyzePnl nansen address years)
     /\ contained (Labels.Poc.body nansen address) Labels.fail
                  (Labels.Poc.analyzeLabels nansen address)
     /\ contained (Labels.Prd.body nansen address) Labels.fail
                  (Labels.Prd.analyzeLabels nansen address)
     /\ contained (SmartMoney.Poc.body nansen address) SmartMoney.fail
                  (SmartMoney.Poc.analyzeSmartMoney nansen address)
     /\ contained (SmartMoney.Prd.body nansen address) SmartMoney.fail
                  (SmartMoney.Prd.analyzeSmartMoney nansen address)
     /\ contained (RuggedProjects.body nansen address) RuggedProjects.clear_skies
                  (RuggedProjects.analyzeRuggedProjects nansen address)
     /\ contained (EthBenchmark.body nansen address) EthBenchmark.fail
                  (EthBenchmark.analyzeEthBenchmark nansen address)
     /\ contained (PortfolioATH.Plain.body nansen coinGecko address)
                  PortfolioATH.fail
                  (PortfolioATH.Plain.analyzePortfolioATH nansen coinGecko address)
     /\ contained (fst (PortfolioATH.Cached.body nansen coinGecko now address c))
                  PortfolioATH.fail
                  (fst (PortfolioATH.Cached.analyzePortfolioATH
                          nansen coinGecko now address c)))
    /\ (forall e, getPnlSummary nansen (Pnl.request address years) = Thrown e ->
          Pnl.analyzePnl nansen address years = Pnl.fail)
    /\ (forall e, getLabels nansen (Labels.request address) = Thrown e ->
          Labels.Poc.analyzeLabels nansen address = Labels.fail
          /\ Labels.Prd.analyzeLabels nansen address = Labels.fail
          /\ SmartMoney.Poc.analyzeSmartMoney nansen address = SmartMoney.fail
          /\ SmartMoney.Prd.analyzeSmartMoney nansen address = SmartMoney.fail)
    /\ (forall e,
          getCurrentBalance nansen (RuggedProjects.request address) = Thrown e ->
          RuggedProjects.analyzeRuggedProjects nansen address
          = RuggedProjects.clear_skies)
    /\ ((forall req, exists e, screenTokens nansen req = Thrown e) ->
        RuggedProjects.analyzeRuggedProjects nansen address
        = RuggedProjects.clear_skies)
    /\ (forall e,
          getAllTransactions nansen (EthBenchmark.request address) = Thrown e ->
          EthBenchmark.analyzeEthBenchmark nansen address = EthBenchmark.fail)
    /\ (forall e,
          getCurrentBalance nansen (EthBenchmark.price_request address) = Thrown e ->
          EthBenchmark.analyzeEthBenchmark nansen address = EthBenchmark.fail)
    /\ (forall e,
          getCurrentBalance nansen (PortfolioATH.request address) = Thrown e ->
          PortfolioATH.Plain.analyzePortfolioATH nansen coinGecko address
          = PortfolioATH.fail
          /\ PortfolioATH.Cached.analyzePortfolioATH nansen coinGecko now address c
             = (PortfolioATH.fail, c))
    /\ ((forall tokens days,
           exists e, batchGetATHPrices coinGecko tokens days = Thrown e) ->
        PortfolioATH.Plain.analyzePortfolioATH nansen coinGecko address
        = PortfolioATH.fail)
    /\ (forall e,
          asked_prices nansen now address c <> [] ->
          batchGetATHPrices coinGecko (asked_prices nansen now address c)
                            PortfolioATH.ATH_LOOKBACK_DAYS = Thrown e ->
          fst (PortfolioATH.Cached.analyzePortfolioATH
                 nansen coinGecko now address c) = PortfolioATH.fail)
    /\ (forall holdings,
          getCurrentBalance nansen (PortfolioATH.request address)
          = Returned (Some (Some holdings)) ->
          AthCache.entries c = ∅ ->
          asked_prices nansen now address c
          = List.map PortfolioATH.token_ref
                     (List.filter PortfolioATH.is_token_holding holdings))
    /\ (forall e tokens,
          getCurrentBalance nansen (EthBenchmark.holdings_request address)
          = Thrown e ->
          EthBenchmark.calculateCurrentPortfolioValue nansen address tokens
          = JS.zero).
Proof.
  intros nansen coinGecko address years now c.
  split.
  { repeat split; try apply try_catch_contained.
    unfold PortfolioATH.Cached.analyzePortfolioATH.
    destruct (PortfolioATH.Cached.body nansen coinGecko now address c) as [o c'].
    apply try_catch_contained. }
  split.
  { intros e H. unfold Pnl.analyzePnl, Pnl.body. now rewrite H. }
  split.
  { intros e H.
    unfold Labels.Poc.analyzeLabels, Labels.Poc.body,
      Labels.Prd.analyzeLabels, Labels.Prd.body,
      SmartMoney.Poc.analyzeSmartMoney, SmartMoney.Poc.body,
      SmartMoney.Prd.analyzeSmartMoney, SmartMoney.Prd.body.
    rewrite H. repeat split. }
  split.
  { intros e H.
    unfold RuggedProjects.analyzeRuggedProjects, RuggedProjects.body.
    now rewrite H. }
  split; [apply rugged_on_screener_failure|].
  split.
  { intros e H. rewrite analyze_by_response. now rewrite H. }
  split.
  { intros e H. apply eth_benchmark_without_eth_price.
    now apply current_eth_price_on_failure with e. }
  split.
  { intros e H. split.
    - unfold PortfolioATH.Plain.analyzePortfolioATH, PortfolioATH.Plain.body.
      now rewrite H.
    - now apply portfolio_cached_on_balance_failure with e. }
  split; [apply portfolio_plain_on_price_failure|].
  split; [apply portfolio_cached_on_price_failure|].
  split; [apply asked_prices_cold|].
  intros e tokens H. now apply portfolio_value_on_failure with e.
Qed.

(** Three upstreams whose every call fails, and the cached portfolio
    analyzer on a fresh cache with a price client that fails. *)
Lemma failures_are_contained_witness :
  Pnl.analyzePnl (Examples.failing NetworkError) Examples.WALLET 1 = Pnl.fail
  /\ EthBenchmark.analyzeEthBenchmark (Examples.failing (HttpStatus 429))
                                      Examples.WALLET
     = EthBenchmark.fail
  /\ RuggedProjects.analyzeRuggedProjects (Examples.failing TypeError)
                                          Examples.WALLET
     = RuggedProjects.clear_skies
  /\ fst (PortfolioATH.Cached.analyzePortfolioATH
            (Examples.with_balances [Examples.holding_A; Examples.holding_B])
            (Examples.failing_prices NetworkError)
            Examples.NOW Examples.WALLET AthCache.empty)
     = PortfolioATH.fail.
Proof.
  split; [|split; [|split]].
  - apply (proj1 (proj2 (failures_are_contained
                           (Examples.failing NetworkError)
                           (Examples.failing_prices NetworkError)
                           Examples.WALLET 1 Examples.NOW AthCache.empty))
             NetworkError).
    reflexivity.
  - destruct (failures_are_contained
                (Examples.failing (HttpStatus 429))
                (Examples.failing_prices NetworkError)
                Examples.WALLET 1 Examples.NOW AthCache.empty)
      as (_ & _ & _ & _ & _ & H & _).
    apply (H (HttpStatus 429)). reflexivity.
  - destruct (failures_are_contained
                (Examples.failing TypeError)
                (Examples.failing_prices NetworkError)
                Examples.WALLET 1 Examples.NOW AthCache.empty)
      as (_ & _ & _ & H & _).
    apply (H TypeError). reflexivity.
  - destruct (failures_are_contained
                (Examples.with_balances [Examples.holding_A; Examples.holding_B])
                (Examples.failing_prices NetworkError)
                Examples.WALLET 1 Examples.NOW AthCache.empty)
      as (_ & _ & _ & _ & _ & _ & _ & _ & _ & H & _).
    apply (H NetworkError).
    + vm_compute. discriminate.
    + reflexivity.
Defined.

End Containment.
